(** * REANA status providers: a shallow embedding of [reana_server/status.py]

    The module collects read-only operational statistics from a relational
    database, the Kubernetes API and a few shell utilities.  The embedding
    keeps the layout of the Python module: one Rocq module per class, the
    methods under their own names, the external collaborators (database
    tables, Kubernetes API, subprocess output, clock) gathered in a [World]
    record that every method receives. *)

From Stdlib Require Import ZArith QArith Lia Ascii String SpecFloat.
From stdpp Require Import base tactics option list strings gmap sorting pretty.

Local Open Scope string_scope.

(* ===================================================================== *)
(** * Python run-time notions used by the module                          *)
(* ===================================================================== *)

Module Py.

(** The exceptions that can travel through [status.py].  [ApiException] is
    the Kubernetes client's exception (kubernetes.client.rest); the others
    are built-ins raised by the interpreter or by [subprocess]. *)
Inductive exn :=
| ApiException (status : Z) (reason : string)
| NameError (name : string)
| TypeError (msg : string)
| KeyError (key : string)
| IndexError
| ValueError
| ZeroDivisionError
| OverflowError (msg : string)
| NotImplementedError
| FileNotFoundError
| CalledProcessError (returncode : Z)
| UnicodeDecodeError.

Inductive result (A : Type) :=
| Ok (a : A)
| Raise (e : exn).
Global Arguments Ok {A} a.
Global Arguments Raise {A} e.

(** A computation of the module: what it passed to [logging.error] so far,
    and how it ended. *)
Record io (A : Type) := IO { logged : list string; outcome : result A }.
Global Arguments IO {A} logged outcome.
Global Arguments logged {A} _.
Global Arguments outcome {A} _.

Definition ret {A} (a : A) : io A := IO [] (Ok a).
Definition raise {A} (e : exn) : io A := IO [] (Raise e).
Definition lift {A} (r : result A) : io A := IO [] r.

Definition bind {A B} (m : io A) (k : A → io B) : io B :=
  match outcome m with
  | Ok a => IO (logged m ++ logged (k a)) (outcome (k a))
  | Raise e => IO (logged m) (Raise e)
  end.

Global Instance io_ret : MRet io := @ret.
Global Instance io_bind : MBind io := λ A B k m, bind m k.
Global Instance io_fmap : FMap io := λ A B f m, bind m (λ a, ret (f a)).

(** [logging.error(msg)] *)
Definition logging_error (msg : string) : io unit := IO [msg] (Ok tt).

(** [for x in xs: acc = body(acc, x)], stopping at the first exception. *)
Fixpoint for_each {A St} (xs : list A) (body : St → A → io St) (acc : St) : io St :=
  match xs with
  | [] => ret acc
  | x :: xs' => acc' ← body acc x; for_each xs' body acc'
  end.

(** [str(e)] for the exceptions above, as far as the module prints them. *)
Definition str_exn (e : exn) : string :=
  match e with
  | ApiException st reason =>
      "(" +:+ pretty st +:+ ")" +:+ String "010" "Reason: " +:+ reason +:+ String "010" ""
  | NameError n => "name '" +:+ n +:+ "' is not defined"
  | TypeError m => m
  | KeyError k => "'" +:+ k +:+ "'"
  | IndexError => "list index out of range"
  | ValueError => "value is not in list"
  | ZeroDivisionError => "division by zero"
  | OverflowError m => m
  | NotImplementedError => ""
  | FileNotFoundError => "No such file or directory"
  | CalledProcessError rc => "Command returned non-zero exit status " +:+ pretty rc
  | UnicodeDecodeError => "invalid start byte"
  end.

(** ** Name resolution in an [except] clause

    [except C as e:] evaluates the expression [C] only once an exception
    has reached the clause: an unbound name raises [NameError] there, a
    bound object that is no exception class raises [TypeError], and an
    exception class handles its instances and lets the others through. *)
Inductive binding :=
| BModule
| BFunction
| BConstant
| BClass
| BExceptionClass (isinstance : exn → bool).

Abbreviation namespace := (gmap string binding).

Definition builtins : namespace :=
  list_to_map
    [ ("NameError", BExceptionClass (λ e, match e with NameError _ => true | _ => false end));
      ("TypeError", BExceptionClass (λ e, match e with TypeError _ => true | _ => false end));
      ("KeyError", BExceptionClass (λ e, match e with KeyError _ => true | _ => false end));
      ("IndexError", BExceptionClass (λ e, match e with IndexError => true | _ => false end));
      ("ValueError", BExceptionClass (λ e, match e with ValueError | UnicodeDecodeError => true | _ => false end));
      ("ZeroDivisionError", BExceptionClass (λ e, match e with ZeroDivisionError => true | _ => false end));
      ("OverflowError", BExceptionClass (λ e, match e with OverflowError _ => true | _ => false end));
      ("NotImplementedError", BExceptionClass (λ e, match e with NotImplementedError => true | _ => false end));
      ("FileNotFoundError", BExceptionClass (λ e, match e with FileNotFoundError => true | _ => false end));
      ("UnicodeDecodeError", BExceptionClass (λ e, match e with UnicodeDecodeError => true | _ => false end));
      ("Exception", BExceptionClass (λ _, true)) ].

(** Globals of the module first, then the built-ins. *)
Definition resolve (globals : namespace) (name : string) : option binding :=
  match globals !! name with
  | Some b => Some b
  | None => builtins !! name
  end.

(** [try: body  except <cls> as e: handler(e)] *)
Definition try_except {A} (globals : namespace) (body : io A)
    (cls : string) (handler : exn → io A) : io A :=
  match outcome body with
  | Ok a => body
  | Raise e =>
      match resolve globals cls with
      | None => IO (logged body) (Raise (NameError cls))
      | Some (BExceptionClass isinstance) =>
          if isinstance e
          then IO (logged body ++ logged (handler e)) (outcome (handler e))
          else body
      | Some _ =>
          IO (logged body)
             (Raise (TypeError "catching classes that do not inherit from BaseException is not allowed"))
      end
  end.

(** ** [str]

    A [str] is modelled as a Rocq [string] whose characters stand for the
    code points below 256; the predicates below are Python's on that
    range. *)

(** [c.isspace()] *)
Definition isspace (c : ascii) : bool :=
  let n := N_of_ascii c in
  ((9 <=? n) && (n <=? 13) || (28 <=? n) && (n <=? 32) || (n =? 133) || (n =? 160))%N.

(** The line boundaries [str.splitlines] honours (besides the pair CR LF). *)
Definition is_linebreak (c : ascii) : bool :=
  let n := N_of_ascii c in
  ((10 <=? n) && (n <=? 13) || (28 <=? n) && (n <=? 30) || (n =? 133))%N.

Definition CR : ascii := "013"%char.
Definition LF : ascii := "010"%char.

Definition starts_with_nonspace (s : string) : bool :=
  match s with
  | String c _ => negb (isspace c)
  | EmptyString => false
  end.

(** [s.split()]: the maximal runs of non-whitespace characters. *)
Fixpoint split (s : string) : list string :=
  match s with
  | EmptyString => []
  | String c s' =>
      if isspace c then split s'
      else match starts_with_nonspace s', split s' with
           | true, w :: ws => String c w :: ws
           | _, ws => String c "" :: ws
           end
  end.

(** [s.splitlines()] *)
Fixpoint splitlines (s : string) : list string :=
  match s with
  | EmptyString => []
  | String c s' =>
      if is_linebreak c then
        match s' with
        | String c' s'' =>
            if Ascii.eqb c CR && Ascii.eqb c' LF
            then "" :: splitlines s''
            else "" :: splitlines s'
        | EmptyString => [""]
        end
      else match splitlines s' with
           | [] => [String c ""]
           | l :: ls => String c l :: ls
           end
  end.

Fixpoint char_in (c : ascii) (chars : string) : bool :=
  match chars with
  | EmptyString => false
  | String d chars' => Ascii.eqb c d || char_in c chars'
  end.

(** [s.rstrip(chars)] *)
Fixpoint rstrip (chars : string) (s : string) : string :=
  match s with
  | EmptyString => ""
  | String c s' =>
      match rstrip chars s' with
      | EmptyString => if char_in c chars then "" else String c ""
      | r => String c r
      end
  end.

(** [sep.join(parts)] *)
Fixpoint join (sep : string) (parts : list string) : string :=
  match parts with
  | [] => ""
  | p :: ps =>
      match ps with
      | [] => p
      | _ :: _ => p +:+ sep +:+ join sep ps
      end
  end.

Definition lower_char (c : ascii) : ascii :=
  let n := N_of_ascii c in
  if ((65 <=? n) && (n <=? 90) || (192 <=? n) && (n <=? 222) && negb (n =? 215))%N
  then ascii_of_N (n + 32)
  else c.

(** [s.lower()] *)
Fixpoint lower (s : string) : string :=
  match s with
  | EmptyString => ""
  | String c s' => String (lower_char c) (lower s')
  end.

(** [s.startswith(p)] *)
Definition startswith (s p : string) : bool := String.prefix p s.

(** [xs.index(x)] *)
Fixpoint index (x : string) (xs : list string) : result nat :=
  match xs with
  | [] => Raise ValueError
  | y :: xs' =>
      if String.eqb y x then Ok 0
      else match index x xs' with
           | Ok i => Ok (S i)
           | Raise e => Raise e
           end
  end.

(** [xs[i]] for a list and a non-negative [i] *)
Definition list_getitem {A} (xs : list A) (i : nat) : result A :=
  match xs !! i with
  | Some a => Ok a
  | None => Raise IndexError
  end.

(** [d[k]] for a dict with string keys *)
Definition getitem {V} (d : gmap string V) (k : string) : result V :=
  match d !! k with
  | Some v => Ok v
  | None => Raise (KeyError k)
  end.

(** [f"{d.get(k)}"]: the value, or the text of [None]. *)
Definition format_get (d : gmap string string) (k : string) : string :=
  default "None" (d !! k).

(** ** Dicts whose iteration order is observed

    [dict] keeps insertion order: assigning to a present key keeps its
    place, a new key goes last. *)
Definition odict (V : Type) := list (string * V).

Fixpoint odict_get {V} (d : odict V) (k : string) : result V :=
  match d with
  | [] => Raise (KeyError k)
  | (k', v) :: d' => if String.eqb k' k then Ok v else odict_get d' k
  end.

Fixpoint odict_set {V} (d : odict V) (k : string) (v : V) : odict V :=
  match d with
  | [] => [(k, v)]
  | (k', v') :: d' =>
      if String.eqb k' k then (k', v) :: d' else (k', v') :: odict_set d' k v
  end.

(** ** [datetime] and [timedelta]: microseconds, as the interpreter keeps
    them. *)
Definition datetime := Z.
Definition timedelta (days hours minutes : Z) : Z :=
  (((days * 24 + hours) * 60 + minutes) * 60 * 1000000)%Z.

(** [a or b] for an optional object whose instances are all truthy. *)
Definition or_else {A} (a : option A) (b : A) : A := default b a.

(** ** [float]: IEEE 754 binary64, as the interpreter's [float] is

    The values are those of [SpecFloat]: a sign, a mantissa and a binary
    exponent, with precision 53 and exponents up to 1024. *)
Definition float := spec_float.

(** An [int], exactly: the operations below round. *)
Definition int_value (z : Z) : float :=
  match z with
  | Z0 => S754_zero false
  | Zpos m => S754_finite false m 0
  | Zneg m => S754_finite true m 0
  end.

(** [a / b] on two [int]s: the quotient rounded once, to nearest with ties
    to even; [ZeroDivisionError] for a zero divisor and [OverflowError]
    for a quotient beyond the largest [float]. *)
Definition int_truediv (a b : Z) : result float :=
  if (b =? 0)%Z then Raise ZeroDivisionError
  else match SFdiv 53 1024 (int_value a) (int_value b) with
       | S754_infinity _ => Raise (OverflowError "integer division result too large for a float")
       | q => Ok q
       end.

(** [x * n] for a [float] and a small [int] *)
Definition float_mul (x y : float) : float := SFmul 53 1024 x y.

(** [round(x)] with one argument: the nearest [int], ties to the even one
    (the module rounds no NaN; its [ValueError] is listed for the match to
    be complete). *)
Definition round (x : float) : result Z :=
  match x with
  | S754_zero _ => Ok 0%Z
  | S754_infinity _ => Raise (OverflowError "cannot convert float infinity to integer")
  | S754_nan => Raise ValueError
  | S754_finite sign m e =>
      let n :=
        if (0 <=? e)%Z then Z.shiftl (Zpos m) e
        else
          let d := Z.shiftl 1 (- e) in
          let q := (Zpos m / d)%Z in
          let r := (Zpos m mod d)%Z in
          match (2 * r ?= d)%Z with
          | Lt => q
          | Gt => (q + 1)%Z
          | Eq => if Z.even q then q else (q + 1)%Z
          end in
      Ok (if sign then (- n)%Z else n)
  end.

End Py.

(* ===================================================================== *)
(** * The query language the module uses (SQLAlchemy over SQL)            *)
(* ===================================================================== *)

Module Sql.

(** A column value is [None] for SQL NULL.  A predicate has three values;
    [None] is UNKNOWN. *)
Definition tv := option bool.

Definition eq {A} `{EqDecision A} (x y : option A) : tv :=
  match x, y with
  | Some a, Some b => Some (bool_decide (a = b))
  | _, _ => None
  end.

Definition not_ (t : tv) : tv := negb <$> t.

(** [x != y] *)
Definition ne {A} `{EqDecision A} (x y : option A) : tv := not_ (eq x y).

(** [x <= y] on timestamps *)
Definition le (x y : option Z) : tv :=
  match x, y with
  | Some a, Some b => Some (a <=? b)%Z
  | _, _ => None
  end.

Definition or_ (a b : tv) : tv :=
  match a, b with
  | Some true, _ | _, Some true => Some true
  | Some false, Some false => Some false
  | _, _ => None
  end.

(** [x IN (v1, ..., vn)] for literal values *)
Definition in_ {A} `{EqDecision A} (x : option A) (vs : list A) : tv :=
  foldr (λ v acc, or_ (eq x (Some v)) acc) (Some false) vs.

(** [x NOT IN (v1, ..., vn)] *)
Definition notin_ {A} `{EqDecision A} (x : option A) (vs : list A) : tv :=
  not_ (in_ x vs).

(** WHERE keeps the rows whose predicate is TRUE. *)
Definition holds (t : tv) : bool :=
  match t with
  | Some true => true
  | _ => false
  end.

(** [query.filter(criterion)] *)
Definition filter {R} (criterion : R → tv) (query : list R) : list R :=
  List.filter (λ r, holds (criterion r)) query.

(** [query.count()] *)
Definition count {R} (query : list R) : nat := length query.

(** [query.limit(n)] *)
Definition limit {R} (n : nat) (query : list R) : list R := take n query.

(** [query.order_by(desc(key))]: a row may stand before another when its
    key is not the smaller one.  SQL leaves the order among equal keys to
    the engine; the model takes the one merge sort gives. *)
Definition before {R K} (key_le : K → K → bool) (key : R → K) (a b : R) : Prop :=
  key_le (key b) (key a) = true.

#[global] Instance before_dec {R K} (key_le : K → K → bool) (key : R → K) :
  RelDecision (before key_le key).
Proof. intros a b. unfold before. apply _. Defined.

Definition order_by_desc {R K} (key_le : K → K → bool) (key : R → K)
    (query : list R) : list R :=
  merge_sort (before key_le key) query.

(** The numeric type the engine computes [quota_used * 100.0 / quota_limit]
    in (double precision or numeric, by the engine): the operations the
    module's queries use, and the order ORDER BY sorts by. *)
Class Numeric (K : Type) := {
  of_int : Z → K;
  mul : K → K → K;
  div : K → K → K;
  num_le : K → K → bool;
  num_le_total : ∀ x y, num_le x y = true ∨ num_le y x = true;
  num_le_trans : ∀ x y z, num_le x y = true → num_le y z = true → num_le x z = true;
}.

End Sql.

(** Exact rationals as the engine's numeric type. *)
#[global] Program Instance Q_numeric : Sql.Numeric Q := {|
  Sql.of_int := inject_Z;
  Sql.mul := Qmult;
  Sql.div := Qdiv;
  Sql.num_le := Qle_bool;
|}.
Next Obligation.
  intros x y. rewrite !Qle_bool_iff.
  destruct (Qlt_le_dec x y) as [Hlt|Hle]; [left; by apply Qlt_le_weak | by right].
Qed.
Next Obligation.
  intros x y z. rewrite !Qle_bool_iff. apply Qle_trans.
Qed.

(* ===================================================================== *)
(** * The records the module reads                                        *)
(* ===================================================================== *)

(** Modelled from the spec: [reana_db.models.RunStatus] is not part of this
    module; its members are the run statuses the glossary lists. *)
Module RunStatus.
Inductive t := pending | running | finished | failed | stopped | deleted | queued.
#[global] Instance eq_dec : EqDecision t.
Proof. solve_decision. Defined.
End RunStatus.

(** Modelled from the spec: [reana_db.models.JobStatus], with the members
    the job provider names. *)
Module JobStatus.
Inductive t := running | finished | failed | queued.
#[global] Instance eq_dec : EqDecision t.
Proof. solve_decision. Defined.
(** [status.name] *)
Definition name (s : t) : string :=
  match s with
  | running => "running"
  | finished => "finished"
  | failed => "failed"
  | queued => "queued"
  end.
End JobStatus.

(** Modelled from the spec: [reana_db.models.ResourceType] (disk, cpu). *)
Module ResourceType.
Inductive t := cpu | disk.
#[global] Instance eq_dec : EqDecision t.
Proof. solve_decision. Defined.
End ResourceType.

(** Modelled from the spec: a workflow row (status enum, restart flag,
    git-repo reference, timestamps); every column may hold NULL. *)
Module Workflow.
Record t := {
  status : option RunStatus.t;
  restart : option bool;
  git_repo : option string;
  run_started_at : option Py.datetime;
  updated : option Py.datetime;
}.
End Workflow.

(** Modelled from the spec: an interactive-session row (status enum; the
    column is declared NOT NULL). *)
Module InteractiveSession.
Record t := { status : RunStatus.t }.
End InteractiveSession.

(** Modelled from the spec: a job row (status enum, compute-backend label). *)
Module Job.
Record t := {
  status : option JobStatus.t;
  compute_backend : option string;
}.
End Job.

(** Modelled from the spec: a web-session activity row. *)
Module SessionActivity.
Record t := { sid_s : string }.
End SessionActivity.

Module User.
Record t := { email : string; workspace_path : string }.
End User.

(** Modelled from the spec: a resource (type, unit; the unit is the label
    the human-readable formatter is keyed by). *)
Module Resource.
Record t := { type_ : ResourceType.t; unit : string }.
End Resource.

(** Modelled from the spec: a per-user, per-resource quota row with the
    user and the resource its relationships load. *)
Module UserResource.
Record t := {
  user : User.t;
  resource : Resource.t;
  quota_limit : Z;
  quota_used : Z;
}.
End UserResource.

(** Kubernetes objects, with the attributes the module reads. *)
Module V1Node.
Record t := {
  metadata_name : string;
  status_capacity : gmap string string;
}.
End V1Node.

Module V1Pod.
Record t := { metadata_name : string }.
End V1Pod.

(** The body of a [metrics.k8s.io/v1beta1/nodes] listing: a dict whose
    [items], when present, are dicts of dicts. *)
Definition NodeMetric := gmap string (gmap string string).
Record NodeMetricsList := { items : option (list NodeMetric) }.

(** Constants of [reana_commons.config]. *)
Record Config := {
  REANA_COMPONENT_PREFIX : string;
  REANA_INFRASTRUCTURE_KUBERNETES_NAMESPACE : string;
  REANA_RUNTIME_KUBERNETES_NAMESPACE : string;
  SHARED_VOLUME_PATH : string;
}.

(** Functions imported from modules outside this one. *)
Record Imports := {
  (** [reana_commons.job_utils.kubernetes_memory_to_bytes]: a whole number
      of bytes *)
  kubernetes_memory_to_bytes : string → Py.result Z;
  (** [ResourceUnit.human_readable_unit(unit, value)] *)
  human_readable_unit : string → Z → string;
  (** [reana_server.utils.get_usage_percentage(usage, limit)] *)
  get_usage_percentage : Z → Z → string;
}.

(** What the module reads from outside at the time of one status request. *)
Record World := {
  (** [datetime.now()] *)
  now : Py.datetime;
  (** [Session.query(Model)]: the rows of each table *)
  workflows : list Workflow.t;
  interactive_sessions : list InteractiveSession.t;
  jobs : list Job.t;
  session_activities : list SessionActivity.t;
  user_resources : list UserResource.t;
  (** [current_k8s_corev1_api_client.list_node(field_selector=...)] *)
  list_node : option string → Py.result (list V1Node.t);
  (** [current_k8s_corev1_api_client.list_namespaced_pod(namespace, field_selector=...)] *)
  list_namespaced_pod : string → string → Py.result (list V1Pod.t);
  (** [current_k8s_custom_objects_api_client.list_cluster_custom_object(group, version, plural)] *)
  list_cluster_custom_object : string → string → string → Py.result NodeMetricsList;
  (** [subprocess.check_output(cmd).decode()] *)
  check_output : list string → Py.result string;
}.

(** A dict display or comprehension: the items are stored in turn, a later
    item replacing an earlier one of the same key. *)
Definition dict_of_items {V} (kvs : list (string * V)) : gmap string V :=
  foldl (λ d kv, <[kv.1 := kv.2]> d) ∅ kvs.

(* ===================================================================== *)
(** * The providers                                                       *)
(* ===================================================================== *)

(** ** [class REANAStatus] *)
Module REANAStatus.

Record t := mk {
  from_ : Py.datetime;
  until : Py.datetime;
  user : option User.t;
  namespaces : gset string;
}.

Definition __init__ (cfg : Config) (w : World)
    (from_ until : option Py.datetime) (user : option User.t) : t :=
  mk (Py.or_else from_ (now w - Py.timedelta 1 0 0)%Z)
     (Py.or_else until (now w))
     user
     {[ REANA_INFRASTRUCTURE_KUBERNETES_NAMESPACE cfg;
        REANA_RUNTIME_KUBERNETES_NAMESPACE cfg ]}.

Definition execute_cmd (self : t) (w : World) (cmd : list string) : Py.io string :=
  output ← Py.lift (check_output w cmd);
  mret (Py.rstrip (String Py.CR (String Py.LF "")) output).

Definition get_status (self : t) (w : World) : Py.io (gmap string string) :=
  Py.raise Py.NotImplementedError.

End REANAStatus.

(** ** [class InteractiveSessionsStatus(REANAStatus)] *)
Module InteractiveSessionsStatus.

Definition __init__ := REANAStatus.__init__.

Definition get_active (self : REANAStatus.t) (w : World) : nat :=
  let non_active_statuses :=
    [RunStatus.stopped; RunStatus.deleted; RunStatus.failed] in
  let active_interactive_sessions :=
    Sql.count
      (Sql.filter
         (λ s, Sql.notin_ (Some (InteractiveSession.status s)) non_active_statuses)
         (interactive_sessions w)) in
  active_interactive_sessions.

Definition get_status (self : REANAStatus.t) (w : World) : gmap string nat :=
  dict_of_items [("active", get_active self w)].

End InteractiveSessionsStatus.

(** ** [class SystemStatus(REANAStatus)] *)
Module SystemStatus.

Definition __init__ := REANAStatus.__init__.

Definition uptime (self : REANAStatus.t) (w : World) : Py.io string :=
  let cmd := ["uptime"; "-p"] in
  REANAStatus.execute_cmd self w cmd.

Definition get_status (self : REANAStatus.t) (w : World) : Py.io (gmap string string) :=
  up ← uptime self w;
  mret (dict_of_items [("uptime", up)]).

End SystemStatus.

(** ** [class StorageStatus(REANAStatus)] *)
Module StorageStatus.

Definition __init__ := REANAStatus.__init__.

Definition _get_path (cfg : Config) (self : REANAStatus.t) : string :=
  match REANAStatus.user self with
  | Some user => User.workspace_path user
  | None => SHARED_VOLUME_PATH cfg +:+ "/users"
  end.

Definition users_directory_size (cfg : Config) (self : REANAStatus.t) (w : World)
    : Py.io string :=
  let depth := 0%Z in
  let cmd := ["du"; "-h"; "--max-depth=" +:+ pretty depth; _get_path cfg self] in
  output ← REANAStatus.execute_cmd self w cmd;
  size ← Py.lift (Py.list_getitem (Py.split output) 0);
  mret size.

Definition shared_volume_health (cfg : Config) (self : REANAStatus.t) (w : World)
    : Py.io string :=
  let cmd := ["df"; "-h"; SHARED_VOLUME_PATH cfg] in
  text ← REANAStatus.execute_cmd self w cmd;
  let output := Py.splitlines text in
  line0 ← Py.lift (Py.list_getitem output 0);
  let headers := Py.split line0 in
  line1 ← Py.lift (Py.list_getitem output 1);
  let values := Py.split line1 in
  used_index ← Py.lift (Py.index "Used" headers);
  available_index ← Py.lift (Py.index "Avail" headers);
  use_percentage_index ← Py.lift (Py.index "Use%" headers);
  used ← Py.lift (Py.list_getitem values used_index);
  available ← Py.lift (Py.list_getitem values available_index);
  use_percentage ← Py.lift (Py.list_getitem values use_percentage_index);
  mret (used +:+ "/" +:+ available +:+ " (" +:+ use_percentage +:+ ")").

Definition get_status (cfg : Config) (self : REANAStatus.t) (w : World)
    : Py.io (gmap string string) :=
  size ← users_directory_size cfg self w;
  health ← shared_volume_health cfg self w;
  mret (dict_of_items [("user_directory_size", size); ("shared_volume_health", health)]).

End StorageStatus.

(** ** [class UsersStatus(REANAStatus)] *)
Module UsersStatus.

Definition __init__ := REANAStatus.__init__.

Definition active_web_users (self : REANAStatus.t) (w : World) : nat :=
  Sql.count (session_activities w).

Definition get_status (self : REANAStatus.t) (w : World) : gmap string nat :=
  dict_of_items [("active_web_users", active_web_users self w)].

End UsersStatus.

(** ** [class WorkflowsStatus(REANAStatus)] *)
Module WorkflowsStatus.

Definition __init__ := REANAStatus.__init__.

Definition get_workflows_by_status (self : REANAStatus.t) (w : World)
    (status : RunStatus.t) : nat :=
  let number :=
    Sql.count
      (Sql.filter (λ r, Sql.eq (Workflow.status r) (Some status)) (workflows w)) in
  number.

Definition restarted_workflows (self : REANAStatus.t) (w : World) : nat :=
  let number := Sql.count (Sql.filter Workflow.restart (workflows w)) in
  number.

Definition stuck_in_running_workflows (self : REANAStatus.t) (w : World) : nat :=
  let inactivity_threshold := (now w - Py.timedelta 0 12 0)%Z in
  let number :=
    Sql.count
      (Sql.filter (λ r, Sql.le (Workflow.updated r) (Some inactivity_threshold))
      (Sql.filter (λ r, Sql.le (Workflow.run_started_at r) (Some inactivity_threshold))
      (Sql.filter (λ r, Sql.eq (Workflow.status r) (Some RunStatus.running))
         (workflows w)))) in
  number.

Definition stuck_in_pending_workflows (self : REANAStatus.t) (w : World) : nat :=
  let inactivity_threshold := (now w - Py.timedelta 0 0 20)%Z in
  let number :=
    Sql.count
      (Sql.filter (λ r, Sql.le (Workflow.updated r) (Some inactivity_threshold))
      (Sql.filter (λ r, Sql.eq (Workflow.status r) (Some RunStatus.pending))
         (workflows w))) in
  number.

Definition git_workflows (self : REANAStatus.t) (w : World) : nat :=
  let number :=
    Sql.count (Sql.filter (λ r, Sql.ne (Workflow.git_repo r) (Some "")) (workflows w)) in
  number.

Definition get_status (self : REANAStatus.t) (w : World) : gmap string nat :=
  dict_of_items
    [ ("running", get_workflows_by_status self w RunStatus.running);
      ("finished", get_workflows_by_status self w RunStatus.finished);
      ("stuck in running", stuck_in_running_workflows self w);
      ("stuck in pending", stuck_in_pending_workflows self w);
      ("queued", get_workflows_by_status self w RunStatus.queued);
      ("restarts", restarted_workflows self w);
      ("git_source", git_workflows self w) ].

End WorkflowsStatus.

(** ** [class QuotaUsageStatus(REANAStatus)] *)
Module QuotaUsageStatus.
Section engine.
Context {K : Type} `{!Sql.Numeric K}.

Definition __init__ := REANAStatus.__init__.

Definition format_user_data (ext : Imports) (users : list UserResource.t)
    : list (gmap string string) :=
  (λ user,
     dict_of_items
       [ ("email", User.email (UserResource.user user));
         ("used", human_readable_unit ext (Resource.unit (UserResource.resource user))
                    (UserResource.quota_used user));
         ("limit", human_readable_unit ext (Resource.unit (UserResource.resource user))
                     (UserResource.quota_limit user));
         ("percentage", get_usage_percentage ext (UserResource.quota_used user)
                          (UserResource.quota_limit user)) ])
  <$> users.

(** [UserResource.quota_used * 100.0 / UserResource.quota_limit], computed
    by the engine. *)
Definition usage_ratio (r : UserResource.t) : K :=
  Sql.div (Sql.mul (Sql.of_int (UserResource.quota_used r)) (Sql.of_int 100))
          (Sql.of_int (UserResource.quota_limit r)).

(** [Session.query(UserResource).join(UserResource.resource)]: every quota
    row with the resource it refers to, which the row's relationship holds. *)
Definition joined_with_resource (w : World) : list UserResource.t := user_resources w.

(** The rows [get_top_five_percentage] hands to [format_user_data]. *)
Definition top_five_percentage_rows (w : World) (resource_type : ResourceType.t)
    : list UserResource.t :=
  Sql.limit 5
    (Sql.order_by_desc Sql.num_le usage_ratio
    (Sql.filter (λ r, Sql.ne (Some (UserResource.quota_limit r)) (Some 0%Z))
    (Sql.filter (λ r, Sql.eq (Some (Resource.type_ (UserResource.resource r)))
                             (Some resource_type))
       (joined_with_resource w)))).

Definition get_top_five_percentage (ext : Imports) (self : REANAStatus.t) (w : World)
    (resource_type : ResourceType.t) : list (gmap string string) :=
  let users := top_five_percentage_rows w resource_type in
  format_user_data ext users.

(** The rows [get_top_five] hands to [format_user_data]. *)
Definition top_five_rows (w : World) (resource_type : ResourceType.t)
    : list UserResource.t :=
  Sql.limit 5
    (Sql.order_by_desc Z.leb UserResource.quota_used
    (Sql.filter (λ r, Sql.eq (Some (Resource.type_ (UserResource.resource r)))
                             (Some resource_type))
       (joined_with_resource w))).

Definition get_top_five (ext : Imports) (self : REANAStatus.t) (w : World)
    (resource_type : ResourceType.t) : list (gmap string string) :=
  let users := top_five_rows w resource_type in
  format_user_data ext users.

Definition get_status (ext : Imports) (self : REANAStatus.t) (w : World)
    : gmap string (list (gmap string string)) :=
  dict_of_items
    [ ("top_five_disk", get_top_five ext self w ResourceType.disk);
      ("top_five_cpu", get_top_five ext self w ResourceType.cpu);
      ("top_five_disk_percentage", get_top_five_percentage ext self w ResourceType.disk);
      ("top_five_cpu_percentage", get_top_five_percentage ext self w ResourceType.cpu) ].

End engine.
End QuotaUsageStatus.

(** The names bound at the top level of [status.py]: its imports, its
    classes and the dispatch table. *)
Definition status_globals : Py.namespace :=
  list_to_map
    [ ("logging", Py.BModule); ("subprocess", Py.BModule);
      ("datetime", Py.BClass); ("timedelta", Py.BClass);
      ("SessionActivity", Py.BClass);
      ("REANA_COMPONENT_PREFIX", Py.BConstant);
      ("REANA_INFRASTRUCTURE_KUBERNETES_NAMESPACE", Py.BConstant);
      ("REANA_RUNTIME_KUBERNETES_NAMESPACE", Py.BConstant);
      ("SHARED_VOLUME_PATH", Py.BConstant);
      ("kubernetes_memory_to_bytes", Py.BFunction);
      ("current_k8s_corev1_api_client", Py.BConstant);
      ("current_k8s_custom_objects_api_client", Py.BConstant);
      ("Session", Py.BConstant);
      ("InteractiveSession", Py.BClass); ("Job", Py.BClass);
      ("JobStatus", Py.BClass); ("Resource", Py.BClass);
      ("ResourceType", Py.BClass); ("ResourceUnit", Py.BClass);
      ("RunStatus", Py.BClass); ("User", Py.BClass);
      ("UserResource", Py.BClass); ("Workflow", Py.BClass);
      ("get_usage_percentage", Py.BFunction); ("desc", Py.BFunction);
      ("REANAStatus", Py.BClass); ("InteractiveSessionsStatus", Py.BClass);
      ("SystemStatus", Py.BClass); ("StorageStatus", Py.BClass);
      ("UsersStatus", Py.BClass); ("WorkflowsStatus", Py.BClass);
      ("QuotaUsageStatus", Py.BClass); ("NodesStatus", Py.BClass);
      ("PodsStatus", Py.BClass); ("JobsStatus", Py.BClass);
      ("STATUS_OBJECT_TYPES", Py.BConstant) ].

(** [kubernetes.client.rest.ApiException] as an import would bind it. *)
Definition ApiException_class : Py.binding :=
  Py.BExceptionClass (λ e, match e with Py.ApiException _ _ => true | _ => false end).

(** ** [class NodesStatus(REANAStatus)] *)
Module NodesStatus.

(** The class defines no constructor of its own. *)
Definition __init__ := REANAStatus.__init__.

Definition get_nodes (self : REANAStatus.t) (w : World) : Py.io (list string) :=
  nodes ← Py.lift (list_node w None);
  mret (map V1Node.metadata_name nodes).

Definition get_unschedulable_nodes (self : REANAStatus.t) (w : World)
    : Py.io (list string) :=
  nodes ← Py.lift (list_node w (Some "spec.unschedulable=true"));
  mret (map V1Node.metadata_name nodes).

(** One round of the first loop of [get_memory_usage]. *)
Definition record_capacity (result : Py.odict (gmap string string)) (node : V1Node.t)
    : Py.io (Py.odict (gmap string string)) :=
  memory ← Py.lift (Py.getitem (V1Node.status_capacity node) "memory");
  mret (Py.odict_set result (V1Node.metadata_name node)
          (dict_of_items [("capacity", memory)])).

(** One round of the loop inside the [try]. *)
Definition record_usage (ext : Imports) (result : Py.odict (gmap string string))
    (node_metric : NodeMetric) : Py.io (Py.odict (gmap string string)) :=
  metadata ← Py.lift (Py.getitem node_metric "metadata");
  node_name ← Py.lift (Py.getitem metadata "name");
  usage ← Py.lift (Py.getitem node_metric "usage");
  memory ← Py.lift (Py.getitem usage "memory");
  entry ← Py.lift (Py.odict_get result node_name);
  let entry := <["usage" := memory]> entry in
  node_capacity ← Py.lift (Py.getitem entry "capacity");
  node_usage ← Py.lift (Py.getitem entry "usage");
  usage_bytes ← Py.lift (kubernetes_memory_to_bytes ext node_usage);
  capacity_bytes ← Py.lift (kubernetes_memory_to_bytes ext node_capacity);
  ratio ← Py.lift (Py.int_truediv usage_bytes capacity_bytes);
  node_usage_percentage ← Py.lift (Py.round (Py.float_mul ratio (Py.int_value 100)));
  let entry := <["percentage" := pretty node_usage_percentage +:+ "%"]> entry in
  mret (Py.odict_set result node_name entry).

(** [get_memory_usage] with the module's global names as a parameter: the
    [except] clause looks its class up there. *)
Definition get_memory_usage_in (globals : Py.namespace) (ext : Imports)
    (self : REANAStatus.t) (w : World) : Py.io (Py.odict (gmap string string)) :=
  let result := [] in
  nodes ← Py.lift (list_node w None);
  result ← Py.for_each nodes record_capacity result;
  Py.try_except globals
    (node_metrics ← Py.lift (list_cluster_custom_object w "metrics.k8s.io" "v1beta1" "nodes");
     Py.for_each (default [] (items node_metrics)) (record_usage ext) result)
    "ApiException"
    (λ e,
       Py.logging_error "Error while calling `metrics.k8s.io` API.";;
       Py.logging_error (Py.str_exn e);;
       mret []).

Definition get_memory_usage := get_memory_usage_in status_globals.

(** [get_friendly_memory_usage], over whichever [get_memory_usage]. *)
Definition friendly_memory_usage_of
    (get_memory_usage : Py.io (Py.odict (gmap string string))) : Py.io string :=
  let output_memory_usage := "" in
  memory_usage ← get_memory_usage;
  mret (match memory_usage with
        | [] => output_memory_usage
        | _ :: _ =>
            foldl (λ out item,
                     out +:+ String Py.LF "  " +:+ item.1 +:+ ": "
                       +:+ Py.format_get item.2 "usage" +:+ "/"
                       +:+ Py.format_get item.2 "capacity" +:+ " ("
                       +:+ Py.format_get item.2 "percentage" +:+ ")")
                  output_memory_usage memory_usage
        end).

Definition get_friendly_memory_usage (ext : Imports) (self : REANAStatus.t) (w : World)
    : Py.io string :=
  friendly_memory_usage_of (get_memory_usage ext self w).

(** The summary has values of two types, so it is a record of its keys. *)
Record summary := {
  unschedulable_nodes : list string;
  memory_usage : string;
}.

Definition get_status (ext : Imports) (self : REANAStatus.t) (w : World)
    : Py.io summary :=
  unschedulable ← get_unschedulable_nodes self w;
  memory ← get_friendly_memory_usage ext self w;
  mret {| unschedulable_nodes := unschedulable; memory_usage := memory |}.

End NodesStatus.

(** ** [class PodsStatus(REANAStatus)] *)
Module PodsStatus.

Record t := mk {
  statuses : list string;
  base : REANAStatus.t;
}.

Definition __init__ (cfg : Config) (w : World)
    (from_ until : option Py.datetime) (user : option User.t) : t :=
  mk ["Running"; "Pending"; "Suceeded"; "Failed"; "Unknown"]
     (REANAStatus.__init__ cfg w from_ until user).

Definition get_pods_by_status (self : t) (w : World) (status namespace : string)
    : Py.io (list string) :=
  pods ← Py.lift (list_namespaced_pod w namespace ("status.phase=" +:+ status));
  mret (map V1Pod.metadata_name pods).

Definition get_friendly_pods_by_status (self : t) (w : World) (status namespace : string)
    : Py.io string :=
  pods ← get_pods_by_status self w status namespace;
  mret (Py.join (String Py.LF "  ") ("" :: pods)).

(** The key of one (namespace, phase) pair. *)
Definition key (ns status : string) : string :=
  ns +:+ "_" +:+ Py.lower status +:+ "_pods".

(** The comprehension walks the set of namespaces in the order the set
    yields them (here: [elements]); for each, the phases in list order. *)
Definition get_status (self : t) (w : World) : Py.io (gmap string string) :=
  Py.for_each (elements (REANAStatus.namespaces (base self)))
    (λ d ns,
       Py.for_each (statuses self)
         (λ d status,
            pods ← get_friendly_pods_by_status self w status ns;
            mret (<[key ns status := pods]> d))
         d)
    ∅.

End PodsStatus.

(** ** [class JobsStatus(REANAStatus)] *)
Module JobsStatus.

Record t := mk {
  compute_backends : list string;
  statuses : list JobStatus.t;
  base : REANAStatus.t;
}.

Definition __init__ (cfg : Config) (w : World)
    (from_ until : option Py.datetime) (user : option User.t) : t :=
  mk ["Kubernetes"; "HTCondor"; "Slurm"]
     [JobStatus.running; JobStatus.finished; JobStatus.failed; JobStatus.queued]
     (REANAStatus.__init__ cfg w from_ until user).

Definition get_jobs_by_status_and_compute_backend (self : t) (w : World)
    (status : JobStatus.t) (compute_backend : option string) : nat :=
  let query := Sql.filter (λ j, Sql.eq (Job.status j) (Some status)) (jobs w) in
  let query :=
    match compute_backend with
    | Some (String _ _ as backend) =>
        Sql.filter (λ j, Sql.eq (Job.compute_backend j) (Some backend)) query
    | _ => query
    end in
  Sql.count query.

Definition get_k8s_jobs_by_status (cfg : Config) (self : t) (w : World) (status : string)
    : Py.io (list string) :=
  pods ← Py.lift (list_namespaced_pod w (REANA_RUNTIME_KUBERNETES_NAMESPACE cfg)
                    ("status.phase=" +:+ status));
  let job_pods :=
    List.filter (λ name, Py.startswith name (REANA_COMPONENT_PREFIX cfg +:+ "-run-job"))
                (map V1Pod.metadata_name pods) in
  mret job_pods.

Definition get_status (cfg : Config) (self : t) (w : World)
    : Py.io (gmap string (gmap string nat)) :=
  let job_statuses :=
    dict_of_items
      ((λ compute_backend,
          (Py.lower compute_backend,
           dict_of_items
             ((λ status,
                 (JobStatus.name status,
                  get_jobs_by_status_and_compute_backend self w status
                    (Some compute_backend)))
              <$> statuses self)))
       <$> compute_backends self) in
  running ← get_k8s_jobs_by_status cfg self w "Running";
  pending ← get_k8s_jobs_by_status cfg self w "Pending";
  mret (<["kubernetes_api" :=
            dict_of_items [("running", length running); ("pending", length pending)]]>
          job_statuses).

End JobsStatus.

(** ** [STATUS_OBJECT_TYPES] and what a caller does with it *)
Module Dispatch.

Inductive status_class :=
| ClsInteractiveSessions
| ClsWorkflows
| ClsUsers
| ClsSystem
| ClsStorage
| ClsNodes
| ClsPods
| ClsJobs
| ClsQuotaUsage.

Definition STATUS_OBJECT_TYPES : gmap string status_class :=
  dict_of_items
    [ ("interactive-sessions", ClsInteractiveSessions);
      ("workflows", ClsWorkflows);
      ("users", ClsUsers);
      ("system", ClsSystem);
      ("storage", ClsStorage);
      ("nodes", ClsNodes);
      ("pods", ClsPods);
      ("jobs", ClsJobs);
      ("quota-usage", ClsQuotaUsage) ].

(** An instance of one of the nine classes. *)
Inductive status_object :=
| InteractiveSessionsObj (self : REANAStatus.t)
| WorkflowsObj (self : REANAStatus.t)
| UsersObj (self : REANAStatus.t)
| SystemObj (self : REANAStatus.t)
| StorageObj (self : REANAStatus.t)
| NodesObj (self : REANAStatus.t)
| PodsObj (self : PodsStatus.t)
| JobsObj (self : JobsStatus.t)
| QuotaUsageObj (self : REANAStatus.t).

(** [cls(from_=from_, until=until, user=user)] *)
Definition instantiate (cls : status_class) (cfg : Config) (w : World)
    (from_ until : option Py.datetime) (user : option User.t) : status_object :=
  match cls with
  | ClsInteractiveSessions =>
      InteractiveSessionsObj (InteractiveSessionsStatus.__init__ cfg w from_ until user)
  | ClsWorkflows => WorkflowsObj (WorkflowsStatus.__init__ cfg w from_ until user)
  | ClsUsers => UsersObj (UsersStatus.__init__ cfg w from_ until user)
  | ClsSystem => SystemObj (SystemStatus.__init__ cfg w from_ until user)
  | ClsStorage => StorageObj (StorageStatus.__init__ cfg w from_ until user)
  | ClsNodes => NodesObj (NodesStatus.__init__ cfg w from_ until user)
  | ClsPods => PodsObj (PodsStatus.__init__ cfg w from_ until user)
  | ClsJobs => JobsObj (JobsStatus.__init__ cfg w from_ until user)
  | ClsQuotaUsage => QuotaUsageObj (QuotaUsageStatus.__init__ cfg w from_ until user)
  end.

(** The summaries, by the shape of their values. *)
Inductive status_summary :=
| Counts (d : gmap string nat)
| Texts (d : gmap string string)
| NodesSummary (d : NodesStatus.summary)
| JobCounts (d : gmap string (gmap string nat))
| QuotaRows (d : gmap string (list (gmap string string))).

(** [obj.get_status()] *)
Definition get_status {K : Type} `{!Sql.Numeric K} (cfg : Config) (ext : Imports)
    (obj : status_object) (w : World) : Py.io status_summary :=
  match obj with
  | InteractiveSessionsObj self => mret (Counts (InteractiveSessionsStatus.get_status self w))
  | WorkflowsObj self => mret (Counts (WorkflowsStatus.get_status self w))
  | UsersObj self => mret (Counts (UsersStatus.get_status self w))
  | SystemObj self => Texts <$> SystemStatus.get_status self w
  | StorageObj self => Texts <$> StorageStatus.get_status cfg self w
  | NodesObj self => NodesSummary <$> NodesStatus.get_status ext self w
  | PodsObj self => Texts <$> PodsStatus.get_status self w
  | JobsObj self => JobCounts <$> JobsStatus.get_status cfg self w
  | QuotaUsageObj self => mret (QuotaRows (QuotaUsageStatus.get_status (K:=K) ext self w))
  end.

End Dispatch.

(* ===================================================================== *)
(** * Concrete configurations and worlds                                   *)
(* ===================================================================== *)

Module Examples.

Definition nl : string := String Py.LF "".

(** A deployment with separate namespaces. *)
Definition cfg_two_namespaces : Config := {|
  REANA_COMPONENT_PREFIX := "reana";
  REANA_INFRASTRUCTURE_KUBERNETES_NAMESPACE := "reana-infra";
  REANA_RUNTIME_KUBERNETES_NAMESPACE := "reana-runtime";
  SHARED_VOLUME_PATH := "/data";
|}.

(** A deployment that runs workloads in the infrastructure namespace. *)
Definition cfg_one_namespace : Config := {|
  REANA_COMPONENT_PREFIX := "reana";
  REANA_INFRASTRUCTURE_KUBERNETES_NAMESPACE := "default";
  REANA_RUNTIME_KUBERNETES_NAMESPACE := "default";
  SHARED_VOLUME_PATH := "/data";
|}.

(** The leading decimal digits of a text, and what follows them. *)
Fixpoint leading_digits (value : Z) (s : string) : Z * string :=
  match s with
  | String c s' =>
      let n := Z.of_N (N_of_ascii c) in
      if ((48 <=? n) && (n <=? 57))%Z
      then leading_digits (value * 10 + (n - 48))%Z s'
      else (value, s)
  | EmptyString => (value, s)
  end.

(** Kubernetes quantities of whole units, "8Gi", "16393292Ki", "512M" or a
    plain number of bytes, in bytes; anything else is refused. *)
Definition memory_to_bytes (memory : string) : Py.result Z :=
  match leading_digits 0 memory with
  | (value, unit) =>
      if String.eqb unit memory then Py.Raise Py.ValueError
      else match unit with
           | "" => Py.Ok value
           | "Ki" => Py.Ok (value * 2 ^ 10)%Z
           | "Mi" => Py.Ok (value * 2 ^ 20)%Z
           | "Gi" => Py.Ok (value * 2 ^ 30)%Z
           | "Ti" => Py.Ok (value * 2 ^ 40)%Z
           | "Pi" => Py.Ok (value * 2 ^ 50)%Z
           | "Ei" => Py.Ok (value * 2 ^ 60)%Z
           | "K" => Py.Ok (value * 10 ^ 3)%Z
           | "M" => Py.Ok (value * 10 ^ 6)%Z
           | "G" => Py.Ok (value * 10 ^ 9)%Z
           | "T" => Py.Ok (value * 10 ^ 12)%Z
           | "P" => Py.Ok (value * 10 ^ 15)%Z
           | "E" => Py.Ok (value * 10 ^ 18)%Z
           | _ => Py.Raise Py.ValueError
           end
  end.

(** The imported helpers: the memory converter on quantities of whole
    units, the other two printing their arguments. *)
Definition ext_plain : Imports := {|
  kubernetes_memory_to_bytes := memory_to_bytes;
  human_readable_unit := λ _ v, pretty v;
  get_usage_percentage := λ u l, pretty u +:+ "/" +:+ pretty l;
|}.

(** Nothing in the database, an empty cluster, no command installed. *)
Definition quiet_world : World := {|
  now := 1600000000000000%Z;
  workflows := [];
  interactive_sessions := [];
  jobs := [];
  session_activities := [];
  user_resources := [];
  list_node := λ _, Py.Ok [];
  list_namespaced_pod := λ _ _, Py.Ok [];
  list_cluster_custom_object := λ _ _ _, Py.Ok {| items := Some [] |};
  check_output := λ _, Py.Raise Py.FileNotFoundError;
|}.

Definition node1 : V1Node.t := {|
  V1Node.metadata_name := "node-1";
  V1Node.status_capacity := dict_of_items [("cpu", "4"); ("memory", "8Gi")];
|}.

(** One node, and a cluster without the metrics add-on: the metrics call
    raises the client's [ApiException]. *)
Definition metrics_down_world : World := {|
  now := now quiet_world;
  workflows := [];
  interactive_sessions := [];
  jobs := [];
  session_activities := [];
  user_resources := [];
  list_node := λ selector,
    match selector with
    | None => Py.Ok [node1]
    | Some _ => Py.Ok []
    end;
  list_namespaced_pod := λ _ _, Py.Ok [];
  list_cluster_custom_object := λ _ _ _, Py.Raise (Py.ApiException 404 "Not Found");
  check_output := λ _, Py.Raise Py.FileNotFoundError;
|}.

(** The same cluster with the metrics add-on answering. *)
Definition metrics_up_world : World := {|
  now := now quiet_world;
  workflows := [];
  interactive_sessions := [];
  jobs := [];
  session_activities := [];
  user_resources := [];
  list_node := list_node metrics_down_world;
  list_namespaced_pod := λ _ _, Py.Ok [];
  list_cluster_custom_object := λ _ _ _,
    Py.Ok {| items := Some [ dict_of_items
                               [ ("metadata", dict_of_items [("name", "node-1")]);
                                 ("usage", dict_of_items [("memory", "2Gi")]) ] ] |};
  check_output := λ _, Py.Raise Py.FileNotFoundError;
|}.

(** [df -h /data] printing one file system. *)
Definition df_output : string :=
  "Filesystem Size Used Avail Use% Mounted" +:+ nl +:+
  "/dev/sda1 100G 40G 60G 40% /data" +:+ nl.

Definition df_world : World := {|
  now := now quiet_world;
  workflows := [];
  interactive_sessions := [];
  jobs := [];
  session_activities := [];
  user_resources := [];
  list_node := λ _, Py.Ok [];
  list_namespaced_pod := λ _ _, Py.Ok [];
  list_cluster_custom_object := λ _ _ _, Py.Ok {| items := None |};
  check_output := λ cmd,
    match cmd with
    | ["df"; "-h"; "/data"] => Py.Ok df_output
    | ["du"; "-h"; "--max-depth=0"; "/data/users"] => Py.Ok ("12G" +:+ String "009" "/data/users" +:+ nl)
    | ["du"; "-h"; "--max-depth=0"; "/var/reana/users/alice"] =>
        Py.Ok ("3G" +:+ String "009" "/var/reana/users/alice" +:+ nl)
    | _ => Py.Raise Py.FileNotFoundError
    end;
|}.




Definition workflow_in (status : RunStatus.t) : Workflow.t := {|
  Workflow.status := Some status;
  Workflow.restart := Some false;
  Workflow.git_repo := Some "";
  Workflow.run_started_at := None;
  Workflow.updated := Some (now quiet_world);
|}.

(** Three running, two finished and one queued workflow. *)
Definition six_workflows_world : World := {|
  now := now quiet_world;
  workflows :=
    [ workflow_in RunStatus.running; workflow_in RunStatus.finished;
      workflow_in RunStatus.running; workflow_in RunStatus.queued;
      workflow_in RunStatus.finished; workflow_in RunStatus.running ];
  interactive_sessions := [];
  jobs := [];
  session_activities := [];
  user_resources := [];
  list_node := λ _, Py.Ok [];
  list_namespaced_pod := λ _ _, Py.Ok [];
  list_cluster_custom_object := λ _ _ _, Py.Ok {| items := None |};
  check_output := λ _, Py.Raise Py.FileNotFoundError;
|}.

Definition alice : User.t :=
  {| User.email := "alice@example.org"; User.workspace_path := "/var/reana/users/alice" |}.

(** A world in which only the shell answers, as [answer] says. *)
Definition shell_world (answer : list string → Py.result string) : World := {|
  now := now quiet_world;
  workflows := [];
  interactive_sessions := [];
  jobs := [];
  session_activities := [];
  user_resources := [];
  list_node := λ _, Py.Ok [];
  list_namespaced_pod := λ _ _, Py.Ok [];
  list_cluster_custom_object := λ _ _ _, Py.Ok {| items := None |};
  check_output := answer;
|}.

(** [df -h] listing a second file system after the shared volume. *)
Definition df_two_rows : string :=
  "Filesystem      Size  Used Avail Use% Mounted on" +:+ nl +:+
  "/dev/sda1       100G   40G   60G  40% /data" +:+ nl +:+
  "tmpfs           7.8G     0  7.8G   0% /dev/shm" +:+ nl.

(** A database with the given workflow rows, read at time [t]. *)
Definition workflows_world (t : Py.datetime) (rows : list Workflow.t) : World := {|
  now := t;
  workflows := rows;
  interactive_sessions := [];
  jobs := [];
  session_activities := [];
  user_resources := [];
  list_node := λ _, Py.Ok [];
  list_namespaced_pod := λ _ _, Py.Ok [];
  list_cluster_custom_object := λ _ _ _, Py.Ok {| items := None |};
  check_output := λ _, Py.Raise Py.FileNotFoundError;
|}.

(** A cluster with the given nodes and the given answer of the metrics API. *)
Definition cluster_world (nodes : Py.result (list V1Node.t))
    (metrics : Py.result NodeMetricsList) : World := {|
  now := now quiet_world;
  workflows := [];
  interactive_sessions := [];
  jobs := [];
  session_activities := [];
  user_resources := [];
  list_node := λ _, nodes;
  list_namespaced_pod := λ _ _, Py.Ok [];
  list_cluster_custom_object := λ _ _ _, metrics;
  check_output := λ _, Py.Raise Py.FileNotFoundError;
|}.

(** A cluster whose pod listings are answered by [pods]. *)
Definition pods_world (pods : string → string → Py.result (list V1Pod.t)) : World := {|
  now := now quiet_world;
  workflows := [];
  interactive_sessions := [];
  jobs := [];
  session_activities := [];
  user_resources := [];
  list_node := λ _, Py.Ok [];
  list_namespaced_pod := pods;
  list_cluster_custom_object := λ _ _ _, Py.Ok {| items := None |};
  check_output := λ _, Py.Raise Py.FileNotFoundError;
|}.

(** A node without a memory figure in its capacity. *)
Definition node_without_memory : V1Node.t := {|
  V1Node.metadata_name := "node-2";
  V1Node.status_capacity := dict_of_items [("cpu", "4")];
|}.

(** A workflow in [status] that was started (unless pending) and last
    updated at time [t]. *)
Definition workflow_at (status : RunStatus.t) (t : Py.datetime) : Workflow.t := {|
  Workflow.status := Some status;
  Workflow.restart := Some false;
  Workflow.git_repo := None;
  Workflow.run_started_at :=
    match status with RunStatus.pending => None | _ => Some t end;
  Workflow.updated := Some t;
|}.

(** A running and a pending workflow, both untouched since time 0. *)
Definition idle_workflows : list Workflow.t :=
  [ workflow_at RunStatus.running 0%Z; workflow_at RunStatus.pending 0%Z ].

Definition job_on (status : JobStatus.t) (backend : string) : Job.t :=
  {| Job.status := Some status; Job.compute_backend := Some backend |}.

(** A cluster at work: job rows of several backends in the database, and
    in the runtime namespace job pods next to batch pods. *)
Definition busy_world : World := {|
  now := now quiet_world;
  workflows := [];
  interactive_sessions := [];
  jobs :=
    [ job_on JobStatus.running "Kubernetes"; job_on JobStatus.finished "Kubernetes";
      job_on JobStatus.running "Kubernetes"; job_on JobStatus.failed "Slurm";
      job_on JobStatus.running "HTCondor"; job_on JobStatus.queued "kubernetes";
      {| Job.status := Some JobStatus.running; Job.compute_backend := None |} ];
  session_activities := [];
  user_resources := [];
  list_node := λ _, Py.Ok [];
  list_namespaced_pod := λ namespace selector,
    if String.eqb namespace "reana-runtime" then
      if String.eqb selector "status.phase=Running" then
        Py.Ok [ {| V1Pod.metadata_name := "reana-run-job-1" |};
                {| V1Pod.metadata_name := "reana-run-batch-2" |};
                {| V1Pod.metadata_name := "reana-run-job-3" |} ]
      else if String.eqb selector "status.phase=Pending" then
        Py.Ok [ {| V1Pod.metadata_name := "reana-run-job-4" |};
                {| V1Pod.metadata_name := "other-run-job-5" |} ]
      else Py.Ok []
    else Py.Ok [ {| V1Pod.metadata_name := "reana-server-0" |} ];
  list_cluster_custom_object := λ _ _ _, Py.Ok {| items := None |};
  check_output := λ _, Py.Raise Py.FileNotFoundError;
|}.

(** A metric of a node called [name]. *)
Definition metric_of (name memory : string) : NodeMetric :=
  dict_of_items
    [ ("metadata", dict_of_items [("name", name)]);
      ("usage", dict_of_items [("memory", memory)]) ].

End Examples.

(* ===================================================================== *)
(** * The specification's wording                                         *)
(* ===================================================================== *)

(** These follow the specification's sentences, not the code; the theorems
    below compare them with the queries of the providers. *)
Module Spec.

(** Microseconds. *)
Definition hours (n : Z) : Z := (n * 60 * 60 * 1000000)%Z.
Definition minutes (n : Z) : Z := (n * 60 * 1000000)%Z.

(** "time [<=] bound", for a time that is recorded. *)
Definition not_after (time : option Py.datetime) (bound : Z) : Prop :=
  match time with
  | Some t => (t ≤ bound)%Z
  | None => False
  end.

#[global] Instance not_after_dec time bound : Decision (not_after time bound).
Proof. destruct time; simpl; apply _. Defined.

(** "status = running AND start-time <= now-12h AND update-time <= now-12h" *)
Definition stuck_in_running (now : Py.datetime) (r : Workflow.t) : Prop :=
  Workflow.status r = Some RunStatus.running
  ∧ not_after (Workflow.run_started_at r) (now - hours 12)
  ∧ not_after (Workflow.updated r) (now - hours 12).

#[global] Instance stuck_in_running_dec now r : Decision (stuck_in_running now r).
Proof. unfold stuck_in_running. apply _. Defined.

(** "status = pending AND update-time <= now-20min" *)
Definition stuck_in_pending (now : Py.datetime) (r : Workflow.t) : Prop :=
  Workflow.status r = Some RunStatus.pending
  ∧ not_after (Workflow.updated r) (now - minutes 20).

#[global] Instance stuck_in_pending_dec now r : Decision (stuck_in_pending now r).
Proof. unfold stuck_in_pending. apply _. Defined.

(** "sessions whose status is not in {stopped, deleted, failed}" *)
Definition active_session (s : InteractiveSession.t) : Prop :=
  InteractiveSession.status s ∉ [RunStatus.stopped; RunStatus.deleted; RunStatus.failed].

#[global] Instance active_session_dec s : Decision (active_session s).
Proof. unfold active_session. apply _. Defined.

(** "git-repo reference both present (non-null) and non-empty" *)
Definition git_sourced (r : Workflow.t) : Prop :=
  match Workflow.git_repo r with
  | Some repo => repo ≠ ""
  | None => False
  end.

#[global] Instance git_sourced_dec r : Decision (git_sourced r).
Proof. unfold git_sourced. destruct (Workflow.git_repo r); apply _. Defined.

(** The keys the pod summary is said to have: one per namespace and
    lower-cased phase. *)
Definition pod_phases : list string :=
  ["running"; "pending"; "suceeded"; "failed"; "unknown"].

Definition pod_keys (namespaces : list string) : list string :=
  ns ← namespaces; phase ← pod_phases; [ns +:+ "_" +:+ phase +:+ "_pods"].

(** *** How [df] prints a line: words separated by runs of blanks *)

Fixpoint all_chars (p : ascii → bool) (s : string) : bool :=
  match s with
  | EmptyString => true
  | String c s' => p c && all_chars p s'
  end.

(** No underscore anywhere in [s]. *)
Definition no_underscore (s : string) : Prop :=
  all_chars (λ c, negb (Ascii.eqb c "_")) s = true.

(** A space or a tab. *)
Definition is_blank (c : ascii) : bool := Ascii.eqb c " " || Ascii.eqb c "009".

(** A column entry: at least one character, none of them whitespace. *)
Definition is_word (t : string) : Prop :=
  t ≠ "" ∧ all_chars (λ c, negb (Py.isspace c)) t = true.

(** What stands between two entries: at least one blank, only blanks. *)
Definition is_padding (p : string) : Prop :=
  p ≠ "" ∧ all_chars is_blank p = true.

(** The line whose first entry is [first], followed by the entries of
    [rest], each after its padding. *)
Fixpoint line (first : string) (rest : list (string * string)) : string :=
  match rest with
  | [] => first
  | (padding, word) :: rest' => first +:+ padding +:+ line word rest'
  end.

Definition entries (first : string) (rest : list (string * string)) : list string :=
  first :: map snd rest.

Definition well_formed (first : string) (rest : list (string * string)) : Prop :=
  is_word first ∧ Forall (λ cell, is_padding cell.1 ∧ is_word cell.2) rest.

(** "The column titled [name]": the first entry of the header line that
    reads [name] stands at position [i]. *)
Definition column (headers : list string) (name : string) (i : nat) : Prop :=
  headers !! i = Some name ∧ ∀ j, j < i → headers !! j ≠ Some name.

(** "One count per status": the job rows of a status and a backend. *)
Definition job_of (status : JobStatus.t) (backend : string) (j : Job.t) : Prop :=
  Job.status j = Some status ∧ Job.compute_backend j = Some backend.

#[global] Instance job_of_dec status backend j : Decision (job_of status backend j).
Proof. unfold job_of. apply _. Defined.

(** "[s] begins with [p]" *)
Definition begins_with (p s : string) : Prop := ∃ suffix, s = p +:+ suffix.

#[global] Instance begins_with_dec (p s : string) : Decision (begins_with p s).
Proof.
  revert s. induction p as [|a p IH]; intros s.
  - left. by exists s.
  - destruct s as [|b s].
    + right. intros [suffix Hs]. change ("" = String a (p +:+ suffix)) in Hs.
      discriminate Hs.
    + destruct (decide (a = b)) as [->|Hne].
      * destruct (IH s) as [Hyes|Hno].
        -- left. destruct Hyes as [suffix ->]. by exists suffix.
        -- right. intros [suffix Hs]. apply Hno. exists suffix.
           change (String b s = String b (p +:+ suffix)) in Hs. by injection Hs.
      * right. intros [suffix Hs].
        change (String b s = String a (p +:+ suffix)) in Hs. injection Hs as Hab _.
        by destruct Hne.
Defined.

(** "A job pod": a pod named "<REANA_COMPONENT_PREFIX>-run-job..." *)
Definition job_pod (cfg : Config) (name : string) : Prop :=
  begins_with (REANA_COMPONENT_PREFIX cfg +:+ "-run-job") name.

#[global] Instance job_pod_dec cfg name : Decision (job_pod cfg name).
Proof. unfold job_pod. apply _. Defined.


(** "Top five of [rows] by descending [key]": the first five of some
    arrangement of [rows] in which no row stands before one of larger key. *)
Definition top_five_by {R K} (key_le : K → K → bool) (key : R → K)
    (rows result : list R) : Prop :=
  ∃ sorted,
    sorted ≡ₚ rows
    ∧ StronglySorted (λ a b, key_le (key b) (key a) = true) sorted
    ∧ result = take 5 sorted.

End Spec.

(* ===================================================================== *)
(** * Proof automation                                                    *)
(* ===================================================================== *)

(** Closed instances of [Spec.well_formed] and [Spec.column]. *)
Ltac solve_well_formed :=
  split; [by split | repeat (apply Forall_cons; split; [by repeat split|]); by apply Forall_nil].

Ltac solve_column :=
  split; [done | intros j Hj; repeat (destruct j as [|j]; [done|]); lia].

(** From [H : (name, cls) ∈ items], for a closed list of items and a known
    class: the name registered for that class. *)
Ltac name_of_class H :=
  repeat (apply elem_of_cons in H as [H|H];
          [try discriminate H; injection H as ->|]);
  try (exfalso; exact (proj1 (elem_of_nil _) H)).

(* ===================================================================== *)
(** * Theorems                                                            *)
(* ===================================================================== *)

(** ** Computations *)

Lemma io_eta {A} (m : Py.io A) : Py.IO (Py.logged m) (Py.outcome m) = m.
Proof. by destruct m. Qed.

Lemma io_ret_inj {A} (a b : A) : Py.ret a = Py.ret b → a = b.
Proof. by intros [= ->]. Qed.

Lemma io_bind_ok {A B} (a : A) (k : A → Py.io B) :
  (Py.lift (Py.Ok a) ≫= k) = k a.
Proof. unfold mbind, Py.io_bind, Py.bind. simpl. apply io_eta. Qed.

Lemma io_bind_ret {A B} (a : A) (k : A → Py.io B) : (mret a ≫= k) = k a.
Proof. apply io_bind_ok. Qed.

Lemma io_bind_raise {A B} (e : Py.exn) (k : A → Py.io B) :
  (Py.lift (Py.Raise e) ≫= k) = Py.raise e.
Proof. reflexivity. Qed.

Lemma io_bind_assoc {A B C} (m : Py.io A) (f : A → Py.io B) (g : B → Py.io C) :
  ((m ≫= f) ≫= g) = (m ≫= λ a, f a ≫= g).
Proof.
  unfold mbind, Py.io_bind, Py.bind. destruct m as [l [a|e]]; simpl; [|done].
  destruct (f a) as [l' [b|e]]; simpl; [|done]. by rewrite app_assoc.
Qed.

Lemma getitem_Some {V} (d : gmap string V) (k : string) (v : V) :
  d !! k = Some v → Py.getitem d k = Py.Ok v.
Proof. unfold Py.getitem. by intros ->. Qed.

Lemma list_getitem_Some {A} (xs : list A) (i : nat) (a : A) :
  xs !! i = Some a → Py.list_getitem xs i = Py.Ok a.
Proof. unfold Py.list_getitem. by intros ->. Qed.

(** ** Dicts built item by item *)

Lemma dict_of_items_snoc {V} (kvs : list (string * V)) (k : string) (v : V) :
  dict_of_items (kvs ++ [(k, v)]) = <[k := v]> (dict_of_items kvs).
Proof. unfold dict_of_items. by rewrite foldl_snoc. Qed.

Lemma dict_of_items_list_to_map {V} (kvs : list (string * V)) :
  NoDup kvs.*1 → dict_of_items kvs = list_to_map kvs.
Proof.
  induction kvs as [|[k v] kvs IH] using rev_ind; [done|].
  rewrite fmap_app, NoDup_app. intros (Hkvs & Hfresh & _).
  rewrite dict_of_items_snoc, list_to_map_snoc, IH; [done..|].
  intros Hin. apply (Hfresh k Hin). by left.
Qed.

Lemma for_each_pure {A St} (xs : list A) (body : St → A → Py.io St)
    (step : St → A → St) (acc : St) :
  (∀ acc x, x ∈ xs → body acc x = Py.ret (step acc x)) →
  Py.for_each xs body acc = Py.ret (foldl step acc xs).
Proof.
  revert acc. induction xs as [|x xs IH]; intros acc Hbody; [done|].
  cbn [Py.for_each foldl]. rewrite Hbody by by left.
  change (Py.ret (step acc x)) with (Py.lift (Py.Ok (step acc x))).
  rewrite io_bind_ok. apply IH. intros acc' x' Hx'. apply Hbody. by right.
Qed.

(** ** The query layer *)

Lemma sql_filter_spec {R} (criterion : R → Sql.tv) (P : R → Prop)
    `{!∀ r, Decision (P r)} (rows : list R) :
  (∀ r, Sql.holds (criterion r) = true ↔ P r) →
  Sql.filter criterion rows = filter P rows.
Proof.
  intros Hiff. unfold Sql.filter.
  induction rows as [|r rows IH]; [done|].
  cbn [List.filter]. rewrite filter_cons, IH.
  destruct (Sql.holds (criterion r)) eqn:Hc.
  - rewrite decide_True; [done|]. by apply Hiff.
  - rewrite decide_False; [done|]. rewrite <- Hiff. congruence.
Qed.

Lemma sql_le_holds (time : option Z) (bound : Z) :
  Sql.holds (Sql.le time (Some bound)) = true ↔ Spec.not_after time bound.
Proof.
  destruct time as [t|]; simpl; [|done].
  destruct (Z.leb_spec t bound); split; (done || lia).
Qed.

Lemma sql_eq_holds {A} `{EqDecision A} (x : option A) (v : A) :
  Sql.holds (Sql.eq x (Some v)) = true ↔ x = Some v.
Proof.
  destruct x as [a|]; simpl; [|done].
  case_bool_decide; split; (done || congruence).
Qed.

Lemma sql_ne_holds {A} `{EqDecision A} (x : option A) (v : A) :
  Sql.holds (Sql.ne x (Some v)) = true ↔ ∃ a, x = Some a ∧ a ≠ v.
Proof.
  destruct x as [a|]; simpl.
  - case_bool_decide; simpl; split; try done.
    + intros (b & [= <-] & Hne). done.
    + intros _. by exists a.
  - split; [done|]. by intros (a & ? & _).
Qed.

(** ** Workflows *)

(** C3. [stuck_in_running_workflows] counts exactly the rows whose status is
    running, whose run-start time is at most twelve hours before now and
    whose last-update time is too; a row that misses either time condition
    (or has no such time) is not counted. *)
Theorem stuck_in_running_workflows_spec (self : REANAStatus.t) (w : World) :
  WorkflowsStatus.stuck_in_running_workflows self w
  = length (filter (Spec.stuck_in_running (now w)) (workflows w)).
Proof.
  unfold WorkflowsStatus.stuck_in_running_workflows, Sql.count.
  change (Py.timedelta 0 12 0) with (Spec.hours 12).
  rewrite (sql_filter_spec _
             (λ r, Spec.not_after (Workflow.updated r) (now w - Spec.hours 12)));
    [|intros r; apply sql_le_holds].
  rewrite (sql_filter_spec _
             (λ r, Spec.not_after (Workflow.run_started_at r) (now w - Spec.hours 12)));
    [|intros r; apply sql_le_holds].
  rewrite (sql_filter_spec _ (λ r, Workflow.status r = Some RunStatus.running));
    [|intros r; apply sql_eq_holds].
  rewrite !list_filter_filter. f_equal.
  apply list_filter_iff. intros r. unfold Spec.stuck_in_running. tauto.
Qed.

(** C8. [stuck_in_pending_workflows] counts exactly the rows whose status is
    pending and whose last-update time is at most twenty minutes before
    now; the run-start time plays no part. *)
Theorem stuck_in_pending_workflows_spec (self : REANAStatus.t) (w : World) :
  WorkflowsStatus.stuck_in_pending_workflows self w
  = length (filter (Spec.stuck_in_pending (now w)) (workflows w)).
Proof.
  unfold WorkflowsStatus.stuck_in_pending_workflows, Sql.count.
  change (Py.timedelta 0 0 20) with (Spec.minutes 20).
  rewrite (sql_filter_spec _
             (λ r, Spec.not_after (Workflow.updated r) (now w - Spec.minutes 20)));
    [|intros r; apply sql_le_holds].
  rewrite (sql_filter_spec _ (λ r, Workflow.status r = Some RunStatus.pending));
    [|intros r; apply sql_eq_holds].
  rewrite list_filter_filter. f_equal.
  apply list_filter_iff. intros r. unfold Spec.stuck_in_pending. tauto.
Qed.

(** C10. [git_workflows] counts exactly the rows whose git-repo reference is
    present and non-empty: on a NULL reference the comparison [git_repo != '']
    is UNKNOWN, which WHERE does not let through. *)
Theorem git_workflows_spec (self : REANAStatus.t) (w : World) :
  WorkflowsStatus.git_workflows self w
  = length (filter Spec.git_sourced (workflows w))
  ∧ Sql.ne (@None string) (Some "") = None
  ∧ Sql.holds (Sql.ne (@None string) (Some "")) = false.
Proof.
  split; [|done].
  unfold WorkflowsStatus.git_workflows, Sql.count.
  rewrite (sql_filter_spec _ Spec.git_sourced); [done|].
  intros r. rewrite sql_ne_holds. unfold Spec.git_sourced.
  destruct (Workflow.git_repo r) as [repo|].
  - split; [by intros (a & [= <-] & ?)|]. intros ?. by exists repo.
  - split; [by intros (a & ? & _)|done].
Qed.

Lemma get_workflows_by_status_spec (self : REANAStatus.t) (w : World)
    (status : RunStatus.t) :
  WorkflowsStatus.get_workflows_by_status self w status
  = length (filter (λ r, Workflow.status r = Some status) (workflows w)).
Proof.
  unfold WorkflowsStatus.get_workflows_by_status, Sql.count.
  rewrite (sql_filter_spec _ (λ r, Workflow.status r = Some status)); [done|].
  intros r. apply sql_eq_holds.
Qed.

(** The workflow summary has exactly its seven keys; "running", "finished"
    and "queued" are bound to the number of rows of that status, and on a
    table of 3 running, 2 finished and 1 queued workflow they are 3, 2, 1. *)
Theorem workflows_get_status_spec (self : REANAStatus.t) (w : World) :
  dom (WorkflowsStatus.get_status self w)
  = list_to_set [ "running"; "finished"; "stuck in running"; "stuck in pending";
                  "queued"; "restarts"; "git_source" ]
  ∧ size (WorkflowsStatus.get_status self w) = 7
  ∧ WorkflowsStatus.get_status self w !! "running"
    = Some (length (filter (λ r, Workflow.status r = Some RunStatus.running) (workflows w)))
  ∧ WorkflowsStatus.get_status self w !! "finished"
    = Some (length (filter (λ r, Workflow.status r = Some RunStatus.finished) (workflows w)))
  ∧ WorkflowsStatus.get_status self w !! "queued"
    = Some (length (filter (λ r, Workflow.status r = Some RunStatus.queued) (workflows w)))
  ∧ WorkflowsStatus.get_status self Examples.six_workflows_world !! "running" = Some 3
  ∧ WorkflowsStatus.get_status self Examples.six_workflows_world !! "finished" = Some 2
  ∧ WorkflowsStatus.get_status self Examples.six_workflows_world !! "queued" = Some 1.
Proof.
  assert (∀ w', ∃ items : list (string * nat),
            WorkflowsStatus.get_status self w' = list_to_map items
            ∧ items.*1 = [ "running"; "finished"; "stuck in running"; "stuck in pending";
                           "queued"; "restarts"; "git_source" ]
            ∧ items !! 0
              = Some ("running", WorkflowsStatus.get_workflows_by_status self w' RunStatus.running)
            ∧ items !! 1
              = Some ("finished", WorkflowsStatus.get_workflows_by_status self w' RunStatus.finished)
            ∧ items !! 4
              = Some ("queued", WorkflowsStatus.get_workflows_by_status self w' RunStatus.queued))
    as Hitems.
  { intros w'. eexists. split.
    - unfold WorkflowsStatus.get_status. apply dict_of_items_list_to_map.
      by apply (bool_decide_unpack _).
    - split; [reflexivity|split; [reflexivity|split; reflexivity]]. }
  assert (NoDup [ "running"; "finished"; "stuck in running"; "stuck in pending";
                  "queued"; "restarts"; "git_source" ]) as Hnodup
    by by apply (bool_decide_unpack _).
  assert (∀ w' i k n, (∃ items : list (string * nat),
              WorkflowsStatus.get_status self w' = list_to_map items
              ∧ items.*1 = [ "running"; "finished"; "stuck in running"; "stuck in pending";
                             "queued"; "restarts"; "git_source" ]
              ∧ items !! i = Some (k, n)) →
            WorkflowsStatus.get_status self w' !! k = Some n) as Hlookup.
  { intros w' i k n (items & -> & Hkeys & Hi).
    apply elem_of_list_to_map; [by rewrite Hkeys|].
    by apply (list_elem_of_lookup_2 _ i). }
  destruct (Hitems w) as (items & Hmap & Hkeys & H0 & H1 & H4).
  destruct (Hitems Examples.six_workflows_world) as (items6 & Hmap6 & Hkeys6 & G0 & G1 & G4).
  split; [by rewrite Hmap, dom_list_to_map_L, Hkeys|].
  split; [by rewrite Hmap, <- size_dom, dom_list_to_map_L, Hkeys, size_list_to_set|].
  rewrite <- !(get_workflows_by_status_spec self w).
  split; [apply (Hlookup w 0); exists items; auto|].
  split; [apply (Hlookup w 1); exists items; auto|].
  split; [apply (Hlookup w 4); exists items; auto|].
  split; [apply (Hlookup Examples.six_workflows_world 0); exists items6;
          split; [exact Hmap6|split; [exact Hkeys6|exact G0]]|].
  split; [apply (Hlookup Examples.six_workflows_world 1); exists items6;
          split; [exact Hmap6|split; [exact Hkeys6|exact G1]]|].
  apply (Hlookup Examples.six_workflows_world 4); exists items6.
  split; [exact Hmap6|split; [exact Hkeys6|exact G4]].
Qed.

(** ** Interactive sessions *)

(** C9. [get_active] is the number of sessions whose status is none of
    stopped, deleted and failed, and [get_status] is the mapping with the
    single key "active" bound to that number. *)
Theorem interactive_sessions_active_spec (self : REANAStatus.t) (w : World) :
  InteractiveSessionsStatus.get_active self w
  = length (filter Spec.active_session (interactive_sessions w))
  ∧ InteractiveSessionsStatus.get_status self w
    = {[ "active" := length (filter Spec.active_session (interactive_sessions w)) ]}
  ∧ dom (InteractiveSessionsStatus.get_status self w) = {[ "active" ]}.
Proof.
  assert (InteractiveSessionsStatus.get_active self w
          = length (filter Spec.active_session (interactive_sessions w))) as Hactive.
  { unfold InteractiveSessionsStatus.get_active, Sql.count.
    rewrite (sql_filter_spec _ Spec.active_session); [done|].
    intros s. rewrite <- (bool_decide_eq_true (Spec.active_session s)).
    by destruct s as [[]]. }
  split; [done|].
  unfold InteractiveSessionsStatus.get_status, dict_of_items. simpl.
  rewrite Hactive, insert_empty. split; [done|]. by rewrite dom_singleton_L.
Qed.

(** ** Strings *)

Lemma string_app_nil_l (s : string) : "" +:+ s = s.
Proof. reflexivity. Qed.

Lemma string_app_cons (c : ascii) (s t : string) :
  String c s +:+ t = String c (s +:+ t).
Proof. reflexivity. Qed.

Lemma string_app_nil_r (s : string) : s +:+ "" = s.
Proof. induction s as [|c s IH]; [done|]. by rewrite string_app_cons, IH. Qed.

Lemma string_app_assoc (s1 s2 s3 : string) : (s1 +:+ s2) +:+ s3 = s1 +:+ (s2 +:+ s3).
Proof. induction s1 as [|c s1 IH]; [done|]. by rewrite !string_app_cons, IH. Qed.

Lemma string_app_nonempty_r (s t : string) : t ≠ "" → s +:+ t ≠ "".
Proof. destruct s; [done|]. by rewrite string_app_cons. Qed.

Lemma all_chars_app (p : ascii → bool) (s t : string) :
  Spec.all_chars p (s +:+ t) = Spec.all_chars p s && Spec.all_chars p t.
Proof.
  induction s as [|c s IH]; [done|].
  rewrite string_app_cons. cbn [Spec.all_chars]. by rewrite IH, andb_assoc.
Qed.

Lemma all_chars_impl (p q : ascii → bool) (s : string) :
  (∀ c, p c = true → q c = true) →
  Spec.all_chars p s = true → Spec.all_chars q s = true.
Proof.
  intros Hpq. induction s as [|c s IH]; simpl; [done|].
  rewrite !andb_true_iff. intros [? ?]. auto.
Qed.

Lemma linebreak_isspace (c : ascii) : Py.is_linebreak c = true → Py.isspace c = true.
Proof. by destruct c as [[] [] [] [] [] [] [] []]. Qed.

Lemma blank_isspace (c : ascii) : Spec.is_blank c = true → Py.isspace c = true.
Proof. by destruct c as [[] [] [] [] [] [] [] []]. Qed.

Lemma blank_not_linebreak (c : ascii) :
  Spec.is_blank c = true → Py.is_linebreak c = false.
Proof. by destruct c as [[] [] [] [] [] [] [] []]. Qed.

(** *** [split] *)

Lemma split_whitespace_prefix (p s : string) :
  Spec.all_chars Py.isspace p = true → Py.split (p +:+ s) = Py.split s.
Proof.
  induction p as [|c p IH]; [done|].
  cbn [Spec.all_chars]. rewrite andb_true_iff. intros [Hc ?].
  rewrite string_app_cons. cbn [Py.split]. rewrite Hc. auto.
Qed.

Lemma split_word_prefix (t s : string) :
  Spec.is_word t → Py.starts_with_nonspace s = false →
  Py.split (t +:+ s) = t :: Py.split s.
Proof.
  intros [Hne Hall] Hs. induction t as [|c t IH]; [done|].
  cbn [Spec.all_chars] in Hall. apply andb_true_iff in Hall as [Hc Hall].
  apply negb_true_iff in Hc. rewrite string_app_cons. cbn [Py.split]. rewrite Hc.
  destruct t as [|c' t].
  - rewrite string_app_nil_l. by rewrite Hs.
  - rewrite IH by done.
    cbn [Spec.all_chars] in Hall. apply andb_true_iff in Hall as [Hc' _].
    rewrite string_app_cons. cbn [Py.starts_with_nonspace]. by rewrite Hc'.
Qed.

Lemma padding_starts_with_space (p s : string) :
  Spec.is_padding p → Py.starts_with_nonspace (p +:+ s) = false.
Proof.
  intros [Hne Hall]. destruct p as [|c p]; [done|].
  cbn [Spec.all_chars] in Hall. apply andb_true_iff in Hall as [Hc _].
  rewrite string_app_cons. cbn [Py.starts_with_nonspace].
  by rewrite (blank_isspace _ Hc).
Qed.

Lemma split_line (first : string) (rest : list (string * string)) :
  Spec.well_formed first rest →
  Py.split (Spec.line first rest) = Spec.entries first rest.
Proof.
  revert first. induction rest as [|[padding word] rest IH]; intros first [Hfirst Hrest].
  - cbn [Spec.line Spec.entries map]. rewrite <- (string_app_nil_r first) at 1.
    by rewrite split_word_prefix.
  - apply Forall_cons in Hrest as [[Hpad Hword] Hrest]. cbn [fst snd] in Hpad, Hword.
    cbn [Spec.line]. rewrite split_word_prefix;
      [|done|by apply padding_starts_with_space].
    rewrite split_whitespace_prefix.
    + by rewrite IH.
    + destruct Hpad as [_ Hall]. revert Hall. apply all_chars_impl, blank_isspace.
Qed.

(** *** [splitlines] and [rstrip] *)

Lemma word_no_linebreak (t : string) :
  Spec.is_word t → Spec.all_chars (λ c, negb (Py.is_linebreak c)) t = true.
Proof.
  intros [_ Hall]. revert Hall. apply all_chars_impl. intros c Hc.
  apply negb_true_iff in Hc. apply negb_true_iff.
  destruct (Py.is_linebreak c) eqn:Hlb; [|done].
  apply linebreak_isspace in Hlb. congruence.
Qed.

Lemma line_no_linebreak (first : string) (rest : list (string * string)) :
  Spec.well_formed first rest →
  Spec.all_chars (λ c, negb (Py.is_linebreak c)) (Spec.line first rest) = true.
Proof.
  revert first. induction rest as [|[padding word] rest IH]; intros first [Hfirst Hrest].
  - by apply word_no_linebreak.
  - apply Forall_cons in Hrest as [[[_ Hpad] Hword] Hrest]. cbn [fst snd] in Hpad, Hword.
    cbn [Spec.line]. rewrite !all_chars_app, word_no_linebreak, IH by done.
    rewrite andb_true_r. cbn [andb]. revert Hpad. apply all_chars_impl.
    intros c Hc. by rewrite (blank_not_linebreak _ Hc).
Qed.

Lemma splitlines_one_line (s : string) :
  s ≠ "" → Spec.all_chars (λ c, negb (Py.is_linebreak c)) s = true →
  Py.splitlines s = [s].
Proof.
  induction s as [|c s IH]; [done|]. intros _ Hall.
  cbn [Spec.all_chars] in Hall. apply andb_true_iff in Hall as [Hc Hall].
  apply negb_true_iff in Hc. cbn [Py.splitlines]. rewrite Hc.
  destruct s as [|c' s]; [done|]. by rewrite IH.
Qed.

Lemma splitlines_first_line (s rest : string) :
  Spec.all_chars (λ c, negb (Py.is_linebreak c)) s = true →
  Py.splitlines (s +:+ String Py.LF rest) = s :: Py.splitlines rest.
Proof.
  induction s as [|c s IH]; intros Hall.
  - rewrite string_app_nil_l. by destruct rest.
  - cbn [Spec.all_chars] in Hall. apply andb_true_iff in Hall as [Hc Hall].
    apply negb_true_iff in Hc. rewrite string_app_cons. cbn [Py.splitlines].
    rewrite Hc. by rewrite IH.
Qed.

Lemma rstrip_stripped_suffix (chars s t : string) :
  Spec.all_chars (λ c, Py.char_in c chars) t = true →
  Py.rstrip chars (s +:+ t) = Py.rstrip chars s.
Proof.
  intros Ht. induction s as [|c s IH].
  - rewrite string_app_nil_l. induction t as [|c t IHt]; [done|].
    cbn [Spec.all_chars] in Ht. apply andb_true_iff in Ht as [Hc Ht].
    cbn [Py.rstrip]. by rewrite IHt, Hc.
  - rewrite string_app_cons. cbn [Py.rstrip]. by rewrite IH.
Qed.

Lemma rstrip_kept_word (chars s t : string) :
  t ≠ "" → Spec.all_chars (λ c, negb (Py.char_in c chars)) t = true →
  Py.rstrip chars (s +:+ t) = s +:+ t.
Proof.
  intros Hne Ht. induction s as [|c s IH].
  - rewrite string_app_nil_l. induction t as [|c t IHt]; [done|].
    cbn [Spec.all_chars] in Ht. apply andb_true_iff in Ht as [Hc Ht].
    apply negb_true_iff in Hc. cbn [Py.rstrip].
    destruct t as [|c' t]; [by cbn; rewrite Hc|].
    by rewrite IHt.
  - rewrite string_app_cons. cbn [Py.rstrip]. rewrite IH.
    pose proof (string_app_nonempty_r s t Hne). by destruct (s +:+ t).
Qed.

Lemma line_ends_with_word (first : string) (rest : list (string * string)) :
  Spec.well_formed first rest →
  ∃ before word, Spec.line first rest = before +:+ word ∧ Spec.is_word word.
Proof.
  revert first. induction rest as [|[padding word] rest IH]; intros first [Hfirst Hrest].
  - by exists "", first.
  - apply Forall_cons in Hrest as [[_ Hword] Hrest]. cbn [snd] in Hword.
    destruct (IH word) as (before & last & Heq & Hlast); [done|].
    exists (first +:+ padding +:+ before), last. split; [|done].
    cbn [Spec.line]. by rewrite Heq, !string_app_assoc.
Qed.

Lemma index_first_occurrence (name : string) (xs : list string) (i : nat) :
  Spec.column xs name i → Py.index name xs = Py.Ok i.
Proof.
  revert i. induction xs as [|x xs IH]; intros i [Hi Hfirst]; [done|].
  cbn [Py.index]. destruct i as [|i].
  - injection Hi as ->. by rewrite String.eqb_refl.
  - destruct (String.eqb_spec x name) as [->|_].
    + by destruct (Hfirst 0); [lia|].
    + rewrite (IH i); [done|]. split; [done|].
      intros j Hj. apply (Hfirst (S j)). lia.
Qed.

Lemma newline_chars_isspace (c : ascii) :
  Py.char_in c (String Py.CR (String Py.LF "")) = true → Py.isspace c = true.
Proof. by destruct c as [[] [] [] [] [] [] [] []]. Qed.

(** What [execute_cmd] returns for two well-formed lines, whatever newlines
    end the output, and how [splitlines] then reads it. *)
Lemma two_lines_read (h0 : string) hrest (v0 : string) vrest (trailing : string) :
  Spec.well_formed h0 hrest → Spec.well_formed v0 vrest →
  Spec.all_chars (λ c, Py.char_in c (String Py.CR (String Py.LF ""))) trailing = true →
  Py.splitlines
    (Py.rstrip (String Py.CR (String Py.LF ""))
       (Spec.line h0 hrest +:+ String Py.LF (Spec.line v0 vrest) +:+ trailing))
  = [Spec.line h0 hrest; Spec.line v0 vrest].
Proof.
  intros Hh Hv Htrailing.
  destruct (line_ends_with_word v0 vrest Hv) as (before & word & Heq & Hword).
  assert (Spec.line v0 vrest ≠ "") as Hne.
  { rewrite Heq. apply string_app_nonempty_r. by destruct Hword. }
  rewrite <- string_app_assoc.
  rewrite rstrip_stripped_suffix by done.
  rewrite Heq at 1. rewrite <- string_app_cons, <- string_app_assoc.
  rewrite rstrip_kept_word.
  - rewrite string_app_assoc, string_app_cons, <- Heq.
    rewrite splitlines_first_line by by apply line_no_linebreak.
    rewrite splitlines_one_line; [done|done|by apply line_no_linebreak].
  - by destruct Hword.
  - destruct Hword as [_ Hall]. revert Hall. apply all_chars_impl.
    intros c Hc. apply negb_true_iff in Hc. apply negb_true_iff.
    destruct (Py.char_in c _) eqn:Hin; [|done].
    apply newline_chars_isspace in Hin. congruence.
Qed.

(** ** Storage *)

(** C7. For the output with header [Filesystem Size Used Avail Use% Mounted]
    and the single row [/dev/sda1 100G 40G 60G 40% /data],
    [shared_volume_health] returns "40G/60G (40%)".  In general, for a
    header line and a value line of blank-separated words, it returns
    "<used>/<avail> (<pct>)", where the three are the values under the
    first header entries titled [Used], [Avail] and [Use%], wherever those
    columns stand. *)
Theorem shared_volume_health_by_header_name :
  (∀ (cfg : Config) (self : REANAStatus.t) (w : World),
     check_output w ["df"; "-h"; SHARED_VOLUME_PATH cfg] = Py.Ok Examples.df_output →
     StorageStatus.shared_volume_health cfg self w = Py.ret "40G/60G (40%)")
  ∧ (∀ (cfg : Config) (self : REANAStatus.t) (w : World)
       (h0 : string) (hrest : list (string * string))
       (v0 : string) (vrest : list (string * string)) (trailing : string)
       (i j k : nat) (used avail pct : string),
       Spec.well_formed h0 hrest → Spec.well_formed v0 vrest →
       Spec.all_chars (λ c, Py.char_in c (String Py.CR (String Py.LF ""))) trailing = true →
       check_output w ["df"; "-h"; SHARED_VOLUME_PATH cfg]
       = Py.Ok (Spec.line h0 hrest +:+ String Py.LF (Spec.line v0 vrest) +:+ trailing) →
       Spec.column (Spec.entries h0 hrest) "Used" i →
       Spec.column (Spec.entries h0 hrest) "Avail" j →
       Spec.column (Spec.entries h0 hrest) "Use%" k →
       Spec.entries v0 vrest !! i = Some used →
       Spec.entries v0 vrest !! j = Some avail →
       Spec.entries v0 vrest !! k = Some pct →
       StorageStatus.shared_volume_health cfg self w
       = Py.ret (used +:+ "/" +:+ avail +:+ " (" +:+ pct +:+ ")")).
Proof.
  split.
  - intros cfg self w Hout.
    unfold StorageStatus.shared_volume_health, REANAStatus.execute_cmd.
    by rewrite Hout.
  - intros cfg self w h0 hrest v0 vrest trailing i j k used avail pct
      Hh Hv Htrailing Hout Hi Hj Hk Hused Havail Hpct.
    unfold StorageStatus.shared_volume_health, REANAStatus.execute_cmd.
    rewrite Hout, io_bind_ok, io_bind_ret.
    rewrite two_lines_read by done.
    rewrite (list_getitem_Some _ 0 (Spec.line h0 hrest)), io_bind_ok by done.
    rewrite (list_getitem_Some _ 1 (Spec.line v0 vrest)), io_bind_ok by done.
    rewrite !split_line by done.
    rewrite (index_first_occurrence _ _ _ Hi), io_bind_ok.
    rewrite (index_first_occurrence _ _ _ Hj), io_bind_ok.
    rewrite (index_first_occurrence _ _ _ Hk), io_bind_ok.
    rewrite (list_getitem_Some _ _ _ Hused), io_bind_ok.
    rewrite (list_getitem_Some _ _ _ Havail), io_bind_ok.
    by rewrite (list_getitem_Some _ _ _ Hpct), io_bind_ok.
Qed.

(** The specification's example, obtained from the general rule. *)
Lemma shared_volume_health_df_example :
  StorageStatus.shared_volume_health Examples.cfg_two_namespaces
    (StorageStatus.__init__ Examples.cfg_two_namespaces Examples.df_world None None None)
    Examples.df_world
  = Py.ret "40G/60G (40%)".
Proof.
  apply (proj2 shared_volume_health_by_header_name
           Examples.cfg_two_namespaces _ Examples.df_world
           "Filesystem" [(" ", "Size"); (" ", "Used"); (" ", "Avail"); (" ", "Use%"); (" ", "Mounted")]
           "/dev/sda1" [(" ", "100G"); (" ", "40G"); (" ", "60G"); (" ", "40%"); (" ", "/data")]
           Examples.nl 2 3 4 "40G" "60G" "40%").
  - solve_well_formed.
  - solve_well_formed.
  - reflexivity.
  - reflexivity.
  - solve_column.
  - solve_column.
  - solve_column.
  - reflexivity.
  - reflexivity.
  - reflexivity.
Defined.

(** ** Keys of the pod summary are told apart by namespace and phase *)

Lemma string_length_app (s t : string) :
  String.length (s +:+ t) = String.length s + String.length t.
Proof.
  induction s as [|c s IH]; [done|].
  rewrite string_app_cons. cbn [String.length]. by rewrite IH.
Qed.

Lemma string_app_eq_app (s1 s2 t1 t2 : string) :
  s1 +:+ t1 = s2 +:+ t2 →
  (∃ u, s2 = s1 +:+ u ∧ t1 = u +:+ t2) ∨ (∃ u, s1 = s2 +:+ u ∧ t2 = u +:+ t1).
Proof.
  revert s2. induction s1 as [|c s1 IH]; intros s2 Heq.
  - left. by exists s2.
  - destruct s2 as [|c' s2].
    + right. by exists (String c s1).
    + rewrite !string_app_cons in Heq. injection Heq as -> Heq.
      destruct (IH _ Heq) as [(u & -> & ->)|(u & -> & ->)]; [left|right];
        by exists u.
Qed.

Lemma string_app_cancel_r (s1 s2 t : string) : s1 +:+ t = s2 +:+ t → s1 = s2.
Proof.
  assert (∀ u, t = u +:+ t → u = "") as Hempty.
  { intros u Hu. apply (f_equal String.length) in Hu.
    rewrite string_length_app in Hu. destruct u; [done|]. simpl in Hu. lia. }
  intros Heq. destruct (string_app_eq_app _ _ _ _ Heq) as [(u & -> & Hu)|(u & -> & Hu)];
    rewrite (Hempty u Hu); by rewrite string_app_nil_r.
Qed.

Lemma last_underscore_split (a b p q : string) :
  Spec.no_underscore p → Spec.no_underscore q →
  a +:+ String "_" p = b +:+ String "_" q → a = b ∧ p = q.
Proof.
  assert (∀ u x y, Spec.no_underscore x → String "_" x = u +:+ String "_" y →
            u = "" ∧ x = y) as Hcase.
  { intros u x y Hx Heq. destruct u as [|c u].
    - rewrite string_app_nil_l in Heq. by injection Heq.
    - rewrite string_app_cons in Heq. injection Heq as _ ->.
      unfold Spec.no_underscore in Hx. rewrite all_chars_app in Hx.
      by rewrite andb_comm in Hx. }
  intros Hp Hq Heq.
  destruct (string_app_eq_app _ _ _ _ Heq) as [(u & -> & Hu)|(u & -> & Hu)].
  - destruct (Hcase _ _ _ Hp Hu) as [-> ->]. by rewrite string_app_nil_r.
  - destruct (Hcase _ _ _ Hq Hu) as [-> ->]. by rewrite string_app_nil_r.
Qed.

Lemma pods_key_inj (cfg : Config) (w : World) from_ until user
    (ns1 ns2 st1 st2 : string) :
  st1 ∈ PodsStatus.statuses (PodsStatus.__init__ cfg w from_ until user) →
  st2 ∈ PodsStatus.statuses (PodsStatus.__init__ cfg w from_ until user) →
  PodsStatus.key ns1 st1 = PodsStatus.key ns2 st2 → ns1 = ns2 ∧ st1 = st2.
Proof.
  intros H1 H2 Hkey.
  assert (∀ ns st, PodsStatus.key ns st = (ns +:+ String "_" (Py.lower st)) +:+ "_pods")
    as Hshape by (intros; unfold PodsStatus.key; by rewrite string_app_assoc).
  rewrite !Hshape in Hkey. apply string_app_cancel_r in Hkey.
  cbn [PodsStatus.__init__ PodsStatus.statuses] in H1, H2.
  apply last_underscore_split in Hkey as [-> Hlower].
  - split; [done|].
    repeat (apply elem_of_cons in H1 as [->|H1]); [..|by apply elem_of_nil in H1];
      repeat (apply elem_of_cons in H2 as [->|H2]); try done;
      by apply elem_of_nil in H2.
  - repeat (apply elem_of_cons in H1 as [->|H1]); try done. by apply elem_of_nil in H1.
  - repeat (apply elem_of_cons in H2 as [->|H2]); try done. by apply elem_of_nil in H2.
Qed.

(** ** Pods *)

Lemma foldl_insert_nested {A B V} (k : A → B → string) (v : A → B → V)
    (xs : list A) (ys : list B) (d0 : gmap string V) :
  foldl (λ d x, foldl (λ d y, <[k x y := v x y]> d) d ys) d0 xs
  = foldl (λ d kv, <[kv.1 := kv.2]> d) d0 (x ← xs; (λ y, (k x y, v x y)) <$> ys).
Proof.
  revert d0. induction xs as [|x xs IH]; intros d0; [done|].
  rewrite bind_cons, foldl_app. cbn [foldl]. rewrite IH. f_equal.
  by rewrite foldl_fmap.
Qed.

(** The text [get_friendly_pods_by_status] makes of a pod listing. *)
Lemma get_friendly_pods_by_status_answer (self : PodsStatus.t) (w : World)
    (status namespace : string) (pods : list V1Pod.t) :
  list_namespaced_pod w namespace ("status.phase=" +:+ status) = Py.Ok pods →
  PodsStatus.get_friendly_pods_by_status self w status namespace
  = Py.ret (Py.join (String Py.LF "  ") ("" :: map V1Pod.metadata_name pods)).
Proof.
  intros Hpods.
  unfold PodsStatus.get_friendly_pods_by_status, PodsStatus.get_pods_by_status.
  by rewrite Hpods, io_bind_ok, io_bind_ret.
Qed.

Lemma pods_get_status_items (cfg : Config) (w : World) from_ until user
    (listing : string → string → list V1Pod.t) :
  (∀ ns selector, list_namespaced_pod w ns selector = Py.Ok (listing ns selector)) →
  PodsStatus.get_status (PodsStatus.__init__ cfg w from_ until user) w
  = Py.ret
      (dict_of_items
         (ns ← elements (REANAStatus.namespaces (REANAStatus.__init__ cfg w from_ until user));
          (λ status,
             (PodsStatus.key ns status,
              Py.join (String Py.LF "  ")
                ("" :: map V1Pod.metadata_name (listing ns ("status.phase=" +:+ status)))))
          <$> PodsStatus.statuses (PodsStatus.__init__ cfg w from_ until user))).
Proof.
  intros Hapi. unfold PodsStatus.get_status, dict_of_items.
  rewrite <- foldl_insert_nested.
  apply for_each_pure. intros d ns _.
  apply (for_each_pure _ _ (λ d status, <[PodsStatus.key ns status := _]> d)).
  intros d' status _.
  by rewrite (get_friendly_pods_by_status_answer _ _ _ _ _ (Hapi _ _)), io_bind_ret.
Qed.

Lemma pods_items_keys {V} (nss statuses : list string) (v : string → string → V) :
  (ns ← nss; (λ status, (PodsStatus.key ns status, v ns status)) <$> statuses).*1
  = ns ← nss; PodsStatus.key ns <$> statuses.
Proof.
  induction nss as [|ns nss IH]; [done|].
  rewrite !bind_cons, fmap_app, IH. f_equal.
  by rewrite <- list_fmap_compose.
Qed.

Lemma pods_keys_NoDup (cfg : Config) (w : World) from_ until user (nss : list string) :
  NoDup nss →
  NoDup (ns ← nss;
         PodsStatus.key ns <$> PodsStatus.statuses (PodsStatus.__init__ cfg w from_ until user)).
Proof.
  intros Hnss. apply NoDup_bind; [| |done].
  - intros ns1 ns2 k _ _ (st1 & -> & H1)%list_elem_of_fmap (st2 & Hk & H2)%list_elem_of_fmap.
    by destruct (pods_key_inj cfg w from_ until user _ _ _ _ H1 H2 Hk).
  - intros ns _. apply NoDup_fmap_2_strong.
    + intros st1 st2 H1 H2 Hk.
      by destruct (pods_key_inj cfg w from_ until user _ _ _ _ H1 H2 Hk).
    + cbn [PodsStatus.__init__ PodsStatus.statuses].
      by apply (bool_decide_unpack _).
Qed.

Lemma pods_keys_spec (cfg : Config) (w : World) from_ until user (nss : list string) :
  (ns ← nss;
   PodsStatus.key ns <$> PodsStatus.statuses (PodsStatus.__init__ cfg w from_ until user))
  = Spec.pod_keys nss.
Proof.
  unfold Spec.pod_keys. induction nss as [|ns nss IH]; [done|].
  rewrite !bind_cons, IH. done.
Qed.

Lemma namespaces_size (cfg : Config) (w : World) from_ until user :
  size (REANAStatus.namespaces (REANAStatus.__init__ cfg w from_ until user))
  = if decide (REANA_INFRASTRUCTURE_KUBERNETES_NAMESPACE cfg
               = REANA_RUNTIME_KUBERNETES_NAMESPACE cfg) then 1 else 2.
Proof.
  cbn [REANAStatus.__init__ REANAStatus.namespaces]. case_decide as Heq.
  - rewrite Heq, union_idemp_L. apply size_singleton.
  - rewrite size_union, !size_singleton; [done|].
    by apply disjoint_singleton_l, not_elem_of_singleton.
Qed.

Lemma pods_keys_length (cfg : Config) (w : World) from_ until user (nss : list string) :
  length (ns ← nss;
          PodsStatus.key ns <$> PodsStatus.statuses (PodsStatus.__init__ cfg w from_ until user))
  = 5 * length nss.
Proof.
  induction nss as [|ns nss IH]; [done|].
  rewrite bind_cons, length_app, IH, length_fmap. cbn [length PodsStatus.__init__ PodsStatus.statuses].
  lia.
Qed.

Lemma pods_items_NoDup (cfg : Config) (w : World) from_ until user
    {V} (v : string → string → V) :
  NoDup (ns ← elements (REANAStatus.namespaces (REANAStatus.__init__ cfg w from_ until user));
         (λ status, (PodsStatus.key ns status, v ns status))
         <$> PodsStatus.statuses (PodsStatus.__init__ cfg w from_ until user)).*1.
Proof. rewrite pods_items_keys. apply pods_keys_NoDup, NoDup_elements. Qed.

Lemma pods_items_size (cfg : Config) (w : World) from_ until user
    {V} (v : string → string → V) :
  size (dict_of_items
          (ns ← elements (REANAStatus.namespaces (REANAStatus.__init__ cfg w from_ until user));
           (λ status, (PodsStatus.key ns status, v ns status))
           <$> PodsStatus.statuses (PodsStatus.__init__ cfg w from_ until user)))
  = if decide (REANA_INFRASTRUCTURE_KUBERNETES_NAMESPACE cfg
               = REANA_RUNTIME_KUBERNETES_NAMESPACE cfg) then 5 else 10.
Proof.
  rewrite dict_of_items_list_to_map by apply pods_items_NoDup.
  rewrite <- size_dom, dom_list_to_map_L, size_list_to_set by apply pods_items_NoDup.
  rewrite pods_items_keys, pods_keys_length.
  change (length (elements ?X)) with (size X).
  rewrite namespaces_size. by case_decide.
Qed.

(** C2, as the code has it.  When the API answers every pod listing,
    [PodsStatus.get_status] returns a mapping whose keys are exactly the
    strings "<namespace>_<phase-lowercased>_pods" for the namespaces in the
    SET of the two namespace constants and the five phases: 10 keys when the
    constants differ, 5 when they name the same namespace.  Each value is
    the text made of the pod names listed for that namespace and phase. *)
Theorem pods_get_status_keys (cfg : Config) (w : World)
    (from_ until : option Py.datetime) (user : option User.t)
    (listing : string → string → list V1Pod.t) :
  (∀ ns selector, list_namespaced_pod w ns selector = Py.Ok (listing ns selector)) →
  ∃ d : gmap string string,
    PodsStatus.get_status (PodsStatus.__init__ cfg w from_ until user) w = Py.ret d
    ∧ (∀ k, k ∈ dom d ↔
         ∃ ns phase,
           (ns = REANA_INFRASTRUCTURE_KUBERNETES_NAMESPACE cfg
            ∨ ns = REANA_RUNTIME_KUBERNETES_NAMESPACE cfg)
           ∧ phase ∈ Spec.pod_phases
           ∧ k = ns +:+ "_" +:+ phase +:+ "_pods")
    ∧ size d = (if decide (REANA_INFRASTRUCTURE_KUBERNETES_NAMESPACE cfg
                           = REANA_RUNTIME_KUBERNETES_NAMESPACE cfg)
                then 5 else 10)
    ∧ (∀ ns status,
         (ns = REANA_INFRASTRUCTURE_KUBERNETES_NAMESPACE cfg
          ∨ ns = REANA_RUNTIME_KUBERNETES_NAMESPACE cfg) →
         status ∈ ["Running"; "Pending"; "Suceeded"; "Failed"; "Unknown"] →
         d !! (ns +:+ "_" +:+ Py.lower status +:+ "_pods")
         = Some (Py.join (String Py.LF "  ")
                   ("" :: map V1Pod.metadata_name (listing ns ("status.phase=" +:+ status))))).
Proof.
  intros Hapi. eexists. split; [by apply pods_get_status_items|].
  set (nss := REANAStatus.namespaces (REANAStatus.__init__ cfg w from_ until user)).
  set (items := _ ≫= _).
  assert (items.*1 = Spec.pod_keys (elements nss)) as Hkeys.
  { unfold items. by rewrite pods_items_keys, pods_keys_spec. }
  assert (NoDup items.*1) as Hnodup by apply pods_items_NoDup.
  assert (∀ ns, ns ∈ elements nss ↔
            ns = REANA_INFRASTRUCTURE_KUBERNETES_NAMESPACE cfg
            ∨ ns = REANA_RUNTIME_KUBERNETES_NAMESPACE cfg) as Hns.
  { intros ns. rewrite elem_of_elements. unfold nss.
    cbn [REANAStatus.__init__ REANAStatus.namespaces].
    by rewrite elem_of_union, !elem_of_singleton. }
  split; [|split; [apply pods_items_size|]];
    rewrite dict_of_items_list_to_map by done.
  - intros k. rewrite dom_list_to_map_L, elem_of_list_to_set, Hkeys.
    unfold Spec.pod_keys. rewrite list_elem_of_bind. split.
    + intros (ns & (phase & ->%list_elem_of_singleton & Hphase)%list_elem_of_bind & Hin).
      exists ns, phase. by rewrite <- Hns.
    + intros (ns & phase & Hin & Hphase & ->). exists ns. rewrite Hns. split; [|done].
      apply list_elem_of_bind. exists phase. split; [by left|done].
  - intros ns status Hin Hstatus. apply elem_of_list_to_map; [done|].
    unfold items. apply list_elem_of_bind. exists ns. rewrite Hns. split; [|done].
    apply list_elem_of_fmap. by exists status.
Qed.

(** The claim's hypothesis holds of an empty cluster with two namespaces. *)
Lemma pods_get_status_keys_two_namespaces :
  ∃ d : gmap string string,
    PodsStatus.get_status
      (PodsStatus.__init__ Examples.cfg_two_namespaces Examples.quiet_world None None None)
      Examples.quiet_world = Py.ret d
    ∧ size d = 10.
Proof.
  destruct (pods_get_status_keys Examples.cfg_two_namespaces Examples.quiet_world
              None None None (λ _ _, [])) as (d & Hd & _ & Hsize & _).
  - reflexivity.
  - exists d. split; [exact Hd|exact Hsize].
Defined.

(** C2 as stated fails: with both namespace constants set to "default" the
    API answers every listing and the summary has 5 keys, not 10. *)
Lemma pods_get_status_one_namespace_five_keys :
  ¬ (∀ (cfg : Config) (w : World),
       (∀ ns selector, ∃ pods, list_namespaced_pod w ns selector = Py.Ok pods) →
       ∃ d : gmap string string,
         PodsStatus.get_status (PodsStatus.__init__ cfg w None None None) w = Py.ret d
         ∧ size d = 10).
Proof.
  intros Hclaim.
  destruct (Hclaim Examples.cfg_one_namespace Examples.quiet_world) as (d & Hd & Hsize).
  { intros ns selector. by exists []. }
  rewrite (pods_get_status_items _ _ _ _ _ (λ _ _, [])) in Hd by done.
  apply io_ret_inj in Hd. rewrite <- Hd, pods_items_size in Hsize.
  rewrite decide_True in Hsize by reflexivity. discriminate Hsize.
Qed.

(** A namespace and phase with no pods gives the empty string: the key
    stays in the summary with an empty value. *)
Theorem get_friendly_pods_by_status_empty (self : PodsStatus.t) (w : World)
    (status namespace : string) :
  list_namespaced_pod w namespace ("status.phase=" +:+ status) = Py.Ok [] →
  PodsStatus.get_friendly_pods_by_status self w status namespace = Py.ret "".
Proof. intros Hpods. by rewrite (get_friendly_pods_by_status_answer _ _ _ _ [] Hpods). Qed.

Lemma get_friendly_pods_by_status_empty_quiet_cluster :
  PodsStatus.get_friendly_pods_by_status
    (PodsStatus.__init__ Examples.cfg_two_namespaces Examples.quiet_world None None None)
    Examples.quiet_world "Running" "reana-runtime"
  = Py.ret "".
Proof. apply get_friendly_pods_by_status_empty. reflexivity. Defined.

(** ** Nodes *)

Lemma resolve_bound (globals : Py.namespace) (name : string) (b : Py.binding) :
  Py.resolve (<[name := b]> globals) name = Some b.
Proof. unfold Py.resolve. by rewrite lookup_insert_eq. Qed.

Lemma ApiException_unbound : Py.resolve status_globals "ApiException" = None.
Proof. reflexivity. Qed.

Lemma record_capacity_present (result : Py.odict (gmap string string)) (node : V1Node.t)
    (memory : string) :
  V1Node.status_capacity node !! "memory" = Some memory →
  NodesStatus.record_capacity result node
  = Py.ret (Py.odict_set result (V1Node.metadata_name node)
              (dict_of_items [("capacity", memory)])).
Proof.
  intros Hmemory. unfold NodesStatus.record_capacity.
  by rewrite (getitem_Some _ _ _ Hmemory), io_bind_ok.
Qed.

Lemma record_capacity_all (nodes : list V1Node.t) (result : Py.odict (gmap string string)) :
  Forall (λ node, is_Some (V1Node.status_capacity node !! "memory")) nodes →
  ∃ result', Py.for_each nodes NodesStatus.record_capacity result = Py.ret result'.
Proof.
  revert result. induction nodes as [|node nodes IH]; intros result Hnodes.
  - by exists result.
  - apply Forall_cons in Hnodes as [[memory Hmemory] Hnodes].
    cbn [Py.for_each].
    rewrite (record_capacity_present _ _ _ Hmemory), io_bind_ret. apply IH, Hnodes.
Qed.

(** Whatever exception the metrics call raises, the [except] clause cannot
    name its class: the method ends in [NameError], and nothing is logged. *)
Lemma get_memory_usage_metrics_error (ext : Imports) (self : REANAStatus.t) (w : World)
    (nodes : list V1Node.t) (e : Py.exn) :
  list_node w None = Py.Ok nodes →
  Forall (λ node, is_Some (V1Node.status_capacity node !! "memory")) nodes →
  list_cluster_custom_object w "metrics.k8s.io" "v1beta1" "nodes" = Py.Raise e →
  NodesStatus.get_memory_usage ext self w = Py.raise (Py.NameError "ApiException").
Proof.
  intros Hnodes Hcapacity Hmetrics.
  unfold NodesStatus.get_memory_usage, NodesStatus.get_memory_usage_in.
  rewrite Hnodes, io_bind_ok.
  destruct (record_capacity_all nodes [] Hcapacity) as [result ->].
  rewrite io_bind_ret, Hmetrics, io_bind_raise.
  unfold Py.try_except. cbn [Py.outcome Py.raise Py.logged].
  by rewrite ApiException_unbound.
Qed.

(** Had the module imported [ApiException], the same failure would be
    logged and answered with an empty mapping. *)
Lemma get_memory_usage_with_import (ext : Imports) (self : REANAStatus.t) (w : World)
    (nodes : list V1Node.t) (status : Z) (reason : string) :
  list_node w None = Py.Ok nodes →
  Forall (λ node, is_Some (V1Node.status_capacity node !! "memory")) nodes →
  list_cluster_custom_object w "metrics.k8s.io" "v1beta1" "nodes"
  = Py.Raise (Py.ApiException status reason) →
  NodesStatus.get_memory_usage_in (<["ApiException" := ApiException_class]> status_globals)
    ext self w
  = Py.IO [ "Error while calling `metrics.k8s.io` API.";
            Py.str_exn (Py.ApiException status reason) ]
          (Py.Ok [])
  ∧ NodesStatus.friendly_memory_usage_of
      (NodesStatus.get_memory_usage_in (<["ApiException" := ApiException_class]> status_globals)
         ext self w)
    = Py.IO [ "Error while calling `metrics.k8s.io` API.";
              Py.str_exn (Py.ApiException status reason) ]
            (Py.Ok "").
Proof.
  intros Hnodes Hcapacity Hmetrics.
  assert (NodesStatus.get_memory_usage_in
            (<["ApiException" := ApiException_class]> status_globals) ext self w
          = Py.IO [ "Error while calling `metrics.k8s.io` API.";
                    Py.str_exn (Py.ApiException status reason) ] (Py.Ok [])) as Heq.
  { unfold NodesStatus.get_memory_usage_in.
    rewrite Hnodes, io_bind_ok.
    destruct (record_capacity_all nodes [] Hcapacity) as [result ->].
    rewrite io_bind_ret, Hmetrics, io_bind_raise.
    unfold Py.try_except. cbn [Py.outcome Py.raise Py.logged].
    by rewrite resolve_bound. }
  split; [done|]. by rewrite Heq.
Qed.

(** C1, on the code: on a cluster whose metrics call raises [ApiException],
    [get_memory_usage] does not return an empty mapping; it raises
    [NameError], and so do [get_friendly_memory_usage] and [get_status],
    with nothing logged.  [get_unschedulable_nodes] still answers. *)
Theorem get_memory_usage_metrics_down :
  NodesStatus.get_memory_usage Examples.ext_plain
    (NodesStatus.__init__ Examples.cfg_two_namespaces Examples.metrics_down_world None None None)
    Examples.metrics_down_world
  = Py.IO [] (Py.Raise (Py.NameError "ApiException"))
  ∧ NodesStatus.get_friendly_memory_usage Examples.ext_plain
      (NodesStatus.__init__ Examples.cfg_two_namespaces Examples.metrics_down_world None None None)
      Examples.metrics_down_world
    = Py.IO [] (Py.Raise (Py.NameError "ApiException"))
  ∧ NodesStatus.get_status Examples.ext_plain
      (NodesStatus.__init__ Examples.cfg_two_namespaces Examples.metrics_down_world None None None)
      Examples.metrics_down_world
    = Py.IO [] (Py.Raise (Py.NameError "ApiException"))
  ∧ NodesStatus.get_unschedulable_nodes
      (NodesStatus.__init__ Examples.cfg_two_namespaces Examples.metrics_down_world None None None)
      Examples.metrics_down_world
    = Py.IO [] (Py.Ok []).
Proof.
  assert (NodesStatus.get_memory_usage Examples.ext_plain
            (NodesStatus.__init__ Examples.cfg_two_namespaces Examples.metrics_down_world
               None None None)
            Examples.metrics_down_world
          = Py.raise (Py.NameError "ApiException")) as Hraise.
  { apply (get_memory_usage_metrics_error _ _ _ [Examples.node1] (Py.ApiException 404 "Not Found"));
      [done| |done].
    apply Forall_cons. split; [|by apply Forall_nil]. by exists "8Gi". }
  split; [exact Hraise|].
  split; [|split; [|done]].
  - unfold NodesStatus.get_friendly_memory_usage, NodesStatus.friendly_memory_usage_of.
    by rewrite Hraise.
  - unfold NodesStatus.get_status, NodesStatus.get_friendly_memory_usage,
      NodesStatus.friendly_memory_usage_of.
    by rewrite Hraise.
Qed.

(** ** Jobs *)

Lemma startswith_spec (s p : string) :
  Py.startswith s p = true ↔ ∃ suffix, s = p +:+ suffix.
Proof.
  unfold Py.startswith. revert s. induction p as [|a p IH]; intros s.
  - split; [intros _; by exists s|by destruct s].
  - destruct s as [|b s]; cbn [String.prefix].
    + split; [discriminate|]. intros [suffix Hs]. rewrite string_app_cons in Hs.
      discriminate Hs.
    + destruct (Ascii.ascii_dec a b) as [->|Hne].
      * rewrite IH. split; intros [suffix Hs]; exists suffix.
        -- by rewrite string_app_cons, Hs.
        -- rewrite string_app_cons in Hs. by injection Hs.
      * split; [discriminate|]. intros [suffix Hs]. rewrite string_app_cons in Hs.
        injection Hs as Hab _. by destruct Hne.
Qed.

Lemma job_pods_filter (cfg : Config) (names : list string) :
  List.filter (λ name, Py.startswith name (REANA_COMPONENT_PREFIX cfg +:+ "-run-job")) names
  = filter (Spec.job_pod cfg) names.
Proof.
  induction names as [|name names IH]; [done|].
  cbn [List.filter]. rewrite filter_cons, IH.
  destruct (Py.startswith name (REANA_COMPONENT_PREFIX cfg +:+ "-run-job")) eqn:Hname.
  - rewrite decide_True; [done|]. by apply startswith_spec.
  - rewrite decide_False; [done|]. intros Hpod%startswith_spec. congruence.
Qed.

Lemma jobs_count_spec (self : JobsStatus.t) (w : World) (status : JobStatus.t)
    (backend : string) :
  backend ≠ "" →
  JobsStatus.get_jobs_by_status_and_compute_backend self w status (Some backend)
  = length (filter (Spec.job_of status backend) (jobs w)).
Proof.
  intros Hbackend. unfold JobsStatus.get_jobs_by_status_and_compute_backend, Sql.count.
  destruct backend as [|c backend]; [done|].
  rewrite (sql_filter_spec _ (λ j, Job.compute_backend j = Some (String c backend)));
    [|intros j; apply sql_eq_holds].
  rewrite (sql_filter_spec _ (λ j, Job.status j = Some status));
    [|intros j; apply sql_eq_holds].
  rewrite list_filter_filter. f_equal.
  apply list_filter_iff. intros j. unfold Spec.job_of. tauto.
Qed.

Lemma get_k8s_jobs_by_status_answer (cfg : Config) (self : JobsStatus.t) (w : World)
    (status : string) (pods : list V1Pod.t) :
  list_namespaced_pod w (REANA_RUNTIME_KUBERNETES_NAMESPACE cfg) ("status.phase=" +:+ status)
  = Py.Ok pods →
  JobsStatus.get_k8s_jobs_by_status cfg self w status
  = Py.ret (List.filter
              (λ name, Py.startswith name (REANA_COMPONENT_PREFIX cfg +:+ "-run-job"))
              (map V1Pod.metadata_name pods)).
Proof.
  intros Hpods. unfold JobsStatus.get_k8s_jobs_by_status.
  by rewrite Hpods, io_bind_ok.
Qed.

(** The per-backend mapping: one entry per status of the provider's list. *)
Lemma jobs_backend_counts (cfg : Config) (w : World) from_ until user (backend : string)
    (count : JobStatus.t → nat) :
  let counts : gmap string nat :=
    dict_of_items
      ((λ status, (JobStatus.name status, count status))
       <$> JobsStatus.statuses (JobsStatus.__init__ cfg w from_ until user)) in
  dom counts = list_to_set ["running"; "finished"; "failed"; "queued"]
  ∧ size counts = 4
  ∧ ∀ status, counts !! JobStatus.name status = Some (count status).
Proof.
  cbn zeta. cbn [JobsStatus.__init__ JobsStatus.statuses fmap list_fmap JobStatus.name].
  assert (NoDup ["running"; "finished"; "failed"; "queued"]) as Hnodup
    by by apply (bool_decide_unpack _).
  rewrite dict_of_items_list_to_map by exact Hnodup.
  split; [by rewrite dom_list_to_map_L|].
  split; [by rewrite <- size_dom, dom_list_to_map_L, size_list_to_set|].
  intros status. apply elem_of_list_to_map; [exact Hnodup|].
  destruct status; cbn [JobStatus.name].
  - by left.
  - by right; left.
  - by do 2 right; left.
  - by do 3 right; left.
Qed.

Lemma backend_nonempty (backend : string) :
  backend ∈ ["Kubernetes"; "HTCondor"; "Slurm"] → backend ≠ "".
Proof.
  intros Hbackend ->.
  apply elem_of_cons in Hbackend as [Heq|Hbackend]; [discriminate Heq|].
  apply elem_of_cons in Hbackend as [Heq|Hbackend]; [discriminate Heq|].
  apply elem_of_cons in Hbackend as [Heq|Hbackend]; [discriminate Heq|].
  exact (proj1 (elem_of_nil _) Hbackend).
Qed.

(** C6. When the API answers the two pod listings of the runtime namespace,
    [JobsStatus.get_status] returns a mapping with exactly the four keys
    "kubernetes", "htcondor", "slurm" and "kubernetes_api"; each backend key
    is bound to a mapping with exactly the four keys running, finished,
    failed and queued, each bound to the number of job rows of that status
    and backend; "kubernetes_api" is bound to the mapping of "running" and
    "pending" to the number of job pods, the pods named
    "<REANA_COMPONENT_PREFIX>-run-job...", in the listing of running pods
    and in that of pending pods. *)
Theorem jobs_get_status_shape (cfg : Config) (w : World)
    (from_ until : option Py.datetime) (user : option User.t)
    (running pending : list V1Pod.t) :
  list_namespaced_pod w (REANA_RUNTIME_KUBERNETES_NAMESPACE cfg) "status.phase=Running"
  = Py.Ok running →
  list_namespaced_pod w (REANA_RUNTIME_KUBERNETES_NAMESPACE cfg) "status.phase=Pending"
  = Py.Ok pending →
  ∃ d : gmap string (gmap string nat),
    JobsStatus.get_status cfg (JobsStatus.__init__ cfg w from_ until user) w = Py.ret d
    ∧ dom d = list_to_set ["kubernetes"; "htcondor"; "slurm"; "kubernetes_api"]
    ∧ size d = 4
    ∧ (∀ backend, backend ∈ ["Kubernetes"; "HTCondor"; "Slurm"] →
         ∃ counts : gmap string nat,
           d !! Py.lower backend = Some counts
           ∧ dom counts = list_to_set ["running"; "finished"; "failed"; "queued"]
           ∧ size counts = 4
           ∧ ∀ status,
               counts !! JobStatus.name status
               = Some (length (filter (Spec.job_of status backend) (jobs w))))
    ∧ d !! "kubernetes_api"
      = Some (<["pending" := length (filter (Spec.job_pod cfg)
                                       (V1Pod.metadata_name <$> pending))]>
                {["running" := length (filter (Spec.job_pod cfg)
                                         (V1Pod.metadata_name <$> running))]}).
Proof.
  intros Hrunning Hpending.
  set (self := JobsStatus.__init__ cfg w from_ until user).
  pose proof (get_k8s_jobs_by_status_answer cfg self w "Running" running Hrunning) as Hr.
  pose proof (get_k8s_jobs_by_status_answer cfg self w "Pending" pending Hpending) as Hp.
  rewrite job_pods_filter in Hr, Hp.
  set (running_names := filter _ _) in Hr.
  set (pending_names := filter _ _) in Hp.
  set (counts := λ backend : string,
         dict_of_items
           ((λ status,
               (JobStatus.name status,
                JobsStatus.get_jobs_by_status_and_compute_backend self w status (Some backend)))
            <$> JobsStatus.statuses self)).
  set (api := dict_of_items
                [("running", length running_names); ("pending", length pending_names)]).
  set (items := [ ("kubernetes", counts "Kubernetes"); ("htcondor", counts "HTCondor");
                  ("slurm", counts "Slurm"); ("kubernetes_api", api) ]).
  assert (NoDup items.*1) as Hnodup by by apply (bool_decide_unpack _).
  exists (list_to_map items).
  split; [|split; [|split; [|split]]].
  - unfold JobsStatus.get_status. rewrite Hr, io_bind_ret, Hp, io_bind_ret.
    rewrite <- dict_of_items_list_to_map by exact Hnodup. reflexivity.
  - by rewrite dom_list_to_map_L.
  - by rewrite <- size_dom, dom_list_to_map_L, size_list_to_set.
  - intros backend Hbackend. exists (counts backend).
    destruct (jobs_backend_counts cfg w from_ until user backend
                (λ status, JobsStatus.get_jobs_by_status_and_compute_backend self w status
                             (Some backend))) as (Hdom & Hsize & Hlookup).
    split; [|split; [exact Hdom|split; [exact Hsize|]]].
    + apply elem_of_list_to_map; [exact Hnodup|].
      apply elem_of_cons in Hbackend as [->|Hbackend].
      { change (Py.lower "Kubernetes") with "kubernetes". apply list_elem_of_here. }
      apply elem_of_cons in Hbackend as [->|Hbackend].
      { change (Py.lower "HTCondor") with "htcondor".
        apply list_elem_of_further, list_elem_of_here. }
      apply elem_of_cons in Hbackend as [->|Hbackend].
      { change (Py.lower "Slurm") with "slurm".
        do 2 apply list_elem_of_further. apply list_elem_of_here. }
      exfalso. exact (proj1 (elem_of_nil _) Hbackend).
    + intros status. specialize (Hlookup status).
      rewrite <- (jobs_count_spec self w status backend); [exact Hlookup|].
      by apply backend_nonempty.
  - apply elem_of_list_to_map; [exact Hnodup|].
    do 3 apply list_elem_of_further. apply list_elem_of_here.
Qed.

(** A cluster at work: of the seven job rows, two are running and one is
    finished on Kubernetes (the row of backend "kubernetes" and the row
    without a backend count for no backend); of the three running pods two
    are job pods, of the two pending pods one is. *)
Lemma jobs_get_status_shape_busy_cluster :
  ∃ (d : gmap string (gmap string nat)) (counts : gmap string nat),
    JobsStatus.get_status Examples.cfg_two_namespaces
      (JobsStatus.__init__ Examples.cfg_two_namespaces Examples.busy_world None None None)
      Examples.busy_world = Py.ret d
    ∧ size d = 4
    ∧ d !! "kubernetes" = Some counts
    ∧ counts !! "running" = Some 2
    ∧ counts !! "finished" = Some 1
    ∧ counts !! "failed" = Some 0
    ∧ counts !! "queued" = Some 0
    ∧ d !! "kubernetes_api" = Some (<["pending" := 1]> {["running" := 2]}).
Proof.
  destruct (jobs_get_status_shape Examples.cfg_two_namespaces Examples.busy_world
              None None None
              [ {| V1Pod.metadata_name := "reana-run-job-1" |};
                {| V1Pod.metadata_name := "reana-run-batch-2" |};
                {| V1Pod.metadata_name := "reana-run-job-3" |} ]
              [ {| V1Pod.metadata_name := "reana-run-job-4" |};
                {| V1Pod.metadata_name := "other-run-job-5" |} ])
    as (d & Hd & _ & Hsize & Hbackends & Hapi).
  - reflexivity.
  - reflexivity.
  - destruct (Hbackends "Kubernetes" (list_elem_of_here _ _))
      as (counts & Hcounts & _ & _ & Hlookup).
    exists d, counts. split; [exact Hd|]. split; [exact Hsize|].
    split; [exact Hcounts|].
    split; [exact (Hlookup JobStatus.running)|].
    split; [exact (Hlookup JobStatus.finished)|].
    split; [exact (Hlookup JobStatus.failed)|].
    split; [exact (Hlookup JobStatus.queued)|].
    exact Hapi.
Defined.

(** ** Quota usage *)

Lemma order_by_desc_spec {R K} (key_le : K → K → bool) (key : R → K) (query : list R) :
  (∀ x y, key_le x y = true ∨ key_le y x = true) →
  (∀ x y z, key_le x y = true → key_le y z = true → key_le x z = true) →
  Sql.order_by_desc key_le key query ≡ₚ query
  ∧ StronglySorted (λ a b, key_le (key b) (key a) = true)
      (Sql.order_by_desc key_le key query).
Proof.
  intros Htotal Htrans. unfold Sql.order_by_desc. split.
  - apply merge_sort_Permutation.
  - apply StronglySorted_merge_sort.
    + intros a b c Hab Hbc. by apply (Htrans _ (key b)).
    + intros a b. destruct (Htotal (key a) (key b)); auto.
Qed.

Lemma top_five_by_le_5 {R K} (key_le : K → K → bool) (key : R → K) (rows result : list R) :
  Spec.top_five_by key_le key rows result → (length result ≤ 5)%nat.
Proof. intros (sorted & _ & _ & ->). rewrite length_take. lia. Qed.






Lemma top_five_percentage_rows_spec {K} `{!Sql.Numeric K} (w : World)
    (resource_type : ResourceType.t) :
  Spec.top_five_by Sql.num_le QuotaUsageStatus.usage_ratio
    (filter (λ r, Resource.type_ (UserResource.resource r) = resource_type
                  ∧ UserResource.quota_limit r ≠ 0%Z)
            (user_resources w))
    (QuotaUsageStatus.top_five_percentage_rows w resource_type).
Proof.
  unfold QuotaUsageStatus.top_five_percentage_rows, Sql.limit.
  eexists. split; [|split; [|reflexivity]].
  - etrans; [apply order_by_desc_spec; [apply Sql.num_le_total|apply Sql.num_le_trans]|].
    unfold QuotaUsageStatus.joined_with_resource.
    rewrite (sql_filter_spec _ (λ r, UserResource.quota_limit r ≠ 0%Z)).
    + rewrite (sql_filter_spec _
                 (λ r, Resource.type_ (UserResource.resource r) = resource_type)).
      * rewrite list_filter_filter.
        erewrite list_filter_iff; [reflexivity|]. intros r. cbn beta. tauto.
      * intros r. rewrite sql_eq_holds. split; congruence.
    + intros r. rewrite sql_ne_holds. split.
      * by intros (a & [= <-] & Hne).
      * intros Hne. by exists (UserResource.quota_limit r).
  - apply order_by_desc_spec; [apply Sql.num_le_total|apply Sql.num_le_trans].
Qed.

Lemma top_five_rows_spec (w : World) (resource_type : ResourceType.t) :
  Spec.top_five_by Z.leb UserResource.quota_used
    (filter (λ r, Resource.type_ (UserResource.resource r) = resource_type)
            (user_resources w))
    (QuotaUsageStatus.top_five_rows w resource_type).
Proof.
  assert (∀ x y, (x <=? y)%Z = true ∨ (y <=? x)%Z = true) as Htotal
    by (intros x y; rewrite !Z.leb_le; lia).
  assert (∀ x y z, (x <=? y)%Z = true → (y <=? z)%Z = true → (x <=? z)%Z = true)
    as Htrans by (intros x y z; rewrite !Z.leb_le; lia).
  unfold QuotaUsageStatus.top_five_rows, Sql.limit.
  eexists. split; [|split; [|reflexivity]].
  - etrans; [by apply order_by_desc_spec|].
    unfold QuotaUsageStatus.joined_with_resource.
    rewrite (sql_filter_spec _
               (λ r, Resource.type_ (UserResource.resource r) = resource_type)); [done|].
    intros r. rewrite sql_eq_holds. split; congruence.
  - by apply order_by_desc_spec.
Qed.




(** ** The constructor arguments *)

(** C5. For each of the nine providers, over the same world, [get_status]
    of an instance does not depend on the [from_] and [until] it was
    constructed with; for each provider other than [StorageStatus] it does
    not depend on [user] either; and for [StorageStatus], two users with
    the same path ([_get_path]) give the same result. *)
Theorem get_status_ignores_constructor_arguments {K} `{!Sql.Numeric K}
    (cfg : Config) (ext : Imports) (w : World) (cls : Dispatch.status_class)
    (from1 until1 from2 until2 : option Py.datetime) (user1 user2 : option User.t) :
  Dispatch.get_status (K:=K) cfg ext (Dispatch.instantiate cls cfg w from1 until1 user1) w
  = Dispatch.get_status (K:=K) cfg ext (Dispatch.instantiate cls cfg w from2 until2 user1) w
  ∧ (cls ≠ Dispatch.ClsStorage →
     Dispatch.get_status (K:=K) cfg ext (Dispatch.instantiate cls cfg w from1 until1 user1) w
     = Dispatch.get_status (K:=K) cfg ext (Dispatch.instantiate cls cfg w from2 until2 user2) w)
  ∧ (StorageStatus._get_path cfg (StorageStatus.__init__ cfg w from1 until1 user1)
     = StorageStatus._get_path cfg (StorageStatus.__init__ cfg w from2 until2 user2) →
     StorageStatus.get_status cfg (StorageStatus.__init__ cfg w from1 until1 user1) w
     = StorageStatus.get_status cfg (StorageStatus.__init__ cfg w from2 until2 user2) w).
Proof.
  split; [by destruct cls|]. split.
  - by destruct cls.
  - intros Hpath.
    unfold StorageStatus.get_status, StorageStatus.users_directory_size.
    by rewrite Hpath.
Qed.

(** Both hypotheses of C5's theorem at the pods provider and at two users
    of the same path. *)
Lemma get_status_ignores_constructor_arguments_pods :
  Dispatch.get_status (K:=Q) Examples.cfg_two_namespaces Examples.ext_plain
    (Dispatch.instantiate Dispatch.ClsPods Examples.cfg_two_namespaces Examples.df_world
       None None (Some Examples.alice))
    Examples.df_world
  = Dispatch.get_status (K:=Q) Examples.cfg_two_namespaces Examples.ext_plain
      (Dispatch.instantiate Dispatch.ClsPods Examples.cfg_two_namespaces Examples.df_world
         (Some 0%Z) (Some 1%Z) None)
      Examples.df_world
  ∧ StorageStatus.get_status Examples.cfg_two_namespaces
      (StorageStatus.__init__ Examples.cfg_two_namespaces Examples.df_world
         None None (Some Examples.alice))
      Examples.df_world
    = StorageStatus.get_status Examples.cfg_two_namespaces
        (StorageStatus.__init__ Examples.cfg_two_namespaces Examples.df_world
           (Some 0%Z) (Some 1%Z) (Some Examples.alice))
        Examples.df_world.
Proof.
  pose proof (get_status_ignores_constructor_arguments (K:=Q)
                Examples.cfg_two_namespaces Examples.ext_plain Examples.df_world
                Dispatch.ClsPods None None (Some 0%Z) (Some 1%Z)
                (Some Examples.alice) None) as (_ & Hpods & _).
  pose proof (get_status_ignores_constructor_arguments (K:=Q)
                Examples.cfg_two_namespaces Examples.ext_plain Examples.df_world
                Dispatch.ClsStorage None None (Some 0%Z) (Some 1%Z)
                (Some Examples.alice) (Some Examples.alice)) as (_ & _ & Hstorage).
  split.
  - apply Hpods. discriminate.
  - apply Hstorage. reflexivity.
Defined.

(** The storage provider is the exception: the user changes its answer. *)
Lemma storage_get_status_depends_on_user :
  StorageStatus.users_directory_size Examples.cfg_two_namespaces
    (StorageStatus.__init__ Examples.cfg_two_namespaces Examples.df_world None None None)
    Examples.df_world
  = Py.ret "12G"
  ∧ StorageStatus.users_directory_size Examples.cfg_two_namespaces
      (StorageStatus.__init__ Examples.cfg_two_namespaces Examples.df_world
         None None (Some Examples.alice))
      Examples.df_world
    = Py.ret "3G".
Proof. split; reflexivity. Qed.

(* ===================================================================== *)
(** * Further properties of the providers                                 *)
(* ===================================================================== *)

(** ** Shell commands *)

Lemma rstrip_app (chars s t : string) :
  Py.rstrip chars (s +:+ t)
  = match Py.rstrip chars t with
    | EmptyString => Py.rstrip chars s
    | String _ _ => s +:+ Py.rstrip chars t
    end.
Proof.
  induction s as [|c s IH].
  - rewrite !string_app_nil_l. by destruct (Py.rstrip chars t).
  - rewrite string_app_cons. cbn [Py.rstrip]. rewrite IH.
    destruct (Py.rstrip chars t) as [|d r] eqn:Ht; [done|].
    rewrite string_app_cons.
    pose proof (string_app_nonempty_r s (String d r)) as Hne.
    destruct (s +:+ String d r); [by destruct Hne|done].
Qed.

Lemma rstrip_decompose (chars s : string) :
  ∃ tail, s = Py.rstrip chars s +:+ tail
          ∧ Spec.all_chars (λ c, Py.char_in c chars) tail = true.
Proof.
  induction s as [|c s (tail & Heq & Htail)]; [by exists ""|].
  cbn [Py.rstrip]. destruct (Py.rstrip chars s) as [|d r] eqn:Hr.
  - rewrite string_app_nil_l in Heq. subst tail.
    destruct (Py.char_in c chars) eqn:Hc.
    + exists (String c s). split; [done|]. cbn [Spec.all_chars]. by rewrite Hc.
    + by exists s.
  - exists tail. split; [|done]. by rewrite string_app_cons, <- Heq.
Qed.

Lemma string_snoc_inv (before s : string) (c d : ascii) :
  String d s = before +:+ String c "" →
  (s = "" ∧ before = "" ∧ d = c) ∨ (∃ before', before = String d before' ∧ s = before' +:+ String c "").
Proof.
  destruct before as [|b before].
  - rewrite string_app_nil_l. intros [= -> ->]. by left.
  - rewrite string_app_cons. intros [= -> ->]. right. by exists before.
Qed.

Lemma rstrip_end (chars s before : string) (c : ascii) :
  Py.rstrip chars s = before +:+ String c "" → Py.char_in c chars = false.
Proof.
  revert before. induction s as [|d s IH]; intros before.
  - cbn [Py.rstrip]. intros Heq. symmetry in Heq.
    by apply string_app_nonempty_r in Heq.
  - cbn [Py.rstrip]. destruct (Py.rstrip chars s) as [|e r] eqn:Hr.
    + destruct (Py.char_in d chars) eqn:Hd.
      * intros Heq. symmetry in Heq. by apply string_app_nonempty_r in Heq.
      * intros [(_ & _ & ->)|(before' & _ & Heq)]%string_snoc_inv; [done|].
        symmetry in Heq. by apply string_app_nonempty_r in Heq.
    + intros [([=] & _)|(before' & _ & Heq)]%string_snoc_inv.
      by apply (IH before').
Qed.

(** [execute_cmd] returns the command's output without the carriage returns
    and line feeds that end it: what it cuts off consists of those two
    characters only, and what it returns does not end in either.  A failure
    of the command is raised unchanged. *)
Theorem execute_cmd_strips_trailing_newlines (self : REANAStatus.t) (w : World)
    (cmd : list string) :
  (∀ output, check_output w cmd = Py.Ok output →
     ∃ text tail,
       REANAStatus.execute_cmd self w cmd = Py.ret text
       ∧ output = text +:+ tail
       ∧ Spec.all_chars (λ c, Py.char_in c (String Py.CR (String Py.LF ""))) tail = true
       ∧ ∀ before c, text = before +:+ String c "" → c ≠ Py.CR ∧ c ≠ Py.LF)
  ∧ (∀ e, check_output w cmd = Py.Raise e →
       REANAStatus.execute_cmd self w cmd = Py.raise e).
Proof.
  split.
  - intros output Hout. unfold REANAStatus.execute_cmd. rewrite Hout, io_bind_ok.
    destruct (rstrip_decompose (String Py.CR (String Py.LF "")) output) as (tail & Heq & Htail).
    eexists _, tail. split; [reflexivity|]. split; [exact Heq|]. split; [exact Htail|].
    intros before c Hend. apply rstrip_end in Hend.
    split; intros ->; discriminate Hend.
  - intros e Hout. unfold REANAStatus.execute_cmd. by rewrite Hout.
Qed.

Lemma execute_cmd_df_example :
  ∃ text tail,
    REANAStatus.execute_cmd
      (REANAStatus.__init__ Examples.cfg_two_namespaces Examples.df_world None None None)
      Examples.df_world ["df"; "-h"; "/data"] = Py.ret text
    ∧ Examples.df_output = text +:+ tail.
Proof.
  destruct (proj1 (execute_cmd_strips_trailing_newlines
                     (REANAStatus.__init__ Examples.cfg_two_namespaces Examples.df_world
                        None None None)
                     Examples.df_world ["df"; "-h"; "/data"]) Examples.df_output eq_refl)
    as (text & tail & Htext & Hout & _).
  exists text, tail. split; [exact Htext|exact Hout].
Defined.

(** ** Storage, further *)

Lemma rstrip_word_prefix (chars size rest : string) :
  Spec.is_word size →
  (∀ c, Py.char_in c chars = true → Py.isspace c = true) →
  Py.starts_with_nonspace rest = false →
  ∃ rest', Py.rstrip chars (size +:+ rest) = size +:+ rest'
           ∧ Py.starts_with_nonspace rest' = false.
Proof.
  intros Hword Hchars Hrest. rewrite rstrip_app.
  destruct (Py.rstrip chars rest) as [|d r] eqn:Hr.
  - exists "". split; [|done]. rewrite string_app_nil_r.
    rewrite <- (string_app_nil_l size). apply rstrip_kept_word; [by destruct Hword|].
    destruct Hword as [_ Hall]. revert Hall. apply all_chars_impl.
    intros c Hc. apply negb_true_iff in Hc. apply negb_true_iff.
    destruct (Py.char_in c chars) eqn:Hin; [|done].
    apply Hchars in Hin. congruence.
  - exists (String d r). split; [done|].
    destruct rest as [|c rest]; [done|]. cbn [Py.rstrip] in Hr.
    destruct (Py.rstrip chars rest); [destruct (Py.char_in c chars)|];
      try discriminate Hr; injection Hr as <- _; exact Hrest.
Qed.

(** [users_directory_size] returns the first word of what [du] prints,
    whatever follows it (the path may hold blanks). *)
Theorem users_directory_size_first_word (cfg : Config) (self : REANAStatus.t)
    (w : World) (size rest : string) :
  Spec.is_word size →
  Py.starts_with_nonspace rest = false →
  check_output w ["du"; "-h"; "--max-depth=0"; StorageStatus._get_path cfg self]
  = Py.Ok (size +:+ rest) →
  StorageStatus.users_directory_size cfg self w = Py.ret size.
Proof.
  intros Hword Hrest Hout.
  unfold StorageStatus.users_directory_size, REANAStatus.execute_cmd.
  change ("--max-depth=" +:+ pretty 0%Z) with "--max-depth=0".
  rewrite Hout, io_bind_ok, io_bind_ret.
  destruct (rstrip_word_prefix (String Py.CR (String Py.LF "")) size rest Hword
              newline_chars_isspace Hrest) as (rest' & -> & Hrest').
  rewrite split_word_prefix by done.
  by rewrite (list_getitem_Some _ 0 size), io_bind_ok.
Qed.

Lemma users_directory_size_alice :
  StorageStatus.users_directory_size Examples.cfg_two_namespaces
    (StorageStatus.__init__ Examples.cfg_two_namespaces Examples.df_world
       None None (Some Examples.alice))
    Examples.df_world
  = Py.ret "3G".
Proof.
  apply (users_directory_size_first_word _ _ _ "3G"
           (String "009" "/var/reana/users/alice" +:+ Examples.nl)).
  - by split.
  - reflexivity.
  - reflexivity.
Defined.

Lemma split_blank (s : string) :
  Spec.all_chars Py.isspace s = true → Py.split s = [].
Proof.
  intros Hs. rewrite <- (string_app_nil_r s). by rewrite split_whitespace_prefix.
Qed.

(** When [du] prints nothing but whitespace (or nothing at all),
    [users_directory_size] raises [IndexError]. *)
Theorem users_directory_size_blank_output (cfg : Config) (self : REANAStatus.t)
    (w : World) (output : string) :
  Spec.all_chars Py.isspace output = true →
  check_output w ["du"; "-h"; "--max-depth=0"; StorageStatus._get_path cfg self]
  = Py.Ok output →
  StorageStatus.users_directory_size cfg self w = Py.raise Py.IndexError.
Proof.
  intros Hblank Hout.
  unfold StorageStatus.users_directory_size, REANAStatus.execute_cmd.
  change ("--max-depth=" +:+ pretty 0%Z) with "--max-depth=0".
  rewrite Hout, io_bind_ok, io_bind_ret.
  destruct (rstrip_decompose (String Py.CR (String Py.LF "")) output) as (tail & Heq & _).
  rewrite Heq, all_chars_app in Hblank. apply andb_true_iff in Hblank as [Hstripped _].
  by rewrite (split_blank _ Hstripped).
Qed.

Lemma users_directory_size_empty_output :
  StorageStatus.users_directory_size Examples.cfg_two_namespaces
    (StorageStatus.__init__ Examples.cfg_two_namespaces Examples.quiet_world None None None)
    (Examples.shell_world (λ _, Py.Ok ""))
  = Py.raise Py.IndexError.
Proof.
  apply (users_directory_size_blank_output _ _ _ ""); reflexivity.
Defined.

Lemma rstrip_line (first : string) (rest : list (string * string)) (trailing : string) :
  Spec.well_formed first rest →
  Spec.all_chars (λ c, Py.char_in c (String Py.CR (String Py.LF ""))) trailing = true →
  Py.rstrip (String Py.CR (String Py.LF "")) (Spec.line first rest +:+ trailing)
  = Spec.line first rest
  ∧ Spec.line first rest ≠ "".
Proof.
  intros Hwf Htrailing.
  destruct (line_ends_with_word first rest Hwf) as (before & word & Heq & Hword).
  rewrite rstrip_stripped_suffix by done. rewrite Heq. split.
  - apply rstrip_kept_word; [by destruct Hword|].
    destruct Hword as [_ Hall]. revert Hall. apply all_chars_impl.
    intros c Hc. apply negb_true_iff in Hc. apply negb_true_iff.
    destruct (Py.char_in c _) eqn:Hin; [|done].
    apply newline_chars_isspace in Hin. congruence.
  - apply string_app_nonempty_r. by destruct Hword.
Qed.

(** The first two lines come out as they are, whatever is printed after
    them. *)
Lemma first_two_lines_read (h0 : string) hrest (v0 : string) vrest (more : string) :
  Spec.well_formed h0 hrest → Spec.well_formed v0 vrest →
  ∃ further,
    Py.splitlines
      (Py.rstrip (String Py.CR (String Py.LF ""))
         (Spec.line h0 hrest +:+ String Py.LF (Spec.line v0 vrest +:+ String Py.LF more)))
    = Spec.line h0 hrest :: Spec.line v0 vrest :: further.
Proof.
  intros Hh Hv.
  destruct (rstrip_line v0 vrest "" Hv eq_refl) as [Hkeep Hne].
  rewrite string_app_nil_r in Hkeep.
  assert (∀ tail, Py.rstrip (String Py.CR (String Py.LF ""))
                    (Spec.line h0 hrest +:+ String Py.LF (Spec.line v0 vrest +:+ tail))
                  = Spec.line h0 hrest
                    +:+ String Py.LF (Py.rstrip (String Py.CR (String Py.LF ""))
                                        (Spec.line v0 vrest +:+ tail))) as Hinner.
  { intros tail. rewrite rstrip_app. cbn [Py.rstrip].
    assert (Py.rstrip (String Py.CR (String Py.LF "")) (Spec.line v0 vrest +:+ tail) ≠ "")
      as Hne'.
    { rewrite rstrip_app. destruct (Py.rstrip _ tail).
      - by rewrite Hkeep.
      - by apply string_app_nonempty_r. }
    by destruct (Py.rstrip _ (Spec.line v0 vrest +:+ tail)). }
  rewrite Hinner, splitlines_first_line by by apply line_no_linebreak.
  rewrite rstrip_app. cbn [Py.rstrip].
  destruct (Py.rstrip _ more) as [|d r] eqn:Hmore.
  - change (Py.char_in Py.LF (String Py.CR (String Py.LF ""))) with true. cbn match.
    rewrite Hkeep. exists [].
    by rewrite splitlines_one_line by (done || by apply line_no_linebreak).
  - exists (Py.splitlines (String d r)).
    by rewrite splitlines_first_line by by apply line_no_linebreak.
Qed.

(** What [shared_volume_health] does once the first two lines are known. *)
Lemma shared_volume_health_lines (cfg : Config) (self : REANAStatus.t) (w : World)
    (text hline vline : string) (further : list string) :
  check_output w ["df"; "-h"; SHARED_VOLUME_PATH cfg] = Py.Ok text →
  Py.splitlines (Py.rstrip (String Py.CR (String Py.LF "")) text)
  = hline :: vline :: further →
  StorageStatus.shared_volume_health cfg self w
  = (used_index ← Py.lift (Py.index "Used" (Py.split hline));
     available_index ← Py.lift (Py.index "Avail" (Py.split hline));
     use_percentage_index ← Py.lift (Py.index "Use%" (Py.split hline));
     used ← Py.lift (Py.list_getitem (Py.split vline) used_index);
     available ← Py.lift (Py.list_getitem (Py.split vline) available_index);
     use_percentage ← Py.lift (Py.list_getitem (Py.split vline) use_percentage_index);
     mret (used +:+ "/" +:+ available +:+ " (" +:+ use_percentage +:+ ")")).
Proof.
  intros Hout Hlines.
  unfold StorageStatus.shared_volume_health, REANAStatus.execute_cmd.
  rewrite Hout, io_bind_ok, io_bind_ret, Hlines.
  rewrite (list_getitem_Some _ 0 hline), io_bind_ok by done.
  by rewrite (list_getitem_Some _ 1 vline), io_bind_ok by done.
Qed.

(** [shared_volume_health] reads the header and the first row only: what
    [df] prints after them (further file systems, anything) does not change
    the answer. *)
Theorem shared_volume_health_first_row_only (cfg : Config) (self : REANAStatus.t)
    (w : World) (h0 : string) (hrest : list (string * string))
    (v0 : string) (vrest : list (string * string)) (more : string)
    (i j k : nat) (used avail pct : string) :
  Spec.well_formed h0 hrest → Spec.well_formed v0 vrest →
  check_output w ["df"; "-h"; SHARED_VOLUME_PATH cfg]
  = Py.Ok (Spec.line h0 hrest +:+ String Py.LF (Spec.line v0 vrest +:+ String Py.LF more)) →
  Spec.column (Spec.entries h0 hrest) "Used" i →
  Spec.column (Spec.entries h0 hrest) "Avail" j →
  Spec.column (Spec.entries h0 hrest) "Use%" k →
  Spec.entries v0 vrest !! i = Some used →
  Spec.entries v0 vrest !! j = Some avail →
  Spec.entries v0 vrest !! k = Some pct →
  StorageStatus.shared_volume_health cfg self w
  = Py.ret (used +:+ "/" +:+ avail +:+ " (" +:+ pct +:+ ")").
Proof.
  intros Hh Hv Hout Hi Hj Hk Hused Havail Hpct.
  destruct (first_two_lines_read h0 hrest v0 vrest more Hh Hv) as [further Hlines].
  rewrite (shared_volume_health_lines _ _ _ _ _ _ _ Hout Hlines).
  rewrite !split_line by done.
  rewrite (index_first_occurrence _ _ _ Hi), io_bind_ok.
  rewrite (index_first_occurrence _ _ _ Hj), io_bind_ok.
  rewrite (index_first_occurrence _ _ _ Hk), io_bind_ok.
  rewrite (list_getitem_Some _ _ _ Hused), io_bind_ok.
  rewrite (list_getitem_Some _ _ _ Havail), io_bind_ok.
  by rewrite (list_getitem_Some _ _ _ Hpct), io_bind_ok.
Qed.

Lemma shared_volume_health_two_file_systems :
  StorageStatus.shared_volume_health Examples.cfg_two_namespaces
    (StorageStatus.__init__ Examples.cfg_two_namespaces Examples.quiet_world None None None)
    (Examples.shell_world (λ _, Py.Ok Examples.df_two_rows))
  = Py.ret "40G/60G (40%)".
Proof.
  apply (shared_volume_health_first_row_only _ _ _
           "Filesystem"
           [("      ", "Size"); ("  ", "Used"); (" ", "Avail"); (" ", "Use%");
            (" ", "Mounted"); (" ", "on")]
           "/dev/sda1"
           [("       ", "100G"); ("   ", "40G"); ("   ", "60G"); ("  ", "40%"); (" ", "/data")]
           ("tmpfs           7.8G     0  7.8G   0% /dev/shm" +:+ Examples.nl)
           2 3 4 "40G" "60G" "40%").
  - solve_well_formed.
  - solve_well_formed.
  - reflexivity.
  - solve_column.
  - solve_column.
  - solve_column.
  - reflexivity.
  - reflexivity.
  - reflexivity.
Defined.

(** When [df] prints a single line (the header and no row),
    [shared_volume_health] raises [IndexError]. *)
Theorem shared_volume_health_header_only (cfg : Config) (self : REANAStatus.t)
    (w : World) (h0 : string) (hrest : list (string * string)) (trailing : string) :
  Spec.well_formed h0 hrest →
  Spec.all_chars (λ c, Py.char_in c (String Py.CR (String Py.LF ""))) trailing = true →
  check_output w ["df"; "-h"; SHARED_VOLUME_PATH cfg]
  = Py.Ok (Spec.line h0 hrest +:+ trailing) →
  StorageStatus.shared_volume_health cfg self w = Py.raise Py.IndexError.
Proof.
  intros Hh Htrailing Hout.
  destruct (rstrip_line h0 hrest trailing Hh Htrailing) as [Hkeep Hne].
  unfold StorageStatus.shared_volume_health, REANAStatus.execute_cmd.
  rewrite Hout, io_bind_ok, io_bind_ret, Hkeep.
  rewrite splitlines_one_line by (done || by apply line_no_linebreak).
  by rewrite (list_getitem_Some _ 0 (Spec.line h0 hrest)), io_bind_ok.
Qed.

Lemma shared_volume_health_header_only_example :
  StorageStatus.shared_volume_health Examples.cfg_two_namespaces
    (StorageStatus.__init__ Examples.cfg_two_namespaces Examples.quiet_world None None None)
    (Examples.shell_world (λ _, Py.Ok ("Filesystem Size Used Avail Use% Mounted" +:+ Examples.nl)))
  = Py.raise Py.IndexError.
Proof.
  apply (shared_volume_health_header_only _ _ _
           "Filesystem"
           [(" ", "Size"); (" ", "Used"); (" ", "Avail"); (" ", "Use%"); (" ", "Mounted")]
           Examples.nl).
  - solve_well_formed.
  - reflexivity.
  - reflexivity.
Defined.

Lemma index_absent (name : string) (xs : list string) :
  name ∉ xs → Py.index name xs = Py.Raise Py.ValueError.
Proof.
  induction xs as [|x xs IH]; [done|].
  intros [Hne Hxs]%not_elem_of_cons. cbn [Py.index].
  destruct (String.eqb_spec x name) as [->|_]; [done|]. by rewrite IH.
Qed.

Lemma index_present (name : string) (xs : list string) :
  name ∈ xs → ∃ i, Py.index name xs = Py.Ok i ∧ xs !! i = Some name.
Proof.
  induction xs as [|x xs IH]; [by intros ?%elem_of_nil|].
  intros Hin. cbn [Py.index].
  destruct (String.eqb_spec x name) as [->|Hne]; [by exists 0|].
  apply elem_of_cons in Hin as [->|Hin]; [done|].
  destruct (IH Hin) as (i & -> & Hi). by exists (S i).
Qed.

(** When the header line lacks one of the titles [Used], [Avail] and
    [Use%], [shared_volume_health] raises [ValueError], whatever the row
    holds. *)
Theorem shared_volume_health_missing_column (cfg : Config) (self : REANAStatus.t)
    (w : World) (h0 : string) (hrest : list (string * string))
    (v0 : string) (vrest : list (string * string)) (more : string) :
  Spec.well_formed h0 hrest → Spec.well_formed v0 vrest →
  check_output w ["df"; "-h"; SHARED_VOLUME_PATH cfg]
  = Py.Ok (Spec.line h0 hrest +:+ String Py.LF (Spec.line v0 vrest +:+ String Py.LF more)) →
  ¬ ("Used" ∈ Spec.entries h0 hrest
     ∧ "Avail" ∈ Spec.entries h0 hrest
     ∧ "Use%" ∈ Spec.entries h0 hrest) →
  StorageStatus.shared_volume_health cfg self w = Py.raise Py.ValueError.
Proof.
  intros Hh Hv Hout Hmissing.
  destruct (first_two_lines_read h0 hrest v0 vrest more Hh Hv) as [further Hlines].
  rewrite (shared_volume_health_lines _ _ _ _ _ _ _ Hout Hlines).
  rewrite !split_line by done.
  destruct (decide ("Used" ∈ Spec.entries h0 hrest)) as [Hused|Hused];
    [|by rewrite (index_absent _ _ Hused)].
  destruct (index_present _ _ Hused) as (i & -> & _). rewrite io_bind_ok.
  destruct (decide ("Avail" ∈ Spec.entries h0 hrest)) as [Havail|Havail];
    [|by rewrite (index_absent _ _ Havail)].
  destruct (index_present _ _ Havail) as (j & -> & _). rewrite io_bind_ok.
  destruct (decide ("Use%" ∈ Spec.entries h0 hrest)) as [Hpct|Hpct];
    [|by rewrite (index_absent _ _ Hpct)].
  by destruct Hmissing.
Qed.

Lemma shared_volume_health_other_locale :
  StorageStatus.shared_volume_health Examples.cfg_two_namespaces
    (StorageStatus.__init__ Examples.cfg_two_namespaces Examples.quiet_world None None None)
    (Examples.shell_world
       (λ _, Py.Ok ("Filesystem Size Used Available Capacity Mounted" +:+ Examples.nl +:+
                    "/dev/sda1 100G 40G 60G 40% /data" +:+ Examples.nl +:+ "")))
  = Py.raise Py.ValueError.
Proof.
  apply (shared_volume_health_missing_column _ _ _
           "Filesystem"
           [(" ", "Size"); (" ", "Used"); (" ", "Available"); (" ", "Capacity"); (" ", "Mounted")]
           "/dev/sda1"
           [(" ", "100G"); (" ", "40G"); (" ", "60G"); (" ", "40%"); (" ", "/data")]
           "").
  - solve_well_formed.
  - solve_well_formed.
  - reflexivity.
  - intros (_ & Havail & _). revert Havail. by apply (bool_decide_unpack _).
Defined.

(** When the row has no entry under one of the three columns (it is
    shorter than the header), [shared_volume_health] raises [IndexError]. *)
Theorem shared_volume_health_short_row (cfg : Config) (self : REANAStatus.t)
    (w : World) (h0 : string) (hrest : list (string * string))
    (v0 : string) (vrest : list (string * string)) (more : string) (i j k : nat) :
  Spec.well_formed h0 hrest → Spec.well_formed v0 vrest →
  check_output w ["df"; "-h"; SHARED_VOLUME_PATH cfg]
  = Py.Ok (Spec.line h0 hrest +:+ String Py.LF (Spec.line v0 vrest +:+ String Py.LF more)) →
  Spec.column (Spec.entries h0 hrest) "Used" i →
  Spec.column (Spec.entries h0 hrest) "Avail" j →
  Spec.column (Spec.entries h0 hrest) "Use%" k →
  (length (Spec.entries v0 vrest) ≤ i `max` (j `max` k))%nat →
  StorageStatus.shared_volume_health cfg self w = Py.raise Py.IndexError.
Proof.
  intros Hh Hv Hout Hi Hj Hk Hshort.
  destruct (first_two_lines_read h0 hrest v0 vrest more Hh Hv) as [further Hlines].
  rewrite (shared_volume_health_lines _ _ _ _ _ _ _ Hout Hlines).
  rewrite !split_line by done.
  rewrite (index_first_occurrence _ _ _ Hi), io_bind_ok.
  rewrite (index_first_occurrence _ _ _ Hj), io_bind_ok.
  rewrite (index_first_occurrence _ _ _ Hk), io_bind_ok.
  unfold Py.list_getitem.
  destruct (Spec.entries v0 vrest !! i) as [used|] eqn:Hused; [|done].
  rewrite io_bind_ok.
  destruct (Spec.entries v0 vrest !! j) as [avail|] eqn:Havail; [|done].
  rewrite io_bind_ok.
  destruct (Spec.entries v0 vrest !! k) as [pct|] eqn:Hpct; [|done].
  apply lookup_lt_Some in Hused, Havail, Hpct. lia.
Qed.

Lemma shared_volume_health_short_row_example :
  StorageStatus.shared_volume_health Examples.cfg_two_namespaces
    (StorageStatus.__init__ Examples.cfg_two_namespaces Examples.quiet_world None None None)
    (Examples.shell_world
       (λ _, Py.Ok ("Filesystem Size Used Avail Use% Mounted" +:+ Examples.nl +:+
                    "/dev/sda1 100G 40G" +:+ Examples.nl +:+ "")))
  = Py.raise Py.IndexError.
Proof.
  apply (shared_volume_health_short_row _ _ _
           "Filesystem"
           [(" ", "Size"); (" ", "Used"); (" ", "Avail"); (" ", "Use%"); (" ", "Mounted")]
           "/dev/sda1" [(" ", "100G"); (" ", "40G")] "" 2 3 4).
  - solve_well_formed.
  - solve_well_formed.
  - reflexivity.
  - solve_column.
  - solve_column.
  - solve_column.
  - cbn. lia.
Defined.

(** ** Failing commands *)

(** A failing command aborts the whole summary of the shell providers:
    [SystemStatus.get_status] raises what [uptime] raised;
    [StorageStatus.get_status] raises what [du] raised whatever [df] would
    print, and what [df] raised when [du] went through.  No partial
    mapping is returned. *)
Theorem shell_providers_fail_fast (cfg : Config) (self : REANAStatus.t) (w : World)
    (e : Py.exn) :
  (check_output w ["uptime"; "-p"] = Py.Raise e →
   SystemStatus.get_status self w = Py.raise e)
  ∧ (check_output w ["du"; "-h"; "--max-depth=0"; StorageStatus._get_path cfg self]
     = Py.Raise e →
     StorageStatus.get_status cfg self w = Py.raise e)
  ∧ (∀ size,
       StorageStatus.users_directory_size cfg self w = Py.ret size →
       check_output w ["df"; "-h"; SHARED_VOLUME_PATH cfg] = Py.Raise e →
       StorageStatus.get_status cfg self w = Py.raise e).
Proof.
  split; [|split].
  - intros Hout. unfold SystemStatus.get_status, SystemStatus.uptime, REANAStatus.execute_cmd.
    by rewrite Hout.
  - intros Hout.
    unfold StorageStatus.get_status, StorageStatus.users_directory_size,
      REANAStatus.execute_cmd.
    change ("--max-depth=" +:+ pretty 0%Z) with "--max-depth=0".
    by rewrite Hout.
  - intros size Hsize Hout. unfold StorageStatus.get_status.
    rewrite Hsize, io_bind_ret.
    unfold StorageStatus.shared_volume_health, REANAStatus.execute_cmd.
    by rewrite Hout.
Qed.

Lemma shell_providers_fail_fast_no_commands :
  SystemStatus.get_status
    (SystemStatus.__init__ Examples.cfg_two_namespaces Examples.quiet_world None None None)
    Examples.quiet_world
  = Py.raise Py.FileNotFoundError
  ∧ StorageStatus.get_status Examples.cfg_two_namespaces
      (StorageStatus.__init__ Examples.cfg_two_namespaces Examples.quiet_world None None None)
      Examples.quiet_world
    = Py.raise Py.FileNotFoundError.
Proof.
  pose proof (shell_providers_fail_fast Examples.cfg_two_namespaces
                (SystemStatus.__init__ Examples.cfg_two_namespaces Examples.quiet_world
                   None None None)
                Examples.quiet_world Py.FileNotFoundError) as (Hsystem & Hstorage & _).
  split; [apply Hsystem|apply Hstorage]; reflexivity.
Defined.

(** ** Workflows, further *)

Lemma sql_filter_length (R : Type) (criterion : R → Sql.tv) (rows : list R) :
  (length (Sql.filter criterion rows) ≤ length rows)%nat.
Proof.
  unfold Sql.filter. induction rows as [|r rows IH]; [done|].
  cbn [List.filter]. destruct (Sql.holds (criterion r)); cbn [length]; lia.
Qed.

Lemma sql_filter_mono (R : Type) (c1 c2 : R → Sql.tv) (rows : list R) :
  (∀ r, Sql.holds (c1 r) = true → Sql.holds (c2 r) = true) →
  (length (Sql.filter c1 rows) ≤ length (Sql.filter c2 rows))%nat.
Proof.
  intros Himpl. unfold Sql.filter. induction rows as [|r rows IH]; [done|].
  cbn [List.filter]. destruct (Sql.holds (c1 r)) eqn:H1.
  - rewrite (Himpl r H1). cbn [length]. lia.
  - destruct (Sql.holds (c2 r)); cbn [length]; lia.
Qed.

Lemma sql_filter_comm (R : Type) (c1 c2 : R → Sql.tv) (rows : list R) :
  Sql.filter c1 (Sql.filter c2 rows) = Sql.filter c2 (Sql.filter c1 rows).
Proof.
  unfold Sql.filter. induction rows as [|r rows IH]; [done|].
  cbn [List.filter].
  destruct (Sql.holds (c2 r)) eqn:H2; destruct (Sql.holds (c1 r)) eqn:H1;
    cbn [List.filter]; rewrite ?H1, ?H2, IH; done.
Qed.

(** A stuck workflow is a running (pending) workflow: the stuck counters of
    the summary never exceed the number of workflows in that status, and
    the three per-status counters together never exceed the number of
    rows. *)
Theorem workflows_counters_bounded (self : REANAStatus.t) (w : World) :
  (WorkflowsStatus.stuck_in_running_workflows self w
   ≤ WorkflowsStatus.get_workflows_by_status self w RunStatus.running)%nat
  ∧ (WorkflowsStatus.stuck_in_pending_workflows self w
     ≤ WorkflowsStatus.get_workflows_by_status self w RunStatus.pending)%nat
  ∧ (WorkflowsStatus.get_workflows_by_status self w RunStatus.running
     + WorkflowsStatus.get_workflows_by_status self w RunStatus.finished
     + WorkflowsStatus.get_workflows_by_status self w RunStatus.queued
     ≤ length (workflows w))%nat
  ∧ (WorkflowsStatus.restarted_workflows self w ≤ length (workflows w))%nat
  ∧ (WorkflowsStatus.git_workflows self w ≤ length (workflows w))%nat.
Proof.
  split; [|split; [|split; [|split]]].
  - unfold WorkflowsStatus.stuck_in_running_workflows,
      WorkflowsStatus.get_workflows_by_status, Sql.count.
    etrans; [apply sql_filter_length|]. apply sql_filter_length.
  - unfold WorkflowsStatus.stuck_in_pending_workflows,
      WorkflowsStatus.get_workflows_by_status, Sql.count.
    apply sql_filter_length.
  - unfold WorkflowsStatus.get_workflows_by_status, Sql.count, Sql.filter.
    induction (workflows w) as [|r rows IH]; [done|].
    cbn [List.filter]. destruct (Workflow.status r) as [[]|]; cbn [Sql.eq Sql.holds];
      repeat case_bool_decide; try discriminate; cbn [length]; lia.
  - apply sql_filter_length.
  - apply sql_filter_length.
Qed.

Lemma sql_le_mono (time : option Z) (bound1 bound2 : Z) :
  (bound1 ≤ bound2)%Z →
  Sql.holds (Sql.le time (Some bound1)) = true →
  Sql.holds (Sql.le time (Some bound2)) = true.
Proof.
  intros Hle. rewrite !sql_le_holds. destruct time as [t|]; simpl; [lia|done].
Qed.

(** Over unchanged rows the stuck counters only grow with the clock: a
    workflow counted as stuck at one time is counted at every later time. *)
Theorem stuck_counters_grow_with_time (self1 self2 : REANAStatus.t) (w1 w2 : World) :
  workflows w1 = workflows w2 →
  (now w1 ≤ now w2)%Z →
  (WorkflowsStatus.stuck_in_running_workflows self1 w1
   ≤ WorkflowsStatus.stuck_in_running_workflows self2 w2)%nat
  ∧ (WorkflowsStatus.stuck_in_pending_workflows self1 w1
     ≤ WorkflowsStatus.stuck_in_pending_workflows self2 w2)%nat.
Proof.
  intros Hrows Hnow. split.
  - unfold WorkflowsStatus.stuck_in_running_workflows, Sql.count. rewrite Hrows.
    etrans.
    + apply (sql_filter_mono _ _
               (λ r, Sql.le (Workflow.updated r) (Some (now w2 - Py.timedelta 0 12 0)%Z))).
      intros r. apply sql_le_mono. lia.
    + rewrite !(sql_filter_comm _
                  (λ r, Sql.le (Workflow.updated r) (Some (now w2 - Py.timedelta 0 12 0)%Z))).
      apply sql_filter_mono. intros r. apply sql_le_mono. lia.
  - unfold WorkflowsStatus.stuck_in_pending_workflows, Sql.count. rewrite Hrows.
    apply sql_filter_mono. intros r. apply sql_le_mono. lia.
Qed.

(** A running and a pending workflow last touched at time 0: neither is
    stuck at time 0, both are a day later. *)
Lemma stuck_counters_grow_with_time_example :
  WorkflowsStatus.stuck_in_running_workflows
    (WorkflowsStatus.__init__ Examples.cfg_two_namespaces Examples.quiet_world None None None)
    (Examples.workflows_world 0%Z Examples.idle_workflows) = 0
  ∧ WorkflowsStatus.stuck_in_running_workflows
      (WorkflowsStatus.__init__ Examples.cfg_two_namespaces Examples.quiet_world None None None)
      (Examples.workflows_world 86400000000%Z Examples.idle_workflows) = 1
  ∧ WorkflowsStatus.stuck_in_pending_workflows
      (WorkflowsStatus.__init__ Examples.cfg_two_namespaces Examples.quiet_world None None None)
      (Examples.workflows_world 0%Z Examples.idle_workflows) = 0
  ∧ WorkflowsStatus.stuck_in_pending_workflows
      (WorkflowsStatus.__init__ Examples.cfg_two_namespaces Examples.quiet_world None None None)
      (Examples.workflows_world 86400000000%Z Examples.idle_workflows) = 1
  ∧ (WorkflowsStatus.stuck_in_running_workflows
       (WorkflowsStatus.__init__ Examples.cfg_two_namespaces Examples.quiet_world
          None None None)
       (Examples.workflows_world 0%Z Examples.idle_workflows)
     ≤ WorkflowsStatus.stuck_in_running_workflows
         (WorkflowsStatus.__init__ Examples.cfg_two_namespaces Examples.quiet_world
            None None None)
         (Examples.workflows_world 86400000000%Z Examples.idle_workflows))%nat
  ∧ (WorkflowsStatus.stuck_in_pending_workflows
       (WorkflowsStatus.__init__ Examples.cfg_two_namespaces Examples.quiet_world
          None None None)
       (Examples.workflows_world 0%Z Examples.idle_workflows)
     ≤ WorkflowsStatus.stuck_in_pending_workflows
         (WorkflowsStatus.__init__ Examples.cfg_two_namespaces Examples.quiet_world
            None None None)
         (Examples.workflows_world 86400000000%Z Examples.idle_workflows))%nat.
Proof.
  split; [reflexivity|]. split; [reflexivity|].
  split; [reflexivity|]. split; [reflexivity|].
  refine (stuck_counters_grow_with_time _ _
            (Examples.workflows_world 0%Z Examples.idle_workflows)
            (Examples.workflows_world 86400000000%Z Examples.idle_workflows)
            eq_refl _).
  cbn. lia.
Defined.

(** [restarted_workflows] counts exactly the rows whose restart flag is
    TRUE: a row with the flag FALSE or NULL is not counted. *)
Theorem restarted_workflows_spec (self : REANAStatus.t) (w : World) :
  WorkflowsStatus.restarted_workflows self w
  = length (filter (λ r, Workflow.restart r = Some true) (workflows w)).
Proof.
  unfold WorkflowsStatus.restarted_workflows, Sql.count.
  rewrite (sql_filter_spec _ (λ r, Workflow.restart r = Some true)); [done|].
  intros r. by destruct (Workflow.restart r) as [[]|].
Qed.

(** ** Interactive sessions, further *)

Lemma active_sessions_rows (w : World) :
  Sql.filter
    (λ s, Sql.notin_ (Some (InteractiveSession.status s))
            [RunStatus.stopped; RunStatus.deleted; RunStatus.failed])
    (interactive_sessions w)
  = filter Spec.active_session (interactive_sessions w).
Proof.
  apply sql_filter_spec. intros s.
  rewrite <- (bool_decide_eq_true (Spec.active_session s)). by destruct s as [[]].
Qed.

(** Every session is either counted as active or is stopped, deleted or
    failed: the two groups add up to the table. *)
Theorem interactive_sessions_partition (self : REANAStatus.t) (w : World) :
  (InteractiveSessionsStatus.get_active self w
   + length (filter (λ s, InteractiveSession.status s
                          ∈ [RunStatus.stopped; RunStatus.deleted; RunStatus.failed])
               (interactive_sessions w))
   = length (interactive_sessions w))%nat.
Proof.
  unfold InteractiveSessionsStatus.get_active, Sql.count.
  rewrite active_sessions_rows.
  rewrite <- (Permutation_length
                (filter_app_complement Spec.active_session (interactive_sessions w))).
  rewrite length_app. f_equal. f_equal.
  apply list_filter_iff. intros s. unfold Spec.active_session.
  split; [by intros ? ?|]. apply dec_stable.
Qed.

(** ** Quota usage, further *)



Lemma format_user_data_keys (ext : Imports) (users : list UserResource.t) :
  Forall (λ d : gmap string string,
            dom d = list_to_set ["email"; "used"; "limit"; "percentage"])
         (QuotaUsageStatus.format_user_data ext users).
Proof.
  unfold QuotaUsageStatus.format_user_data. apply Forall_fmap, Forall_forall.
  intros user _. cbn [compose].
  rewrite dict_of_items_list_to_map by by apply (bool_decide_unpack _).
  by rewrite dom_list_to_map_L.
Qed.

(** The quota summary has exactly its four keys; each is bound to a list
    of at most five entries, in the order of the query's rows, each entry a
    mapping with exactly the keys email, used, limit and percentage, its
    email that of the row's user. *)
Theorem quota_get_status_shape {K} `{!Sql.Numeric K} (ext : Imports)
    (self : REANAStatus.t) (w : World) :
  dom (QuotaUsageStatus.get_status (K:=K) ext self w)
  = list_to_set [ "top_five_disk"; "top_five_cpu";
                  "top_five_disk_percentage"; "top_five_cpu_percentage" ]
  ∧ (∀ key entries,
       QuotaUsageStatus.get_status (K:=K) ext self w !! key = Some entries →
       (length entries ≤ 5)%nat
       ∧ Forall (λ d : gmap string string,
                   dom d = list_to_set ["email"; "used"; "limit"; "percentage"])
                entries)
  ∧ (∀ users,
       (λ d : gmap string string, d !! "email") <$> QuotaUsageStatus.format_user_data ext users
       = (λ user, Some (User.email (UserResource.user user))) <$> users).
Proof.
  assert (NoDup [ "top_five_disk"; "top_five_cpu";
                  "top_five_disk_percentage"; "top_five_cpu_percentage" ]) as Hnodup
    by by apply (bool_decide_unpack _).
  unfold QuotaUsageStatus.get_status.
  rewrite dict_of_items_list_to_map by exact Hnodup.
  split; [by rewrite dom_list_to_map_L|]. split.
  - intros key entries Hlookup. apply elem_of_list_to_map_2 in Hlookup.
    assert (∀ rt, (length (QuotaUsageStatus.get_top_five ext self w rt) ≤ 5)%nat) as Htop.
    { intros rt. unfold QuotaUsageStatus.get_top_five, QuotaUsageStatus.format_user_data.
      rewrite length_fmap. apply (top_five_by_le_5 _ _ _ _ (top_five_rows_spec w rt)). }
    assert (∀ rt, (length (QuotaUsageStatus.get_top_five_percentage (K:=K) ext self w rt)
                   ≤ 5)%nat) as Hpct.
    { intros rt.
      unfold QuotaUsageStatus.get_top_five_percentage, QuotaUsageStatus.format_user_data.
      rewrite length_fmap.
      apply (top_five_by_le_5 _ _ _ _ (top_five_percentage_rows_spec w rt)). }
    repeat (apply elem_of_cons in Hlookup as [Heq|Hlookup];
            [injection Heq as -> ->; split; [done|apply format_user_data_keys]|]).
    exfalso. exact (proj1 (elem_of_nil _) Hlookup).
  - intros users. unfold QuotaUsageStatus.format_user_data.
    rewrite <- list_fmap_compose. apply list_fmap_ext. intros _ user _. cbn [compose].
    rewrite dict_of_items_list_to_map by by apply (bool_decide_unpack _).
    apply elem_of_list_to_map; [by apply (bool_decide_unpack _)|].
    apply list_elem_of_here.
Qed.

(** ** Nodes, further *)

Lemma logged_bind_lift {A B} (r : Py.result A) (k : A → Py.io B) :
  (∀ a, Py.logged (k a) = []) → Py.logged (Py.lift r ≫= k) = [].
Proof. intros Hk. destruct r as [a|e]; [|done]. by rewrite io_bind_ok. Qed.

Lemma logged_for_each {A St} (xs : list A) (body : St → A → Py.io St) (acc : St) :
  (∀ acc x, Py.logged (body acc x) = []) → Py.logged (Py.for_each xs body acc) = [].
Proof.
  intros Hbody. revert acc. induction xs as [|x xs IH]; intros acc; [done|].
  cbn [Py.for_each]. specialize (Hbody acc x).
  destruct (body acc x) as [l [acc'|e]]; cbn [Py.logged] in Hbody; subst l; [|done].
  change (Py.IO [] (Py.Ok acc')) with (Py.lift (Py.Ok acc')).
  rewrite io_bind_ok. apply IH.
Qed.

Lemma record_usage_logged (ext : Imports) (result : Py.odict (gmap string string))
    (node_metric : NodeMetric) :
  Py.logged (NodesStatus.record_usage ext result node_metric) = [].
Proof.
  unfold NodesStatus.record_usage.
  repeat (apply logged_bind_lift; intros ?). done.
Qed.

(** The [except] clause of [get_memory_usage] never handles anything: once
    the nodes are listed with their memory capacity, the method either
    returns its mapping or raises [NameError], whatever went wrong inside
    the [try] block (the metrics call, a metric of an unknown node, a
    malformed metric, a failed conversion), and it logs nothing. *)
Theorem get_memory_usage_never_handles (ext : Imports) (self : REANAStatus.t)
    (w : World) (nodes : list V1Node.t) :
  list_node w None = Py.Ok nodes →
  Forall (λ node, is_Some (V1Node.status_capacity node !! "memory")) nodes →
  Py.logged (NodesStatus.get_memory_usage ext self w) = []
  ∧ ((∃ result, Py.outcome (NodesStatus.get_memory_usage ext self w) = Py.Ok result)
     ∨ Py.outcome (NodesStatus.get_memory_usage ext self w)
       = Py.Raise (Py.NameError "ApiException")).
Proof.
  intros Hnodes Hcapacity.
  unfold NodesStatus.get_memory_usage, NodesStatus.get_memory_usage_in.
  rewrite Hnodes, io_bind_ok.
  destruct (record_capacity_all nodes [] Hcapacity) as [result ->].
  rewrite io_bind_ret.
  set (body := Py.lift _ ≫= _).
  assert (Py.logged body = []) as Hsilent.
  { unfold body. apply logged_bind_lift. intros metrics.
    apply logged_for_each. intros acc item. apply record_usage_logged. }
  unfold Py.try_except. destruct (Py.outcome body) as [result'|e] eqn:Hbody.
  - split; [done|]. left. by exists result'.
  - rewrite ApiException_unbound. cbn [Py.logged Py.outcome]. split; [done|]. by right.
Qed.

Lemma get_memory_usage_never_handles_metrics_down :
  Py.logged (NodesStatus.get_memory_usage Examples.ext_plain
               (NodesStatus.__init__ Examples.cfg_two_namespaces Examples.metrics_down_world
                  None None None)
               Examples.metrics_down_world) = [].
Proof.
  refine (proj1 (get_memory_usage_never_handles _ _ Examples.metrics_down_world
                   [Examples.node1] eq_refl _)).
  apply Forall_cons. split; [by exists "8Gi"|by apply Forall_nil].
Defined.

Lemma record_usage_lookup_fails (ext : Imports) (result : Py.odict (gmap string string))
    (node_metric : NodeMetric) (metadata usage : gmap string string)
    (node_name memory : string) (e : Py.exn) :
  node_metric !! "metadata" = Some metadata → metadata !! "name" = Some node_name →
  node_metric !! "usage" = Some usage → usage !! "memory" = Some memory →
  Py.odict_get result node_name = Py.Raise e →
  NodesStatus.record_usage ext result node_metric = Py.raise e.
Proof.
  intros Hmetadata Hname Husage Hmemory Hget. unfold NodesStatus.record_usage.
  rewrite (getitem_Some _ _ _ Hmetadata), io_bind_ok.
  rewrite (getitem_Some _ _ _ Hname), io_bind_ok.
  rewrite (getitem_Some _ _ _ Husage), io_bind_ok.
  rewrite (getitem_Some _ _ _ Hmemory), io_bind_ok.
  by rewrite Hget.
Qed.

(** A metric that names a node the node listing does not hold is such a
    case: the [KeyError] of the lookup is raised inside the [try] block and
    comes out as [NameError]. *)
Theorem get_memory_usage_unknown_node (ext : Imports) (self : REANAStatus.t)
    (w : World) (nodes : list V1Node.t) (node_metric : NodeMetric)
    (more : list NodeMetric) (metadata usage : gmap string string)
    (node_name memory : string) :
  list_node w None = Py.Ok nodes →
  Forall (λ node, is_Some (V1Node.status_capacity node !! "memory")) nodes →
  list_cluster_custom_object w "metrics.k8s.io" "v1beta1" "nodes"
  = Py.Ok {| items := Some (node_metric :: more) |} →
  node_metric !! "metadata" = Some metadata → metadata !! "name" = Some node_name →
  node_metric !! "usage" = Some usage → usage !! "memory" = Some memory →
  node_name ∉ map V1Node.metadata_name nodes →
  NodesStatus.get_memory_usage ext self w = Py.raise (Py.NameError "ApiException").
Proof.
  intros Hnodes Hcapacity Hmetrics Hmetadata Hname Husage Hmemory Hunknown.
  assert (∀ result : Py.odict (gmap string string),
            node_name ∉ map fst result →
            ∃ result', Py.for_each nodes NodesStatus.record_capacity result = Py.ret result'
                       ∧ (node_name ∉ map V1Node.metadata_name nodes →
                          Py.odict_get result' node_name = Py.Raise (Py.KeyError node_name)))
    as Hfold.
  { clear Hnodes Hunknown. induction nodes as [|node nodes IH]; intros result Hfresh.
    - exists result. split; [done|]. intros _.
      induction result as [|[k v] result IHr]; [done|].
      cbn [map fst] in Hfresh. apply not_elem_of_cons in Hfresh as [Hne Hfresh].
      cbn [Py.odict_get]. destruct (String.eqb_spec k node_name); [congruence|auto].
    - apply Forall_cons in Hcapacity as [[mem Hmem] Hcapacity].
      cbn [Py.for_each]. rewrite (record_capacity_present _ _ _ Hmem), io_bind_ret.
      destruct (decide (node_name = V1Node.metadata_name node)) as [Heq|Hne].
      + destruct (record_capacity_all nodes
                    (Py.odict_set result (V1Node.metadata_name node)
                       (dict_of_items [("capacity", mem)])) Hcapacity) as [result' ->].
        exists result'. split; [done|]. intros Hnot. destruct Hnot. rewrite Heq. by left.
      + destruct (IH Hcapacity
                    (Py.odict_set result (V1Node.metadata_name node)
                       (dict_of_items [("capacity", mem)]))) as (result' & -> & Hget).
        * clear -Hfresh Hne. induction result as [|[k v] result IHr].
          { cbn. intros [?|?%elem_of_nil]%elem_of_cons; congruence. }
          cbn [map fst] in Hfresh. apply not_elem_of_cons in Hfresh as [Hk Hfresh].
          cbn [Py.odict_set]. destruct (String.eqb k (V1Node.metadata_name node));
            cbn [map fst]; apply not_elem_of_cons; auto.
        * exists result'. split; [done|]. intros Hnot. apply Hget.
          intros Hin. apply Hnot. by right. }
  destruct (Hfold []) as (result & Hresult & Hget); [by intros ?%elem_of_nil|].
  unfold NodesStatus.get_memory_usage, NodesStatus.get_memory_usage_in.
  rewrite Hnodes, io_bind_ok, Hresult, io_bind_ret, Hmetrics, io_bind_ok.
  cbn [items default from_option id Py.for_each].
  rewrite (record_usage_lookup_fails _ _ _ _ _ _ _ _ Hmetadata Hname Husage Hmemory
             (Hget Hunknown)).
  unfold Py.try_except. cbn [Py.outcome Py.logged Py.raise mbind Py.io_bind Py.bind].
  by rewrite ApiException_unbound.
Qed.

Lemma get_memory_usage_unknown_node_example :
  NodesStatus.get_memory_usage Examples.ext_plain
    (NodesStatus.__init__ Examples.cfg_two_namespaces Examples.quiet_world None None None)
    (Examples.cluster_world (Py.Ok [Examples.node1])
       (Py.Ok {| items := Some [Examples.metric_of "node-9" "2Gi"] |}))
  = Py.raise (Py.NameError "ApiException").
Proof.
  apply (get_memory_usage_unknown_node _ _ _ [Examples.node1]
           (Examples.metric_of "node-9" "2Gi") []
           (dict_of_items [("name", "node-9")]) (dict_of_items [("memory", "2Gi")])
           "node-9" "2Gi").
  - reflexivity.
  - apply Forall_cons. split; [by exists "8Gi"|by apply Forall_nil].
  - reflexivity.
  - reflexivity.
  - reflexivity.
  - reflexivity.
  - reflexivity.
  - by apply (bool_decide_unpack _).
Defined.

Lemma record_capacity_absent (result : Py.odict (gmap string string)) (node : V1Node.t) :
  V1Node.status_capacity node !! "memory" = None →
  NodesStatus.record_capacity result node = Py.raise (Py.KeyError "memory").
Proof.
  intros Hnode. unfold NodesStatus.record_capacity, Py.getitem. by rewrite Hnode.
Qed.

(** What goes wrong before the [try] block is raised as it is: a failing
    node listing (an [ApiException] included), and the [KeyError] of the
    first node whose capacity holds no "memory". *)
Theorem get_memory_usage_listing_failures (ext : Imports) (self : REANAStatus.t)
    (w : World) :
  (∀ e, list_node w None = Py.Raise e →
        NodesStatus.get_memory_usage ext self w = Py.raise e)
  ∧ (∀ (before : list V1Node.t) (node : V1Node.t) (after : list V1Node.t),
       list_node w None = Py.Ok (before ++ node :: after)%list →
       Forall (λ node, is_Some (V1Node.status_capacity node !! "memory")) before →
       V1Node.status_capacity node !! "memory" = None →
       NodesStatus.get_memory_usage ext self w = Py.raise (Py.KeyError "memory")).
Proof.
  split.
  - intros e Hnodes. unfold NodesStatus.get_memory_usage, NodesStatus.get_memory_usage_in.
    by rewrite Hnodes.
  - intros before node after Hnodes Hbefore Hnode.
    unfold NodesStatus.get_memory_usage, NodesStatus.get_memory_usage_in.
    rewrite Hnodes, io_bind_ok.
    assert (∀ result, Py.for_each (before ++ node :: after)%list NodesStatus.record_capacity result
                      = Py.raise (Py.KeyError "memory")) as ->; [|done].
    clear Hnodes. induction before as [|b before IH]; intros result.
    + cbn [app Py.for_each]. by rewrite (record_capacity_absent _ _ Hnode).
    + apply Forall_cons in Hbefore as [[mem Hmem] Hbefore].
      cbn [app Py.for_each]. rewrite (record_capacity_present _ _ _ Hmem), io_bind_ret.
      by apply IH.
Qed.

Lemma get_memory_usage_listing_failures_example :
  NodesStatus.get_memory_usage Examples.ext_plain
    (NodesStatus.__init__ Examples.cfg_two_namespaces Examples.quiet_world None None None)
    (Examples.cluster_world (Py.Raise (Py.ApiException 403 "Forbidden"))
       (Py.Ok {| items := None |}))
  = Py.raise (Py.ApiException 403 "Forbidden")
  ∧ NodesStatus.get_memory_usage Examples.ext_plain
      (NodesStatus.__init__ Examples.cfg_two_namespaces Examples.quiet_world None None None)
      (Examples.cluster_world (Py.Ok [Examples.node1; Examples.node_without_memory])
         (Py.Ok {| items := None |}))
    = Py.raise (Py.KeyError "memory").
Proof.
  split.
  - apply (proj1 (get_memory_usage_listing_failures _ _ _)). reflexivity.
  - apply (proj2 (get_memory_usage_listing_failures _ _ _)
             [Examples.node1] Examples.node_without_memory []).
    + reflexivity.
    + apply Forall_cons. split; [by exists "8Gi"|by apply Forall_nil].
    + reflexivity.
Defined.

Lemma odict_set_fresh {V} (d : Py.odict V) (k : string) (v : V) :
  k ∉ map fst d → Py.odict_set d k v = (d ++ [(k, v)])%list.
Proof.
  induction d as [|[k' v'] d IH]; [done|].
  cbn [map fst]. intros [Hne Hd]%not_elem_of_cons. cbn [Py.odict_set app].
  destruct (String.eqb_spec k' k); [congruence|]. by rewrite IH.
Qed.

Lemma record_capacity_distinct (nodes : list V1Node.t) (memory : V1Node.t → string)
    (result : Py.odict (gmap string string)) :
  NoDup (map fst result ++ map V1Node.metadata_name nodes)%list →
  Forall (λ node, V1Node.status_capacity node !! "memory" = Some (memory node)) nodes →
  Py.for_each nodes NodesStatus.record_capacity result
  = Py.ret (result ++ map (λ node, (V1Node.metadata_name node,
                                    ({[ "capacity" := memory node ]} : gmap string string)))
                          nodes)%list.
Proof.
  revert result. induction nodes as [|node nodes IH]; intros result Hnodup Hmemory.
  - cbn [map Py.for_each]. by rewrite app_nil_r.
  - apply Forall_cons in Hmemory as [Hnode Hmemory].
    cbn [Py.for_each map]. rewrite (record_capacity_present _ _ _ Hnode), io_bind_ret.
    cbn [map] in Hnodup.
    rewrite odict_set_fresh.
    + rewrite IH; [|by rewrite map_app, <- app_assoc|done].
      rewrite <- app_assoc. cbn [app]. unfold dict_of_items. cbn [foldl fst snd].
      by rewrite insert_empty.
    + apply NoDup_app in Hnodup as (_ & Hfresh & _). intros Hin.
      apply (Hfresh _ Hin). by left.
Qed.

Lemma friendly_without_metrics (nodes : list V1Node.t) (memory : V1Node.t → string)
    (out : string) :
  foldl (λ out (item : string * gmap string string),
           out +:+ String Py.LF "  " +:+ item.1 +:+ ": "
             +:+ Py.format_get item.2 "usage" +:+ "/"
             +:+ Py.format_get item.2 "capacity" +:+ " ("
             +:+ Py.format_get item.2 "percentage" +:+ ")")
        out
        (map (λ node, (V1Node.metadata_name node,
                       ({[ "capacity" := memory node ]} : gmap string string))) nodes)
  = foldl (λ out node,
             out +:+ String Py.LF "  " +:+ V1Node.metadata_name node
               +:+ ": None/" +:+ memory node +:+ " (None)")
          out nodes.
Proof.
  revert out. induction nodes as [|node nodes IH]; intros out; [done|].
  cbn [map foldl fst snd]. rewrite IH. reflexivity.
Qed.

(** When the metrics API answers without items (no [items] key, or an empty
    list), [get_memory_usage] returns one entry per node, in listing order,
    holding its capacity only, and the friendly text prints [None] for the
    missing usage and percentage. *)
Theorem get_memory_usage_without_metrics (ext : Imports) (self : REANAStatus.t)
    (w : World) (nodes : list V1Node.t) (memory : V1Node.t → string)
    (metric_items : option (list NodeMetric)) :
  list_node w None = Py.Ok nodes →
  NoDup (map V1Node.metadata_name nodes) →
  Forall (λ node, V1Node.status_capacity node !! "memory" = Some (memory node)) nodes →
  list_cluster_custom_object w "metrics.k8s.io" "v1beta1" "nodes"
  = Py.Ok {| items := metric_items |} →
  metric_items = None ∨ metric_items = Some [] →
  NodesStatus.get_memory_usage ext self w
  = Py.ret (map (λ node, (V1Node.metadata_name node,
                          ({[ "capacity" := memory node ]} : gmap string string))) nodes)
  ∧ NodesStatus.get_friendly_memory_usage ext self w
    = Py.ret (foldl (λ out node,
                       out +:+ String Py.LF "  " +:+ V1Node.metadata_name node
                         +:+ ": None/" +:+ memory node +:+ " (None)")
                    "" nodes).
Proof.
  intros Hnodes Hnodup Hmemory Hmetrics Hitems.
  assert (NodesStatus.get_memory_usage ext self w
          = Py.ret (map (λ node, (V1Node.metadata_name node,
                                  ({[ "capacity" := memory node ]} : gmap string string)))
                        nodes)) as Hresult.
  { unfold NodesStatus.get_memory_usage, NodesStatus.get_memory_usage_in.
    rewrite Hnodes, io_bind_ok.
    rewrite (record_capacity_distinct nodes memory []) by done.
    rewrite io_bind_ret, Hmetrics, io_bind_ok. cbn [items app].
    by destruct Hitems as [-> | ->]. }
  split; [exact Hresult|].
  unfold NodesStatus.get_friendly_memory_usage, NodesStatus.friendly_memory_usage_of.
  rewrite Hresult, io_bind_ret. f_equal. f_equal.
  rewrite <- (friendly_without_metrics nodes memory "").
  by destruct nodes.
Qed.

Lemma get_memory_usage_without_metrics_example :
  NodesStatus.get_friendly_memory_usage Examples.ext_plain
    (NodesStatus.__init__ Examples.cfg_two_namespaces Examples.quiet_world None None None)
    (Examples.cluster_world (Py.Ok [Examples.node1]) (Py.Ok {| items := None |}))
  = Py.ret (Examples.nl +:+ "  node-1: None/8Gi (None)").
Proof.
  refine (proj2 (get_memory_usage_without_metrics _ _
                   (Examples.cluster_world (Py.Ok [Examples.node1]) (Py.Ok {| items := None |}))
                   [Examples.node1] (λ _, "8Gi") None eq_refl _ _ eq_refl _)).
  - by apply (bool_decide_unpack _).
  - apply Forall_cons. split; [reflexivity|by apply Forall_nil].
  - by left.
Defined.

Lemma odict_get_middle {V} (before after : Py.odict V) (k : string) (v : V) :
  k ∉ map fst before → Py.odict_get (before ++ (k, v) :: after)%list k = Py.Ok v.
Proof.
  induction before as [|[k' v'] before IH]; cbn [map fst app Py.odict_get].
  - intros _. by rewrite String.eqb_refl.
  - intros [Hne Hbefore]%not_elem_of_cons.
    destruct (String.eqb_spec k' k); [congruence|]. by apply IH.
Qed.

Lemma odict_set_middle {V} (before after : Py.odict V) (k : string) (v v' : V) :
  k ∉ map fst before →
  Py.odict_set (before ++ (k, v) :: after)%list k v' = (before ++ (k, v') :: after)%list.
Proof.
  induction before as [|[k0 v0] before IH]; cbn [map fst app Py.odict_set].
  - intros _. by rewrite String.eqb_refl.
  - intros [Hne Hbefore]%not_elem_of_cons.
    destruct (String.eqb_spec k0 k); [congruence|]. by rewrite IH.
Qed.

Lemma record_usage_present (ext : Imports) (result : Py.odict (gmap string string))
    (node_metric : NodeMetric) (metadata usage entry : gmap string string)
    (node_name used capacity : string) (usage_bytes capacity_bytes percentage : Z)
    (ratio : Py.float) :
  node_metric !! "metadata" = Some metadata → metadata !! "name" = Some node_name →
  node_metric !! "usage" = Some usage → usage !! "memory" = Some used →
  Py.odict_get result node_name = Py.Ok entry →
  entry !! "capacity" = Some capacity →
  kubernetes_memory_to_bytes ext used = Py.Ok usage_bytes →
  kubernetes_memory_to_bytes ext capacity = Py.Ok capacity_bytes →
  Py.int_truediv usage_bytes capacity_bytes = Py.Ok ratio →
  Py.round (Py.float_mul ratio (Py.int_value 100)) = Py.Ok percentage →
  NodesStatus.record_usage ext result node_metric
  = Py.ret (Py.odict_set result node_name
              (<["percentage" := pretty percentage +:+ "%"]> (<["usage" := used]> entry))).
Proof.
  intros Hmetadata Hname Husage Hmemory Hget Hcapacity Hused Hbytes Hratio Hround.
  unfold NodesStatus.record_usage.
  rewrite (getitem_Some _ _ _ Hmetadata), io_bind_ok.
  rewrite (getitem_Some _ _ _ Hname), io_bind_ok.
  rewrite (getitem_Some _ _ _ Husage), io_bind_ok.
  rewrite (getitem_Some _ _ _ Hmemory), io_bind_ok.
  rewrite Hget, io_bind_ok.
  rewrite (getitem_Some (<["usage" := used]> entry) "capacity" capacity), io_bind_ok
    by (rewrite lookup_insert_ne; [exact Hcapacity|discriminate]).
  rewrite (getitem_Some (<["usage" := used]> entry) "usage" used), io_bind_ok
    by apply lookup_insert_eq.
  by rewrite Hused, io_bind_ok, Hbytes, io_bind_ok, Hratio, io_bind_ok, Hround, io_bind_ok.
Qed.

(** The metrics of one listed node: its entry gains the usage and the
    percentage and keeps its place; the other nodes keep their
    capacity-only entries.  The percentage is [round(usage / capacity *
    100)] in the interpreter's arithmetic: the quotient of the two byte
    counts rounded to a [float], its product with 100 rounded again, and
    the nearest integer of that, ties to even. *)
Theorem get_memory_usage_one_metric (ext : Imports) (self : REANAStatus.t) (w : World)
    (before : list V1Node.t) (node : V1Node.t) (after : list V1Node.t)
    (memory : V1Node.t → string) (node_metric : NodeMetric)
    (metadata usage : gmap string string) (used : string)
    (usage_bytes capacity_bytes percentage : Z) (ratio : Py.float) :
  list_node w None = Py.Ok (before ++ node :: after)%list →
  NoDup (map V1Node.metadata_name (before ++ node :: after)%list) →
  Forall (λ node, V1Node.status_capacity node !! "memory" = Some (memory node))
         (before ++ node :: after)%list →
  list_cluster_custom_object w "metrics.k8s.io" "v1beta1" "nodes"
  = Py.Ok {| items := Some [node_metric] |} →
  node_metric !! "metadata" = Some metadata →
  metadata !! "name" = Some (V1Node.metadata_name node) →
  node_metric !! "usage" = Some usage → usage !! "memory" = Some used →
  kubernetes_memory_to_bytes ext used = Py.Ok usage_bytes →
  kubernetes_memory_to_bytes ext (memory node) = Py.Ok capacity_bytes →
  Py.int_truediv usage_bytes capacity_bytes = Py.Ok ratio →
  Py.round (Py.float_mul ratio (Py.int_value 100)) = Py.Ok percentage →
  let capacity_only node : string * gmap string string :=
    (V1Node.metadata_name node, {[ "capacity" := memory node ]}) in
  NodesStatus.get_memory_usage ext self w
  = Py.ret (map capacity_only before
            ++ (V1Node.metadata_name node,
                <["percentage" := pretty percentage +:+ "%"]>
                  (<["usage" := used]> {[ "capacity" := memory node ]}))
               :: map capacity_only after)%list.
Proof.
  intros Hnodes Hnodup Hcapacity Hmetrics Hmetadata Hname Husage Hmemory
    Hused Hbytes Hratio Hround capacity_only.
  assert (V1Node.metadata_name node ∉ map fst (map capacity_only before)) as Hfresh.
  { rewrite map_map. cbn [capacity_only fst].
    rewrite map_app in Hnodup. apply NoDup_app in Hnodup as (_ & Hfresh & _).
    intros Hin. apply (Hfresh _ Hin). cbn [map]. by left. }
  unfold NodesStatus.get_memory_usage, NodesStatus.get_memory_usage_in.
  rewrite Hnodes, io_bind_ok.
  rewrite (record_capacity_distinct _ memory []) by done.
  rewrite io_bind_ret, Hmetrics, io_bind_ok.
  cbn [items default from_option id app Py.for_each].
  fold capacity_only. rewrite map_app. cbn [map].
  rewrite (record_usage_present ext _ node_metric metadata usage
             {[ "capacity" := memory node ]} (V1Node.metadata_name node) used
             (memory node) usage_bytes capacity_bytes percentage ratio);
    [|done|done|done|done|by apply odict_get_middle|by apply lookup_singleton_eq
     |done|done|done|done].
  change (capacity_only node)
    with (V1Node.metadata_name node, ({[ "capacity" := memory node ]} : gmap string string)).
  rewrite io_bind_ret, odict_set_middle by done.
  reflexivity.
Qed.

Lemma get_memory_usage_one_metric_example :
  NodesStatus.get_memory_usage Examples.ext_plain
    (NodesStatus.__init__ Examples.cfg_two_namespaces Examples.quiet_world None None None)
    (Examples.cluster_world (Py.Ok [Examples.node1])
       (Py.Ok {| items := Some [Examples.metric_of "node-1" "3Gi"] |}))
  = Py.ret [("node-1",
             <["percentage" := "38%"]> (<["usage" := "3Gi"]> {[ "capacity" := "8Gi" ]}))].
Proof.
  refine (get_memory_usage_one_metric Examples.ext_plain _
            (Examples.cluster_world (Py.Ok [Examples.node1])
               (Py.Ok {| items := Some [Examples.metric_of "node-1" "3Gi"] |}))
            [] Examples.node1 [] (λ _, "8Gi") (Examples.metric_of "node-1" "3Gi")
            (dict_of_items [("name", "node-1")]) (dict_of_items [("memory", "3Gi")])
            "3Gi" 3221225472 8589934592 38 (S754_finite false 6755399441055744 (-54))
            eq_refl _ _ eq_refl eq_refl eq_refl eq_refl eq_refl _ _ _ _).
  - by apply (bool_decide_unpack _).
  - apply Forall_cons. split; [reflexivity|by apply Forall_nil].
  - vm_compute. reflexivity.
  - vm_compute. reflexivity.
  - vm_compute. reflexivity.
  - vm_compute. reflexivity.
Defined.

Lemma io_bind_outcome_Ok {A B} (m : Py.io A) (k : A → Py.io B) (b : B) :
  Py.outcome (m ≫= k) = Py.Ok b →
  ∃ a, Py.outcome m = Py.Ok a ∧ Py.outcome (k a) = Py.Ok b.
Proof.
  unfold mbind, Py.io_bind, Py.bind.
  destruct (Py.outcome m) as [a|e]; cbn [Py.outcome]; [eauto|discriminate].
Qed.

Lemma for_each_outcome_invariant {A St} (P : St → Prop) (xs : list A)
    (body : St → A → Py.io St) (acc acc' : St) :
  (∀ acc x acc', P acc → Py.outcome (body acc x) = Py.Ok acc' → P acc') →
  P acc → Py.outcome (Py.for_each xs body acc) = Py.Ok acc' → P acc'.
Proof.
  intros Hbody. revert acc. induction xs as [|x xs IH]; intros acc Hacc.
  - by intros [= <-].
  - cbn [Py.for_each]. intros (acc1 & Hstep & Hrest)%io_bind_outcome_Ok.
    apply (IH acc1); [|done]. by apply (Hbody acc x).
Qed.

Lemma record_usage_outcome (ext : Imports) (result result' : Py.odict (gmap string string))
    (node_metric : NodeMetric) :
  Py.outcome (NodesStatus.record_usage ext result node_metric) = Py.Ok result' →
  ∃ node_name entry entry',
    Py.odict_get result node_name = Py.Ok entry
    ∧ entry' !! "capacity" = entry !! "capacity"
    ∧ result' = Py.odict_set result node_name entry'.
Proof.
  unfold NodesStatus.record_usage. intros H.
  apply io_bind_outcome_Ok in H as (metadata & _ & H).
  apply io_bind_outcome_Ok in H as (node_name & _ & H).
  apply io_bind_outcome_Ok in H as (usage & _ & H).
  apply io_bind_outcome_Ok in H as (memory & _ & H).
  apply io_bind_outcome_Ok in H as (entry & Hentry & H).
  apply io_bind_outcome_Ok in H as (node_capacity & _ & H).
  apply io_bind_outcome_Ok in H as (node_usage & _ & H).
  apply io_bind_outcome_Ok in H as (usage_bytes & _ & H).
  apply io_bind_outcome_Ok in H as (capacity_bytes & _ & H).
  apply io_bind_outcome_Ok in H as (ratio & _ & H).
  apply io_bind_outcome_Ok in H as (percentage & _ & H).
  exists node_name, entry. eexists. split; [exact Hentry|].
  split; [|symmetry; exact (f_equal (λ r, match r with Py.Ok a => a | _ => result end) H)].
  by rewrite !lookup_insert_ne by discriminate.
Qed.

Lemma odict_set_keeps_nodes (nodes : list V1Node.t) (memory : V1Node.t → string)
    (result : Py.odict (gmap string string)) (k : string) (entry entry' : gmap string string) :
  Forall2 (λ node item, item.1 = V1Node.metadata_name node
                        ∧ item.2 !! "capacity" = Some (memory node)) nodes result →
  Py.odict_get result k = Py.Ok entry →
  entry' !! "capacity" = entry !! "capacity" →
  Forall2 (λ node item, item.1 = V1Node.metadata_name node
                        ∧ item.2 !! "capacity" = Some (memory node))
          nodes (Py.odict_set result k entry').
Proof.
  intros Hresult. induction Hresult as [|node [k0 v0] nodes result [Hkey Hcap] Hrest IH];
    [discriminate|].
  cbn [Py.odict_get Py.odict_set fst snd] in *. intros Hget Hentry.
  destruct (String.eqb k0 k).
  - apply Forall2_cons. split; [|done]. split; [done|].
    cbn [snd]. rewrite Hentry. by injection Hget as <-.
  - apply Forall2_cons. split; [done|]. by apply IH.
Qed.

(** Whatever the metrics API lists, a mapping that [get_memory_usage]
    returns has one entry per listed node, in listing order, each with that
    node's memory capacity: the metrics add or replace usage and percentage
    only. *)
Theorem get_memory_usage_keeps_nodes (ext : Imports) (self : REANAStatus.t) (w : World)
    (nodes : list V1Node.t) (memory : V1Node.t → string)
    (result : Py.odict (gmap string string)) :
  list_node w None = Py.Ok nodes →
  NoDup (map V1Node.metadata_name nodes) →
  Forall (λ node, V1Node.status_capacity node !! "memory" = Some (memory node)) nodes →
  Py.outcome (NodesStatus.get_memory_usage ext self w) = Py.Ok result →
  Forall2 (λ node item, item.1 = V1Node.metadata_name node
                        ∧ item.2 !! "capacity" = Some (memory node)) nodes result.
Proof.
  intros Hnodes Hnodup Hcapacity.
  unfold NodesStatus.get_memory_usage, NodesStatus.get_memory_usage_in.
  rewrite Hnodes, io_bind_ok.
  rewrite (record_capacity_distinct _ memory []) by done.
  rewrite io_bind_ret. cbn [app].
  set (body := Py.lift _ ≫= _).
  unfold Py.try_except. destruct (Py.outcome body) as [result'|e] eqn:Hbody.
  - clear result' Hbody. intros Hbody. unfold body in Hbody.
    apply io_bind_outcome_Ok in Hbody as (metrics & _ & Hloop).
    revert Hloop. apply for_each_outcome_invariant.
    + intros acc node_metric acc' Hacc (k & entry & entry' & Hget & Hentry & ->)%record_usage_outcome.
      by apply (odict_set_keeps_nodes _ _ _ _ entry).
    + apply Forall2_fmap_r, Forall_Forall2_diag.
      apply Forall_forall. intros node _. cbn [fst snd]. split; [done|].
      apply lookup_singleton_eq.
  - rewrite ApiException_unbound. cbn [Py.outcome]. discriminate.
Qed.

Lemma get_memory_usage_keeps_nodes_example :
  Forall2 (λ node (item : string * gmap string string),
             item.1 = V1Node.metadata_name node ∧ item.2 !! "capacity" = Some "8Gi")
    [Examples.node1]
    [("node-1", <["percentage" := "25%"]> (<["usage" := "2Gi"]> {[ "capacity" := "8Gi" ]}))].
Proof.
  refine (get_memory_usage_keeps_nodes Examples.ext_plain
            (NodesStatus.__init__ Examples.cfg_two_namespaces Examples.metrics_up_world
               None None None)
            Examples.metrics_up_world [Examples.node1] (λ _, "8Gi") _ eq_refl _ _ eq_refl).
  - by apply (bool_decide_unpack _).
  - apply Forall_cons. split; [reflexivity|by apply Forall_nil].
Defined.

(** ** Pods, further *)

Lemma for_each_outcome_all {A St} (xs : list A) (body : St → A → Py.io St)
    (acc acc' : St) (x : A) :
  Py.outcome (Py.for_each xs body acc) = Py.Ok acc' → x ∈ xs →
  ∃ a a', Py.outcome (body a x) = Py.Ok a'.
Proof.
  revert acc. induction xs as [|x' xs IH]; intros acc Hloop Hx.
  - exfalso. exact (proj1 (elem_of_nil _) Hx).
  - cbn [Py.for_each] in Hloop.
    apply io_bind_outcome_Ok in Hloop as (acc1 & Hstep & Hrest).
    apply elem_of_cons in Hx as [->|Hx]; [by exists acc, acc1|].
    by apply (IH acc1).
Qed.

Lemma for_each_ext {A St} (xs : list A) (body1 body2 : St → A → Py.io St) (acc : St) :
  (∀ acc x, x ∈ xs → body1 acc x = body2 acc x) →
  Py.for_each xs body1 acc = Py.for_each xs body2 acc.
Proof.
  revert acc. induction xs as [|x xs IH]; intros acc Hbody; [done|].
  cbn [Py.for_each]. rewrite Hbody by by left.
  unfold mbind, Py.io_bind, Py.bind.
  destruct (Py.outcome (body2 acc x)) as [acc1|e]; [|done].
  rewrite IH; [done|]. intros acc' x' Hx'. apply Hbody. by right.
Qed.

(** [PodsStatus.get_status] returns a summary only if the API answered the
    listing of every phase in every namespace: one failing listing leaves
    no partial summary. *)
Theorem pods_get_status_needs_every_listing (self : PodsStatus.t) (w : World)
    (d : gmap string string) (ns status : string) :
  Py.outcome (PodsStatus.get_status self w) = Py.Ok d →
  ns ∈ REANAStatus.namespaces (PodsStatus.base self) →
  status ∈ PodsStatus.statuses self →
  ∃ pods, list_namespaced_pod w ns ("status.phase=" +:+ status) = Py.Ok pods.
Proof.
  intros Hstatus Hns Hphase. unfold PodsStatus.get_status in Hstatus.
  apply (for_each_outcome_all _ _ _ _ ns) in Hstatus as (d1 & d2 & Hinner);
    [|by apply elem_of_elements].
  apply (for_each_outcome_all _ _ _ _ status) in Hinner as (d3 & d4 & Hitem); [|done].
  apply io_bind_outcome_Ok in Hitem as (text & Htext & _).
  unfold PodsStatus.get_friendly_pods_by_status, PodsStatus.get_pods_by_status in Htext.
  apply io_bind_outcome_Ok in Htext as (names & Hnames & _).
  apply io_bind_outcome_Ok in Hnames as (pods & Hpods & _).
  by exists pods.
Qed.

Lemma pods_get_status_needs_every_listing_example :
  ∃ pods,
    list_namespaced_pod Examples.quiet_world "reana-runtime" "status.phase=Suceeded"
    = Py.Ok pods.
Proof.
  refine (pods_get_status_needs_every_listing
            (PodsStatus.__init__ Examples.cfg_two_namespaces Examples.quiet_world
               None None None)
            Examples.quiet_world _ "reana-runtime" "Suceeded" _ _ _).
  - rewrite (pods_get_status_items _ _ _ _ _ (λ _ _, [])) by reflexivity. reflexivity.
  - apply elem_of_union_r. by apply elem_of_singleton.
  - apply list_elem_of_further, list_elem_of_further, list_elem_of_here.
Defined.

(** [PodsStatus.get_status] reads the pod listings of its five phase names
    in its namespaces and nothing else of the cluster: two clusters that
    agree on those listings get the same summary.  The third phase name is
    spelt "Suceeded", so the listing of phase "Succeeded" is not among
    them. *)
Theorem pods_get_status_reads_listed_phases (cfg : Config) (w0 w1 w2 : World)
    (from_ until : option Py.datetime) (user : option User.t) :
  (∀ ns status,
     ns = REANA_INFRASTRUCTURE_KUBERNETES_NAMESPACE cfg
     ∨ ns = REANA_RUNTIME_KUBERNETES_NAMESPACE cfg →
     status ∈ ["Running"; "Pending"; "Suceeded"; "Failed"; "Unknown"] →
     list_namespaced_pod w1 ns ("status.phase=" +:+ status)
     = list_namespaced_pod w2 ns ("status.phase=" +:+ status)) →
  PodsStatus.get_status (PodsStatus.__init__ cfg w0 from_ until user) w1
  = PodsStatus.get_status (PodsStatus.__init__ cfg w0 from_ until user) w2.
Proof.
  intros Hagree. unfold PodsStatus.get_status.
  apply for_each_ext. intros d ns Hns%elem_of_elements.
  apply for_each_ext. intros d' status Hstatus.
  unfold PodsStatus.get_friendly_pods_by_status, PodsStatus.get_pods_by_status.
  rewrite Hagree; [done| |done].
  cbn [PodsStatus.base PodsStatus.__init__ REANAStatus.namespaces REANAStatus.__init__] in Hns.
  apply elem_of_union in Hns as [Hns%elem_of_singleton|Hns%elem_of_singleton]; auto.
Qed.

Lemma pods_get_status_reads_listed_phases_example :
  PodsStatus.get_status
    (PodsStatus.__init__ Examples.cfg_two_namespaces Examples.quiet_world None None None)
    (Examples.pods_world
       (λ _ selector,
          if String.eqb selector "status.phase=Succeeded"
          then Py.Ok [ {| V1Pod.metadata_name := "reana-run-job-1" |} ]
          else Py.Ok []))
  = PodsStatus.get_status
      (PodsStatus.__init__ Examples.cfg_two_namespaces Examples.quiet_world None None None)
      Examples.quiet_world.
Proof.
  apply pods_get_status_reads_listed_phases. intros ns status _ Hstatus.
  cbn [list_namespaced_pod Examples.pods_world Examples.quiet_world].
  apply elem_of_cons in Hstatus as [->|Hstatus]; [reflexivity|].
  apply elem_of_cons in Hstatus as [->|Hstatus]; [reflexivity|].
  apply elem_of_cons in Hstatus as [->|Hstatus]; [reflexivity|].
  apply elem_of_cons in Hstatus as [->|Hstatus]; [reflexivity|].
  apply elem_of_cons in Hstatus as [->|Hstatus]; [reflexivity|].
  exfalso. exact (proj1 (elem_of_nil _) Hstatus).
Defined.

Lemma friendly_lines (name : string) (names : list string) :
  Forall (λ name, Spec.all_chars (λ c, negb (Py.is_linebreak c)) name = true)
         (name :: names) →
  Py.splitlines ("  " +:+ Py.join (String Py.LF "  ") (name :: names))
  = map (λ name, "  " +:+ name) (name :: names).
Proof.
  revert name. induction names as [|name' names IH]; intros name Hnames;
    apply Forall_cons in Hnames as [Hname Hnames].
  - cbn [Py.join map]. apply splitlines_one_line; [done|].
    by rewrite all_chars_app, Hname.
  - change (Py.join (String Py.LF "  ") (name :: name' :: names))
      with (name +:+ String Py.LF "  " +:+ Py.join (String Py.LF "  ") (name' :: names)).
    rewrite <- string_app_assoc, (string_app_cons Py.LF "  ").
    rewrite splitlines_first_line by by rewrite all_chars_app, Hname.
    rewrite IH by done. reflexivity.
Qed.

(** The text of [get_friendly_pods_by_status] reads back line by line: it
    is empty when no pod is listed, and otherwise has an empty first line
    followed by one line per pod, in listing order, holding the pod's name
    behind two spaces.  Pod names hold no line break. *)
Theorem get_friendly_pods_by_status_lines (self : PodsStatus.t) (w : World)
    (status namespace : string) (pods : list V1Pod.t) :
  list_namespaced_pod w namespace ("status.phase=" +:+ status) = Py.Ok pods →
  Forall (λ pod, Spec.all_chars (λ c, negb (Py.is_linebreak c)) (V1Pod.metadata_name pod)
                 = true) pods →
  ∃ text,
    PodsStatus.get_friendly_pods_by_status self w status namespace = Py.ret text
    ∧ Py.splitlines text
      = match pods with
        | [] => []
        | _ :: _ => "" :: map (λ pod, "  " +:+ V1Pod.metadata_name pod) pods
        end.
Proof.
  intros Hpods Hnames. eexists. split.
  { by apply get_friendly_pods_by_status_answer. }
  destruct pods as [|pod pods]; [done|].
  change (Py.join (String Py.LF "  ") ("" :: map V1Pod.metadata_name (pod :: pods)))
    with ("" +:+ String Py.LF ("  " +:+ Py.join (String Py.LF "  ")
                                          (map V1Pod.metadata_name (pod :: pods)))).
  rewrite splitlines_first_line by done. f_equal.
  cbn [map]. rewrite friendly_lines.
  - cbn [map]. f_equal. by rewrite map_map.
  - apply (Forall_fmap V1Pod.metadata_name
             (λ name, Spec.all_chars (λ c, negb (Py.is_linebreak c)) name = true)
             (pod :: pods)).
    exact Hnames.
Qed.

Lemma get_friendly_pods_by_status_lines_example :
  ∃ text,
    PodsStatus.get_friendly_pods_by_status
      (PodsStatus.__init__ Examples.cfg_two_namespaces Examples.quiet_world None None None)
      (Examples.pods_world
         (λ _ _, Py.Ok [ {| V1Pod.metadata_name := "reana-server-0" |};
                         {| V1Pod.metadata_name := "reana-db-0" |} ]))
      "Running" "reana-infra"
    = Py.ret text
    ∧ Py.splitlines text = [""; "  reana-server-0"; "  reana-db-0"].
Proof.
  refine (get_friendly_pods_by_status_lines _
            (Examples.pods_world
               (λ _ _, Py.Ok [ {| V1Pod.metadata_name := "reana-server-0" |};
                               {| V1Pod.metadata_name := "reana-db-0" |} ]))
            "Running" "reana-infra" _ eq_refl _).
  apply Forall_cons. split; [reflexivity|].
  apply Forall_cons. split; [reflexivity|by apply Forall_nil].
Defined.

(** ** Jobs, further *)

(** The compute backend is an optional filter: without one, and with the
    empty name (which the [if] takes for none), every job row of the status
    is counted; with a backend the count is never larger, as rows of other
    backends and rows without a backend drop out. *)
Theorem jobs_count_without_backend (self : JobsStatus.t) (w : World)
    (status : JobStatus.t) :
  JobsStatus.get_jobs_by_status_and_compute_backend self w status None
  = length (filter (λ j, Job.status j = Some status) (jobs w))
  ∧ JobsStatus.get_jobs_by_status_and_compute_backend self w status (Some "")
    = JobsStatus.get_jobs_by_status_and_compute_backend self w status None
  ∧ ∀ backend,
      (JobsStatus.get_jobs_by_status_and_compute_backend self w status (Some backend)
       ≤ JobsStatus.get_jobs_by_status_and_compute_backend self w status None)%nat.
Proof.
  unfold JobsStatus.get_jobs_by_status_and_compute_backend, Sql.count.
  split; [|split].
  - f_equal. apply sql_filter_spec. intros j. apply sql_eq_holds.
  - reflexivity.
  - intros [|c backend]; [done|]. apply sql_filter_length.
Qed.

Lemma list_filter_sublist {A} (f : A → bool) (l : list A) : List.filter f l `sublist_of` l.
Proof.
  induction l as [|x l IH]; [done|]. cbn [List.filter].
  destruct (f x); [by apply sublist_skip|by apply sublist_cons].
Qed.

(** [get_k8s_jobs_by_status] keeps, in listing order, exactly the pods of
    the runtime namespace whose name begins with
    "<REANA_COMPONENT_PREFIX>-run-job". *)
Theorem get_k8s_jobs_by_status_spec (cfg : Config) (self : JobsStatus.t) (w : World)
    (status : string) (pods : list V1Pod.t) :
  list_namespaced_pod w (REANA_RUNTIME_KUBERNETES_NAMESPACE cfg) ("status.phase=" +:+ status)
  = Py.Ok pods →
  ∃ names,
    JobsStatus.get_k8s_jobs_by_status cfg self w status = Py.ret names
    ∧ names `sublist_of` map V1Pod.metadata_name pods
    ∧ ∀ name,
        name ∈ names
        ↔ name ∈ map V1Pod.metadata_name pods
          ∧ ∃ suffix, name = REANA_COMPONENT_PREFIX cfg +:+ "-run-job" +:+ suffix.
Proof.
  intros Hpods. eexists. split; [by apply get_k8s_jobs_by_status_answer|].
  split; [apply list_filter_sublist|].
  intros name. rewrite !list_elem_of_In, List.filter_In, startswith_spec.
  split; intros [Hin [suffix ->]]; (split; [exact Hin|exists suffix]).
  - apply string_app_assoc.
  - symmetry. apply string_app_assoc.
Qed.

Lemma get_k8s_jobs_by_status_spec_example :
  ∃ names,
    JobsStatus.get_k8s_jobs_by_status Examples.cfg_two_namespaces
      (JobsStatus.__init__ Examples.cfg_two_namespaces Examples.quiet_world None None None)
      (Examples.pods_world
         (λ _ _, Py.Ok [ {| V1Pod.metadata_name := "reana-run-batch-7" |};
                         {| V1Pod.metadata_name := "reana-run-job-42" |} ]))
      "Running"
    = Py.ret names
    ∧ names `sublist_of` ["reana-run-batch-7"; "reana-run-job-42"]
    ∧ ∀ name,
        name ∈ names
        ↔ name ∈ ["reana-run-batch-7"; "reana-run-job-42"]
          ∧ ∃ suffix, name = "reana" +:+ "-run-job" +:+ suffix.
Proof.
  exact (get_k8s_jobs_by_status_spec Examples.cfg_two_namespaces _
           (Examples.pods_world
              (λ _ _, Py.Ok [ {| V1Pod.metadata_name := "reana-run-batch-7" |};
                              {| V1Pod.metadata_name := "reana-run-job-42" |} ]))
           "Running" _ eq_refl).
Defined.

(** [JobsStatus.get_status] needs both pod listings of the runtime
    namespace: when the listing of running pods fails, or that of pending
    pods after it, the failure is raised and the counts read from the
    database are dropped with it. *)
Theorem jobs_get_status_fail_fast (cfg : Config) (self : JobsStatus.t) (w : World)
    (e : Py.exn) :
  (list_namespaced_pod w (REANA_RUNTIME_KUBERNETES_NAMESPACE cfg) "status.phase=Running"
   = Py.Raise e →
   JobsStatus.get_status cfg self w = Py.raise e)
  ∧ (∀ running,
       list_namespaced_pod w (REANA_RUNTIME_KUBERNETES_NAMESPACE cfg) "status.phase=Running"
       = Py.Ok running →
       list_namespaced_pod w (REANA_RUNTIME_KUBERNETES_NAMESPACE cfg) "status.phase=Pending"
       = Py.Raise e →
       JobsStatus.get_status cfg self w = Py.raise e).
Proof.
  split.
  - intros Hrunning. unfold JobsStatus.get_status, JobsStatus.get_k8s_jobs_by_status.
    cbv zeta. change ("status.phase=" +:+ "Running") with "status.phase=Running".
    by rewrite Hrunning, io_bind_raise.
  - intros running Hrunning Hpending. unfold JobsStatus.get_status.
    cbv zeta.
    rewrite (get_k8s_jobs_by_status_answer cfg self w "Running" running Hrunning).
    rewrite io_bind_ret. unfold JobsStatus.get_k8s_jobs_by_status.
    change ("status.phase=" +:+ "Pending") with "status.phase=Pending".
    by rewrite Hpending, io_bind_raise.
Qed.

Lemma jobs_get_status_fail_fast_example :
  JobsStatus.get_status Examples.cfg_two_namespaces
    (JobsStatus.__init__ Examples.cfg_two_namespaces Examples.quiet_world None None None)
    (Examples.pods_world
       (λ _ selector,
          if String.eqb selector "status.phase=Pending"
          then Py.Raise (Py.ApiException 503 "Service Unavailable")
          else Py.Ok []))
  = Py.raise (Py.ApiException 503 "Service Unavailable").
Proof.
  refine (proj2 (jobs_get_status_fail_fast Examples.cfg_two_namespaces _
                   (Examples.pods_world
                      (λ _ selector,
                         if String.eqb selector "status.phase=Pending"
                         then Py.Raise (Py.ApiException 503 "Service Unavailable")
                         else Py.Ok []))
                   (Py.ApiException 503 "Service Unavailable"))
                [] eq_refl eq_refl).
Defined.

(** ** The table of providers *)

Lemma status_object_types_items :
  Dispatch.STATUS_OBJECT_TYPES
  = list_to_map
      [ ("interactive-sessions", Dispatch.ClsInteractiveSessions);
        ("workflows", Dispatch.ClsWorkflows);
        ("users", Dispatch.ClsUsers);
        ("system", Dispatch.ClsSystem);
        ("storage", Dispatch.ClsStorage);
        ("nodes", Dispatch.ClsNodes);
        ("pods", Dispatch.ClsPods);
        ("jobs", Dispatch.ClsJobs);
        ("quota-usage", Dispatch.ClsQuotaUsage) ].
Proof.
  unfold Dispatch.STATUS_OBJECT_TYPES. apply dict_of_items_list_to_map.
  by apply (bool_decide_unpack _).
Qed.

(** [STATUS_OBJECT_TYPES] registers each of the nine provider classes under
    exactly one name: nine entries, every class reachable, no class under
    two names. *)
Theorem status_object_types_one_name_per_class :
  size Dispatch.STATUS_OBJECT_TYPES = 9
  ∧ (∀ cls, ∃ name, Dispatch.STATUS_OBJECT_TYPES !! name = Some cls)
  ∧ (∀ name1 name2 cls,
       Dispatch.STATUS_OBJECT_TYPES !! name1 = Some cls →
       Dispatch.STATUS_OBJECT_TYPES !! name2 = Some cls →
       name1 = name2).
Proof.
  assert (NoDup ["interactive-sessions"; "workflows"; "users"; "system"; "storage";
                 "nodes"; "pods"; "jobs"; "quota-usage"]) as Hnodup
    by by apply (bool_decide_unpack _).
  rewrite status_object_types_items. split; [|split].
  - rewrite <- size_dom, dom_list_to_map_L, size_list_to_set by exact Hnodup. reflexivity.
  - intros cls.
    destruct cls;
      [exists "interactive-sessions"|exists "workflows"|exists "users"|exists "system"
      |exists "storage"|exists "nodes"|exists "pods"|exists "jobs"|exists "quota-usage"];
      (apply elem_of_list_to_map; [exact Hnodup|]);
      repeat (first [apply list_elem_of_here|apply list_elem_of_further]).
  - intros name1 name2 cls H1 H2.
    apply elem_of_list_to_map in H1; [|exact Hnodup].
    apply elem_of_list_to_map in H2; [|exact Hnodup].
    destruct cls; name_of_class H1; name_of_class H2; reflexivity.
Qed.
